(** * Verification of the CSV validation engine (etl/validate.py)

    A shallow embedding of [etl/validate.py]: the strict format helpers
    ([validate_email_strict], [validate_date_strict], [validate_time_strict]),
    the type coercion helper ([_coerce_and_check_series]), the main validator
    ([validate_csv]), the summary ([print_summary]) and the command line
    entry point ([_cli]); and of its callers and neighbours: the staging
    script [etl/ingest.py], the [/validate] endpoint of the admin service,
    and the transform runner [etl/transform.py].

    Conventions of the embedding.
    - A Python [str] is a [string]; its characters are the code points
      below 256.
    - A cell of the data frame read with [dtype=str] is an [option string]:
      [None] is pandas' NaN, [Some s] a raw text value.
    - A pandas Series is the list of its cells in row order, a boolean mask
      a [list bool].
    - Python integers are [Z].
    - Exceptions are values of [exn], fallible code returns a [result].
    - A call of [print] returns or raises, as standard output decides; what
      [parse_args] makes of a command line is the library's business: it
      returns the namespace or ends the process. *)

From Stdlib Require Import List String Ascii Bool Arith ZArith Lia.
From stdpp Require Import gmap strings.
Import ListNotations.

Set Default Proof Using "Type".
Local Open Scope string_scope.
Local Open Scope list_scope.
Local Open Scope nat_scope.

(* ===================================================================== *)
(** ** Python strings *)
(* ===================================================================== *)

Module PyStr.

(** [str.isspace] on one character, for the code points below 256:
    TAB..CR, FS..US, SPACE, NEL and NBSP. *)
Definition isspace (c : ascii) : bool :=
  let n := nat_of_ascii c in
  ((9 <=? n) && (n <=? 13)) || ((28 <=? n) && (n <=? 32))
  || (n =? 133) || (n =? 160).

Fixpoint lstrip (s : list ascii) : list ascii :=
  match s with
  | c :: s' => if isspace c then lstrip s' else s
  | [] => []
  end.

Fixpoint rstrip (s : list ascii) : list ascii :=
  match s with
  | c :: s' =>
      match rstrip s' with
      | [] => if isspace c then [] else [c]
      | r => c :: r
      end
  | [] => []
  end.

(** [str.strip()] with no argument. *)
Definition strip_chars (s : list ascii) : list ascii := rstrip (lstrip s).

Definition strip (s : string) : string :=
  string_of_list_ascii (strip_chars (list_ascii_of_string s)).

Definition isdigit (c : ascii) : bool :=
  let n := nat_of_ascii c in (48 <=? n) && (n <=? 57).

Definition isupper (c : ascii) : bool :=
  let n := nat_of_ascii c in (65 <=? n) && (n <=? 90).

Definition islower (c : ascii) : bool :=
  let n := nat_of_ascii c in (97 <=? n) && (n <=? 122).

Definition isalpha (c : ascii) : bool := isupper c || islower c.

(** [int(s)] for a string of decimal digits. *)
Definition digit_value (c : ascii) : Z := Z.of_nat (nat_of_ascii c) - 48.

Definition int_of_digits (s : list ascii) : Z :=
  fold_left (fun acc c => (10 * acc + digit_value c)%Z) s 0%Z.

(** [str.lower] on one character (code points below 256). *)
Definition lower_char (c : ascii) : ascii :=
  let n := nat_of_ascii c in
  if ((65 <=? n) && (n <=? 90))
     || ((192 <=? n) && (n <=? 222) && negb (n =? 215))
  then ascii_of_nat (n + 32) else c.

Definition lower (s : string) : string :=
  string_of_list_ascii (map lower_char (list_ascii_of_string s)).

End PyStr.

(* ===================================================================== *)
(** ** The fragment of Python's [re] the program uses *)
(* ===================================================================== *)

Module Re.

(** Character classes, concatenation, ordered alternation and the greedy
    repetition [cls{min,}] of a character class. *)
Inductive regex : Type :=
| Chr (p : ascii -> bool)
| Cat (r1 r2 : regex)
| Alt (r1 r2 : regex)
| Rep (p : ascii -> bool) (min : nat).

Definition lit (c : ascii) : ascii -> bool := Ascii.eqb c.

Section Matcher.
Context {A : Type}.

(** Greedy repetition with backtracking: take as many characters as
    possible, give them back one at a time while the continuation fails.
    The continuation receives the text matched and the rest of the
    input. *)
Fixpoint rep (p : ascii -> bool) (min : nat) (s : list ascii)
         (k : list ascii -> list ascii -> option A) : option A :=
  let stop := if (min =? 0)%nat then k [] s else None in
  match s with
  | c :: s' =>
      if p c then
        match rep p (Nat.pred min) s' (fun w rest => k (c :: w) rest) with
        | Some a => Some a
        | None => stop
        end
      else stop
  | [] => stop
  end.

(** Backtracking matcher in continuation passing style: [k] receives the
    text the expression matched (what a group around it captures) and the
    rest of the input; the first success in the engine's search order is
    returned. *)
Fixpoint rmatch (r : regex) (s : list ascii)
         (k : list ascii -> list ascii -> option A) : option A :=
  match r with
  | Chr p =>
      match s with
      | c :: s' => if p c then k [c] s' else None
      | [] => None
      end
  | Cat r1 r2 =>
      rmatch r1 s (fun w1 s1 => rmatch r2 s1 (fun w2 s2 => k (w1 ++ w2) s2))
  | Alt r1 r2 =>
      match rmatch r1 s k with
      | Some a => Some a
      | None => rmatch r2 s k
      end
  | Rep p min => rep p min s k
  end.
End Matcher.

(** The anchor [$] outside MULTILINE mode: the end of the string, or just
    before a newline that ends the string. *)
Definition at_dollar (rest : list ascii) : option unit :=
  match rest with
  | [] => Some tt
  | [c] => if Ascii.eqb c "010"%char then Some tt else None
  | _ => None
  end.

(** The words a regex denotes. *)
Fixpoint lang (r : regex) (w : list ascii) : Prop :=
  match r with
  | Chr p => exists c, w = [c] /\ p c = true
  | Cat r1 r2 => exists w1 w2, w = w1 ++ w2 /\ lang r1 w1 /\ lang r2 w2
  | Alt r1 r2 => lang r1 w \/ lang r2 w
  | Rep p min => Forall (fun c => p c = true) w /\ (min <= length w)%nat
  end.

End Re.

(* ===================================================================== *)
(** ** Strict format helpers *)
(* ===================================================================== *)

(** The values the helpers can receive: Python's [None], the float NaN that
    pandas puts in an empty cell, or a string. *)
Inductive pyvalue : Type :=
| PyNone
| NaN
| Str (s : string).

(** [str(value)] *)
Definition str (v : pyvalue) : string :=
  match v with
  | PyNone => "None"
  | NaN => "nan"
  | Str s => s
  end.

Definition in_chars (cs : string) (c : ascii) : bool :=
  existsb (Ascii.eqb c) (list_ascii_of_string cs).

Definition in_range (lo hi : ascii) (c : ascii) : bool :=
  (nat_of_ascii lo <=? nat_of_ascii c) && (nat_of_ascii c <=? nat_of_ascii hi).

(** [[A-Za-z0-9._%+-]] *)
Definition email_local_class (c : ascii) : bool :=
  PyStr.isalpha c || PyStr.isdigit c || in_chars "._%+-" c.

(** [[A-Za-z0-9.-]] *)
Definition email_domain_class (c : ascii) : bool :=
  PyStr.isalpha c || PyStr.isdigit c || in_chars ".-" c.

(** [_EMAIL_RE = ^[A-Za-z0-9._%+-]+@[A-Za-z0-9.-]+\.[A-Za-z]{2,}$];
    the anchors are supplied by [re_match_dollar]. *)
Definition _EMAIL_RE : Re.regex :=
  Re.Cat (Re.Rep email_local_class 1)
    (Re.Cat (Re.Chr (Re.lit "@"))
       (Re.Cat (Re.Rep email_domain_class 1)
          (Re.Cat (Re.Chr (Re.lit "."))
             (Re.Rep PyStr.isalpha 2)))).

(** [bool(r.match(v))] for a pattern that ends in [$]. *)
Definition re_match_dollar (r : Re.regex) (v : string) : bool :=
  match Re.rmatch r (list_ascii_of_string v) (fun _ => Re.at_dollar) with
  | Some _ => true
  | None => false
  end.

Definition validate_email_strict (value : pyvalue) : bool :=
  match value with
  | PyNone => false
  | _ =>
      let v := PyStr.strip (str value) in
      if String.eqb v "" then false
      else re_match_dollar _EMAIL_RE v
  end.

(* ===================================================================== *)
(** ** [datetime.strptime] for the two default formats *)
(* ===================================================================== *)

(** The program reaches the standard library's [strptime] with the format
    of the configuration, by default ["%Y-%m-%d"] and ["%H:%M:%S"].  For
    these two the library's work is written out: the format becomes a
    regular expression with one group per directive, the expression is
    matched at the start of the data, data left over after the match is an
    error, and the groups, read as integers, must make a date or a time. *)
Module Strptime.
Import Re.

Definition digit : regex := Chr PyStr.isdigit.
Definition range (lo hi : ascii) : regex := Chr (in_range lo hi).
Definition ch (c : ascii) : regex := Chr (lit c).

(** [%Y]: [\d\d\d\d] *)
Definition re_Y : regex := Cat digit (Cat digit (Cat digit digit)).

(** [%m]: [1[0-2]|0[1-9]|[1-9]] *)
Definition re_m : regex :=
  Alt (Cat (ch "1") (range "0" "2"))
    (Alt (Cat (ch "0") (range "1" "9")) (range "1" "9")).

(** [%d]: [3[0-1]|[1-2]\d|0[1-9]|[1-9]| [1-9]] *)
Definition re_d : regex :=
  Alt (Cat (ch "3") (range "0" "1"))
    (Alt (Cat (range "1" "2") digit)
       (Alt (Cat (ch "0") (range "1" "9"))
          (Alt (range "1" "9") (Cat (ch " ") (range "1" "9"))))).

(** [%H]: [2[0-3]|[0-1]\d|\d] *)
Definition re_H : regex :=
  Alt (Cat (ch "2") (range "0" "3")) (Alt (Cat (range "0" "1") digit) digit).

(** [%M]: [[0-5]\d|\d] *)
Definition re_M : regex := Alt (Cat (range "0" "5") digit) digit.

(** [%S]: [6[0-1]|[0-5]\d|\d] *)
Definition re_S : regex :=
  Alt (Cat (ch "6") (range "0" "1")) (Alt (Cat (range "0" "5") digit) digit).

(** [int(s)]: surrounding white space is ignored. *)
Definition int (s : list ascii) : Z :=
  PyStr.int_of_digits (PyStr.strip_chars s).

(** The first match of three groups separated by [sep]; the result holds
    the three groups and the data that remains after the match. *)
Definition match3 (r1 r2 r3 : regex) (sep : ascii) (data : list ascii)
  : option (list ascii * list ascii * list ascii * list ascii) :=
  rmatch r1 data (fun g1 s1 =>
    rmatch (ch sep) s1 (fun _ s2 =>
      rmatch r2 s2 (fun g2 s3 =>
        rmatch (ch sep) s3 (fun _ s4 =>
          rmatch r3 s4 (fun g3 rest => Some (g1, g2, g3, rest)))))).

(** [datetime._is_leap] and [datetime._days_in_month] *)
Definition _is_leap (year : Z) : bool :=
  ((year mod 4 =? 0) && (negb (year mod 100 =? 0) || (year mod 400 =? 0)))%Z.

Definition _days_in_month (year month : Z) : Z :=
  if (month =? 2)%Z then (if _is_leap year then 29 else 28)%Z
  else if ((month =? 4) || (month =? 6) || (month =? 9) || (month =? 11))%Z
       then 30%Z else 31%Z.

(** The checks of the [date] constructor. *)
Definition date_exists (year month day : Z) : bool :=
  ((1 <=? year) && (year <=? 9999) && (1 <=? month) && (month <=? 12)
   && (1 <=? day) && (day <=? _days_in_month year month))%Z.

(** The checks of the [datetime] constructor on the time fields. *)
Definition time_exists (hour minute second : Z) : bool :=
  ((0 <=? hour) && (hour <=? 23) && (0 <=? minute) && (minute <=? 59)
   && (0 <=? second) && (second <=? 59))%Z.

(** [strptime(data, "%Y-%m-%d")]: [Some (year, month, day)], or [None]
    when the library raises [ValueError]. *)
Definition strptime_Ymd (data : string) : option (Z * Z * Z) :=
  match match3 re_Y re_m re_d "-" (list_ascii_of_string data) with
  | Some (gY, gm, gd, []) =>
      if date_exists (int gY) (int gm) (int gd)
      then Some (int gY, int gm, int gd) else None
  | _ => None
  end.

(** [strptime(data, "%H:%M:%S")] *)
Definition strptime_HMS (data : string) : option (Z * Z * Z) :=
  match match3 re_H re_M re_S ":" (list_ascii_of_string data) with
  | Some (gH, gM, gS, []) =>
      if time_exists (int gH) (int gM) (int gS)
      then Some (int gH, int gM, int gS) else None
  | _ => None
  end.

End Strptime.

(* ===================================================================== *)
(** ** The pandas operations the validator uses *)
(* ===================================================================== *)

(** A cell read with [dtype=str]: [None] is NaN. *)
Definition cell : Type := option string.

Definition cell_value (c : cell) : pyvalue :=
  match c with
  | Some s => Str s
  | None => NaN
  end.

Definition cell_eqb (a b : cell) : bool :=
  match a, b with
  | Some x, Some y => String.eqb x y
  | None, None => true
  | _, _ => false
  end.

Module Series.

Definition zip_with {A B C : Type} (f : A -> B -> C)
  : list A -> list B -> list C :=
  fix go (l1 : list A) (l2 : list B) : list C :=
    match l1, l2 with
    | a :: l1', b :: l2' => f a b :: go l1' l2'
    | _, _ => []
    end.

(** [ser.isna()], [ser.notna()] *)
Definition isna (ser : list cell) : list bool :=
  map (fun c => match c with None => true | Some _ => false end) ser.
Definition notna (ser : list cell) : list bool :=
  map (fun c => match c with None => false | Some _ => true end) ser.

(** [ser.str.strip()]: NaN stays NaN. *)
Definition str_strip (ser : list cell) : list cell :=
  map (option_map PyStr.strip) ser.

(** [ser.eq(s)] and [ser != s]: NaN equals no string. *)
Definition eq (ser : list cell) (s : string) : list bool :=
  map (fun c => cell_eqb c (Some s)) ser.
Definition ne (ser : list cell) (s : string) : list bool :=
  map (fun c => negb (cell_eqb c (Some s))) ser.

(** [m1 | m2], [m1 & m2], [~m] *)
Definition or_ (m1 m2 : list bool) : list bool := zip_with orb m1 m2.
Definition and_ (m1 m2 : list bool) : list bool := zip_with andb m1 m2.
Definition not_ (m : list bool) : list bool := map negb m.

(** [ser.apply(f)] *)
Definition apply (f : pyvalue -> bool) (ser : list cell) : list bool :=
  map (fun c => f (cell_value c)) ser.

(** [int(mask.sum())] *)
Definition sum (m : list bool) : Z :=
  Z.of_nat (length (List.filter (fun b => b) m)).

(** [ser[mask]], [df.loc[mask, col]] *)
Definition loc {A : Type} (m : list bool) (ser : list A) : list A :=
  map snd (List.filter fst (combine m ser)).

(** [ser.head(n)] *)
Definition head {A : Type} (n : nat) (ser : list A) : list A := firstn n ser.

(** [ser.astype(str).tolist()]: NaN prints as ["nan"]. *)
Definition astype_str (ser : list cell) : list string :=
  map (fun c => str (cell_value c)) ser.

Definition count (c : cell) (ser : list cell) : nat :=
  length (List.filter (cell_eqb c) ser).

(** [ser.duplicated(keep=False)]: every occurrence of a value that occurs
    more than once is marked; two NaN are the same value. *)
Definition duplicated_keep_false (ser : list cell) : list bool :=
  map (fun c => 1 <? count c ser) ser.

(** [ser.unique()]: the distinct values in the order of appearance. *)
Fixpoint unique_from (seen : list cell) (ser : list cell) : list cell :=
  match ser with
  | [] => []
  | c :: ser' =>
      if existsb (cell_eqb c) seen then unique_from seen ser'
      else c :: unique_from (c :: seen) ser'
  end.
Definition unique (ser : list cell) : list cell := unique_from [] ser.

End Series.

Arguments Series.head : simpl never.
Arguments Series.loc : simpl never.
Arguments Series.sum : simpl never.
Arguments Series.unique : simpl never.
Arguments Series.astype_str : simpl never.

(** The data frame of [pd.read_csv(csv_p, dtype=str)]: the header and the
    rows; a row shorter than the header is filled with NaN. *)
Record DataFrame : Type := {
  columns : list string;
  rows : list (list cell)
}.

Fixpoint index_of (col : string) (cols : list string) : option nat :=
  match cols with
  | [] => None
  | c :: cols' =>
      if String.eqb col c then Some 0
      else option_map S (index_of col cols')
  end.

(** [col in df.columns] *)
Definition has_column (df : DataFrame) (col : string) : bool :=
  existsb (String.eqb col) (columns df).

(** [df[col]], for a column of the frame: every use in the program is
    guarded by [col in df.columns]. *)
Definition getitem (df : DataFrame) (col : string) : list cell :=
  match index_of col (columns df) with
  | Some i => map (fun row => nth i row None) (rows df)
  | None => []
  end.

(** [df.shape[0]] *)
Definition shape0 (df : DataFrame) : Z := Z.of_nat (length (rows df)).

(* ===================================================================== *)
(** ** Configuration *)
(* ===================================================================== *)

(** An insertion-ordered [dict] with string keys: assigning to a key that
    is present keeps its place. *)
Fixpoint dict_set (d : list (string * string)) (k v : string)
  : list (string * string) :=
  match d with
  | [] => [(k, v)]
  | (k', v') :: d' =>
      if String.eqb k k' then (k, v) :: d' else (k', v') :: dict_set d' k v
  end.

(** An entry of the [columns] list of the YAML file. *)
Inductive column_entry : Type :=
| EntryName (name : string)                      (* a bare string *)
| EntryDict (name : string) (type : option string)  (* a mapping with "name" *)
| EntryOther.                                    (* anything else: ignored *)

Record yaml_config : Type := {
  yaml_columns : list column_entry;
  yaml_required : list string;
  yaml_unique_keys : list string;
  yaml_validations : gmap string string
}.

Record config : Type := {
  col_types : list (string * string);
  required : list string;
  unique_keys : list string;
  validations : gmap string string
}.

Definition normalize_columns (cols : list column_entry)
  : list (string * string) :=
  fold_left
    (fun d c =>
       match c with
       | EntryDict name type =>
           dict_set d name (PyStr.lower (default "string" type))
       | EntryName name => dict_set d name "string"
       | EntryOther => d
       end)
    cols [].

(** Exceptions the program distinguishes, and results of fallible code. *)
Inductive exn : Type :=
| FileNotFoundError
| ValidationError
| OtherException.

Inductive result (A : Type) : Type :=
| Ok (a : A)
| Raise (e : exn).
Arguments Ok {A} a.
Arguments Raise {A} e.

(** Sequencing: an exception skips the rest.  With the instance, stdpp's
    [x ← r; k] reads as Python's statement sequence. *)
#[global] Instance result_bind : MBind result :=
  fun A B (f : A -> result B) (r : result A) =>
    match r with
    | Ok a => f a
    | Raise e => Raise e
    end.

(** What a call into a library (the file system, [yaml], pandas) can end
    with besides a value: [FileNotFoundError], or some other exception.
    No library raises the program's own [ValidationError]. *)
Inductive library_error : Type :=
| NotFound
| Failure.

Definition of_call {A : Type} (c : A + library_error) : result A :=
  match c with
  | inl a => Ok a
  | inr NotFound => Raise FileNotFoundError
  | inr Failure => Raise OtherException
  end.

(** [load_config]: [file] is [None] when the configuration file does not
    exist, otherwise the outcome of [yaml.safe_load]. *)
Definition load_config (file : option (yaml_config + library_error))
  : result config :=
  match file with
  | None => Raise FileNotFoundError
  | Some parsed =>
      cfg ← of_call parsed;
      Ok {| col_types := normalize_columns (yaml_columns cfg);
            required := yaml_required cfg;
            unique_keys := yaml_unique_keys cfg;
            validations := yaml_validations cfg |}
  end.

(* ===================================================================== *)
(** ** Findings and the report *)
(* ===================================================================== *)

(** A failing expectation, one constructor per ["expectation"] string the
    program writes, with the fields of its dictionary. *)
Inductive finding : Type :=
| expect_column_to_exist (column reason : string)
| expect_column_values_to_not_be_null
    (column : string) (unexpected_count : Z)
    (sample_unexpected_values : list string)
| expect_column_values_to_be_unique
    (column : string) (duplicate_count : Z)
    (sample_duplicate_values : list cell)
| expect_column_type_convertible
    (column desired_type : string) (failed_count : Z)
    (sample_bad_values : list string)
| expect_column_values_to_match_strict_email
    (invalid_count : Z) (sample_invalid_values : list string)
| expect_column_values_to_match_strict_date
    (invalid_count : Z) (sample_invalid_values : list string)
    (expected_format : string)
| expect_column_values_to_match_strict_time
    (invalid_count : Z) (sample_invalid_values : list string)
    (expected_format : string).

(** The ["column"] entry of a finding. *)
Definition column_of (f : finding) : string :=
  match f with
  | expect_column_to_exist c _ => c
  | expect_column_values_to_not_be_null c _ _ => c
  | expect_column_values_to_be_unique c _ _ => c
  | expect_column_type_convertible c _ _ _ => c
  | expect_column_values_to_match_strict_email _ _ => "Email"
  | expect_column_values_to_match_strict_date _ _ _ => "Date"
  | expect_column_values_to_match_strict_time _ _ _ => "Time"
  end.

(** The kinds of finding the specification names. *)
Inductive expectation_kind : Type :=
| ColumnMissing
| NullValuesPresent
| DuplicateValues
| TypeCoercionFailed
| StrictFormatInvalid.

Definition kind_of (f : finding) : expectation_kind :=
  match f with
  | expect_column_to_exist _ _ => ColumnMissing
  | expect_column_values_to_not_be_null _ _ _ => NullValuesPresent
  | expect_column_values_to_be_unique _ _ _ => DuplicateValues
  | expect_column_type_convertible _ _ _ _ => TypeCoercionFailed
  | expect_column_values_to_match_strict_email _ _ => StrictFormatInvalid
  | expect_column_values_to_match_strict_date _ _ _ => StrictFormatInvalid
  | expect_column_values_to_match_strict_time _ _ _ => StrictFormatInvalid
  end.

Definition kind_eqb (a b : expectation_kind) : bool :=
  match a, b with
  | ColumnMissing, ColumnMissing
  | NullValuesPresent, NullValuesPresent
  | DuplicateValues, DuplicateValues
  | TypeCoercionFailed, TypeCoercionFailed
  | StrictFormatInvalid, StrictFormatInvalid => true
  | _, _ => false
  end.

(** The result dictionary of [_coerce_and_check_series]. *)
Module Check.
Record t : Type := {
  success : bool;
  failed_count : Z;
  sample_values : list string
}.
End Check.

(** The result dictionary of [validate_csv]. *)
Module Report.
Record statistics : Type := {
  evaluated_expectations : Z;
  successful_expectations : Z;
  unsuccessful_expectations : Z;
  rows : Z
}.
Record meta : Type := {
  csv : string;
  config_path : string
}.
Record t : Type := {
  success : bool;
  stats : statistics;
  results : list finding;
  meta_ : meta
}.
End Report.

(** What a run finds outside the program: whether the CSV file exists, the
    configuration file ([None]: it does not exist; otherwise what
    [yaml.safe_load] gives), what [pd.read_csv] gives, and whether writing
    the report file succeeds. *)
Record world : Type := {
  csv_exists : bool;
  config_file : option (yaml_config + library_error);
  read_csv : DataFrame + library_error;
  write_report : unit + library_error
}.

(** [str(CONFIG_PATH)] *)
Definition CONFIG_PATH : string := "configs/ingestion_config.yml".

(** [t in (a, b, ...)] *)
Definition in_tuple (t : string) (ts : list string) : bool :=
  existsb (String.eqb t) ts.

(* ===================================================================== *)
(** ** The validator *)
(* ===================================================================== *)

Section Validator.

(** Library calls that are not written out: [strptime] with a format
    other than the two defaults ([true]: the data parses), the NaN mask
    of [pd.to_numeric(ser, errors="coerce")], and the NaT mask of
    [pd.to_datetime(ser, errors="coerce")], which may raise. *)
Variable strptime_other : string -> string -> bool.
Variable to_numeric_isna : list cell -> list bool.
Variable to_datetime_isna : list cell -> result (list bool).

(** [datetime.strptime(v, fmt)] does not raise. *)
Definition strptime_ok (v fmt : string) : bool :=
  if String.eqb fmt "%Y-%m-%d" then
    match Strptime.strptime_Ymd v with Some _ => true | None => false end
  else if String.eqb fmt "%H:%M:%S" then
    match Strptime.strptime_HMS v with Some _ => true | None => false end
  else strptime_other v fmt.

Definition validate_date_strict (value : pyvalue) (fmt : string) : bool :=
  match value with
  | PyNone => false
  | _ =>
      let v := PyStr.strip (str value) in
      if String.eqb v "" then false
      else strptime_ok v fmt
  end.

Definition validate_time_strict (value : pyvalue) (fmt : string) : bool :=
  match value with
  | PyNone => false
  | _ =>
      let v := PyStr.strip (str value) in
      if String.eqb v "" then false
      else strptime_ok v fmt
  end.

(** The part the three coercion branches share: the failed cells are the
    ones the coercion lost that are neither NaN nor blank. *)
Definition failed_of (coerced_isna : list bool) (ser : list cell)
  : list cell :=
  let failed_mask :=
    Series.and_ (Series.and_ coerced_isna (Series.notna ser))
                (Series.ne (Series.str_strip ser) "") in
  Series.loc failed_mask ser.

Definition _coerce_and_check_series (df_col : list cell)
           (desired_type : string) : Check.t :=
  let res := {| Check.success := true; Check.failed_count := 0;
                Check.sample_values := [] |} in
  let ser := df_col in
  let checked (failed : list cell) : Check.t :=
    let n := Z.of_nat (length failed) in
    {| Check.success := (n =? 0)%Z;
       Check.failed_count := n;
       Check.sample_values := Series.astype_str (Series.head 10 failed) |} in
  if in_tuple desired_type ["string"; "str"; "object"] then res
  else if in_tuple desired_type ["int"; "integer"] then
    checked (failed_of (to_numeric_isna ser) ser)
  else if in_tuple desired_type ["float"; "numeric"; "number"] then
    checked (failed_of (to_numeric_isna ser) ser)
  else if in_tuple desired_type ["timestamp"; "datetime"; "date"] then
    match to_datetime_isna ser with
    | Raise _ =>
        (* fallback: mark as all failed if parsing raises *)
        let failed_mask :=
          Series.and_ (Series.notna ser)
                      (Series.ne (Series.str_strip ser) "") in
        let failed := Series.loc failed_mask ser in
        {| Check.success := false;
           Check.failed_count := Z.of_nat (length failed);
           Check.sample_values :=
             Series.astype_str (Series.head 10 failed) |}
    | Ok coerced_isna => checked (failed_of coerced_isna ser)
    end
  else res.

(** *** The five groups of checks of [validate_csv] *)

(** 1) required columns exist: the loop body, then the loop *)
Definition required_exist_step (df : DataFrame) (col : string)
  : list finding :=
  if negb (has_column df col)
  then [expect_column_to_exist col "column missing"]
  else [].

Definition check_required_exist (required : list string) (df : DataFrame)
  : list finding :=
  flat_map (required_exist_step df) required.

(** 2) required columns not null (empty string or NaN) *)
Definition required_not_null_step (df : DataFrame) (col : string)
  : list finding :=
  let missing_mask :=
    Series.or_ (Series.isna (getitem df col))
               (Series.eq (Series.str_strip (getitem df col)) "") in
  let missing_count := Series.sum missing_mask in
  if (0 <? missing_count)%Z
  then [expect_column_values_to_not_be_null col missing_count
          (Series.astype_str
             (Series.head 10 (Series.loc missing_mask (getitem df col))))]
  else [].

Definition check_required_not_null (required : list string)
           (df : DataFrame) : list finding :=
  let present_required := List.filter (has_column df) required in
  flat_map (required_not_null_step df) present_required.

(** 3) unique keys *)
Definition unique_key_step (df : DataFrame) (key : string)
  : list finding :=
  if negb (has_column df key)
  then [expect_column_to_exist key "column missing (for uniqueness check)"]
  else
    let dup_mask := Series.duplicated_keep_false (getitem df key) in
    let dup_count := Series.sum dup_mask in
    if (0 <? dup_count)%Z
    then
      let dup_values :=
        firstn 20 (Series.unique (Series.loc dup_mask (getitem df key))) in
      [expect_column_values_to_be_unique key dup_count dup_values]
    else [].

Definition check_unique_keys (unique_keys : list string) (df : DataFrame)
  : list finding :=
  flat_map (unique_key_step df) unique_keys.

(** 4) type coercion checks for columns declared in config *)
Definition type_step (df : DataFrame) (item : string * string)
  : list finding :=
  let '(col, desired_type) := item in
  if negb (has_column df col) then []
  else
    let check := _coerce_and_check_series (getitem df col) desired_type in
    if negb (Check.success check)
    then [expect_column_type_convertible col desired_type
            (Check.failed_count check) (Check.sample_values check)]
    else [].

Definition check_types (col_types : list (string * string))
           (df : DataFrame) : list finding :=
  flat_map (type_step df) col_types.

(** 5) STRICT format checks for Email, Date, Time *)
Definition strict_invalid_mask (ser : list cell) (valid : pyvalue -> bool)
  : list bool :=
  Series.or_
    (Series.or_ (Series.isna ser) (Series.eq (Series.str_strip ser) ""))
    (Series.not_ (Series.apply valid ser)).

Definition check_email (df : DataFrame) : list finding :=
  if has_column df "Email" then
    let invalid_mask :=
      strict_invalid_mask (getitem df "Email") validate_email_strict in
    let invalid_count := Series.sum invalid_mask in
    if (0 <? invalid_count)%Z
    then [expect_column_values_to_match_strict_email invalid_count
            (Series.astype_str
               (Series.head 10 (Series.loc invalid_mask (getitem df "Email"))))]
    else []
  else [].

Definition check_date (validations_cfg : gmap string string)
           (df : DataFrame) : list finding :=
  if has_column df "Date" then
    let date_fmt := default "%Y-%m-%d" (validations_cfg !! "Date") in
    let invalid_mask :=
      strict_invalid_mask (getitem df "Date")
        (fun v => validate_date_strict v date_fmt) in
    let invalid_count := Series.sum invalid_mask in
    if (0 <? invalid_count)%Z
    then [expect_column_values_to_match_strict_date invalid_count
            (Series.astype_str
               (Series.head 10 (Series.loc invalid_mask (getitem df "Date"))))
            date_fmt]
    else []
  else [].

Definition check_time (validations_cfg : gmap string string)
           (df : DataFrame) : list finding :=
  if has_column df "Time" then
    let time_fmt := default "%H:%M:%S" (validations_cfg !! "Time") in
    let invalid_mask :=
      strict_invalid_mask (getitem df "Time")
        (fun v => validate_time_strict v time_fmt) in
    let invalid_count := Series.sum invalid_mask in
    if (0 <? invalid_count)%Z
    then [expect_column_values_to_match_strict_time invalid_count
            (Series.astype_str
               (Series.head 10 (Series.loc invalid_mask (getitem df "Time"))))
            time_fmt]
    else []
  else [].

(** The list [failing] when the checks are over. *)
Definition failing (cfg : config) (df : DataFrame) : list finding :=
  check_required_exist (required cfg) df
  ++ check_required_not_null (required cfg) df
  ++ check_unique_keys (unique_keys cfg) df
  ++ check_types (col_types cfg) df
  ++ check_email df
  ++ check_date (validations cfg) df
  ++ check_time (validations cfg) df.

(** The dictionary [result] built from the configuration and the frame. *)
Definition build_result (csv_path : string) (cfg : config) (df : DataFrame)
  : Report.t :=
  let total_rows := shape0 df in
  let failing := failing cfg df in
  let total_expectations :=
    (Z.of_nat (length (required cfg)) + Z.of_nat (length (unique_keys cfg))
     + Z.of_nat (length (col_types cfg)) + 3)%Z in
  let unsuccessful := Z.of_nat (length failing) in
  let successful := Z.max 0 (total_expectations - unsuccessful) in
  {| Report.success := (unsuccessful =? 0)%Z;
     Report.stats :=
       {| Report.evaluated_expectations := total_expectations;
          Report.successful_expectations := successful;
          Report.unsuccessful_expectations := unsuccessful;
          Report.rows := total_rows |};
     Report.results := failing;
     Report.meta_ :=
       {| Report.csv := csv_path; Report.config_path := CONFIG_PATH |} |}.

Definition validate_csv (w : world) (csv_path : string)
           (save_result : bool) : result Report.t :=
  if negb (csv_exists w) then Raise FileNotFoundError
  else
    cfg ← load_config (config_file w);
    df ← of_call (read_csv w);
    let result := build_result csv_path cfg df in
    _ ← (if save_result then of_call (write_report w) else Ok tt);
    Ok result.

(** *** Command line *)

(** The attributes of the namespace that [parser.parse_args()] returns. *)
Record args : Type := {
  csv : string;
  no_save : bool;
  raise_on_fail : bool
}.

(** What [parser.parse_args()] makes of the command line: it returns the
    namespace, or it ends the process itself, by [parser.error] (usage
    message, exit status 2) when it rejects the command line, or by the
    help action of [-h] and [--help] (help text, exit status 0). *)
Inductive parsed : Type :=
| Namespace (a : args)
| Usage_error
| Help_exit.

(** The calls of [print] of the module, one constructor per call; the
    text is the one of the string or f-string in the source. *)
Inductive line : Type :=
| Summary_title                     (* "\nValidation summary:" *)
| Summary_success (success : bool)  (* "  success: {...}" *)
| Summary_evaluated (n : Z)         (* "  evaluated_expectations: {...}" *)
| Summary_successful (n : Z)        (* "  successful_expectations: {...}" *)
| Summary_unsuccessful (n : Z)      (* "  unsuccessful_expectations: {...}" *)
| Summary_rows (n : Z)              (* "  rows: {...}" *)
| Failing_title                     (* "\nFailing expectations (up to 10):" *)
| Failing_item (f : finding)        (* " - {exp} on {col}: {reason}" *)
| No_failing                        (* "No failing expectations." *)
| Error_line                        (* "ERROR: {e}" *)
| Validation_error_line             (* "VALIDATION ERROR: {e}" *)
| Unexpected_error_line.            (* "UNEXPECTED ERROR:" *)

(** Standard output: after the lines printed so far, a call of [print]
    returns ([None]) or raises. *)
Definition stdout : Type := list line -> line -> option exn.

Definition print (out : stdout) (l : line) (log : list line)
  : list line * result unit :=
  match out log l with
  | None => (log ++ [l], Ok tt)
  | Some e => (log, Raise e)
  end.

(** Calls of [print] one after the other, up to the first that raises. *)
Fixpoint print_all (out : stdout) (ls : list line) (log : list line)
  : list line * result unit :=
  match ls with
  | [] => (log, Ok tt)
  | l :: ls' =>
      match print out l log with
      | (log', Ok _) => print_all out ls' log'
      | (log', Raise e) => (log', Raise e)
      end
  end.

(** The lines of [print_summary], in order. *)
Definition summary_lines (report : Report.t) : list line :=
  let stats := Report.stats report in
  [Summary_title;
   Summary_success (Report.success report);
   Summary_evaluated (Report.evaluated_expectations stats);
   Summary_successful (Report.successful_expectations stats);
   Summary_unsuccessful (Report.unsuccessful_expectations stats);
   Summary_rows (Report.rows stats)]
  ++ match Report.results report with
     | [] => [No_failing]
     | failing => Failing_title :: map Failing_item (firstn 10 failing)
     end.

Definition print_summary (out : stdout) (report : Report.t)
           (log : list line) : list line * result unit :=
  print_all out (summary_lines report) log.

(** [parser.parse_args()] for the parser of [_cli], on [sys.argv[1:]]. *)
Variable parse_args : list string -> parsed.

(** The body of the [try] block, with the lines printed: [Ok n] is
    [sys.exit(n)], which no [except] clause of the program catches. *)
Definition _cli_try (a : args) (w : world) (out : stdout)
  : list line * result Z :=
  match validate_csv w (csv a) (negb (no_save a)) with
  | Raise e => ([], Raise e)
  | Ok res =>
      match print_summary out res [] with
      | (log, Raise e) => (log, Raise e)
      | (log, Ok _) =>
          if negb (Report.success res) && raise_on_fail a
          then (log, Raise ValidationError)
          else (log, Ok (if Report.success res then 0%Z else 2%Z))
      end
  end.

(** An [except] clause: it prints its line, then calls [sys.exit(code)];
    when the [print] raises, the exception leaves [_cli] uncaught and the
    interpreter ends the process with status 1. *)
Definition except (out : stdout) (log : list line) (l : line) (code : Z)
  : Z :=
  match out log l with
  | None => code
  | Some _ => 1%Z
  end.

(** The exit status of the process. *)
Definition _cli (argv : list string) (w : world) (out : stdout) : Z :=
  match parse_args argv with
  | Usage_error => 2%Z
  | Help_exit => 0%Z
  | Namespace a =>
      match _cli_try a w out with
      | (_, Ok code) => code
      | (log, Raise FileNotFoundError) => except out log Error_line 3%Z
      | (log, Raise ValidationError) =>
          except out log Validation_error_line 4%Z
      | (log, Raise OtherException) =>
          except out log Unexpected_error_line 5%Z
      end
  end.

End Validator.

(* ===================================================================== *)
(** ** The callers of the validator: [etl/ingest.py] and the admin service *)
(* ===================================================================== *)

(** The names that [etl/validate.py] binds at its top level: its imports,
    its constants, its exception class and its functions. *)
Definition validate_module : list string :=
  ["Path"; "argparse"; "json"; "sys"; "yaml"; "traceback"; "re"; "datetime";
   "REPO_ROOT"; "CONFIG_PATH"; "VALIDATION_DIR"; "ValidationError";
   "load_config"; "_EMAIL_RE"; "validate_email_strict";
   "validate_date_strict"; "validate_time_strict";
   "_coerce_and_check_series"; "validate_csv"; "print_summary"; "_cli"].

(** An exception with its message, for the callers that print or return
    [str(e)]. *)
Inductive raised (A : Type) : Type :=
| Returns (a : A)
| Raises (message : string).
Arguments Returns {A} a.
Arguments Raises {A} message.

#[global] Instance raised_bind : MBind raised :=
  fun A B (f : A -> raised B) (r : raised A) =>
    match r with
    | Returns a => f a
    | Raises m => Raises m
    end.

(** [module.name]: the attribute, or [AttributeError]. *)
Definition getattr (module_name : string) (module : list string)
           (name : string) : raised string :=
  if existsb (String.eqb name) module then Returns name
  else Raises ("module '" ++ module_name ++ "' has no attribute '" ++ name
               ++ "'")%string.

Module Ingest.

(** What [copy_to_dest] and the import of the validator find outside the
    program: [None] when the call succeeds, the message of the exception
    otherwise. *)
Record world : Type := {
  resolve : raised string;       (* src_p = Path(src).expanduser().resolve() *)
  src_exists : bool;             (* src_p.exists() *)
  mkdir : option string;         (* dest.parent.mkdir(parents=True, ...) *)
  copy2 : option string;         (* shutil.copy2(src_p, dest) *)
  import_validate : option string  (* from etl import validate *)
}.

Definition call (outcome : option string) : raised unit :=
  match outcome with
  | None => Returns tt
  | Some message => Raises message
  end.

Definition copy_to_dest (w : world) (src dest : string) : raised string :=
  src_p ← resolve w;
  if negb (src_exists w) then Raises ("Source not found: " ++ src_p)%string
  else
    _ ← call (mkdir w);
    _ ← call (copy2 w);
    Returns dest.

(** The calls of [print] of the module, one constructor per call. *)
Inductive line : Type :=
| Copied                   (* "Copied {args.src} -> {out}" *)
| Error_copying            (* "Error copying file: {e}" *)
| Running_validation       (* "Running validation..." *)
| Validation_failed        (* "Validation failed: {e}" *)
| Completed_with_errors    (* "Ingest completed with validation errors." *)
| Finished.                (* "Ingest finished successfully." *)

(** Standard output: after the lines printed so far, a call of [print]
    returns ([None]) or raises. *)
Definition stdout : Type := list line -> line -> option string.

Definition print (out : stdout) (l : line) (log : list line)
  : list line * raised unit :=
  match out log l with
  | None => (log ++ [l], Returns tt)
  | Some message => (log, Raises message)
  end.

Record args : Type := {
  src : string;
  dest : string;
  validate : bool
}.

(** What [parser.parse_args()] makes of the command line: the namespace,
    or the end of the process, with status 2 for a command line it
    rejects and 0 for the help text. *)
Inductive parsed : Type :=
| Namespace (a : args)
| Usage_error
| Help_exit.

Section Run.

(** Calling an attribute of the validator module on a path: what it
    returns, as a truth value, or the exception it raises. *)
Variable call_attribute : string -> string -> raised bool.

(** [parser.parse_args()] for the parser of [main], on [sys.argv[1:]]. *)
Variable parse_args : list string -> parsed.

(** The [except] clause of [run_validation_if_requested]. *)
Definition validation_failed (out : stdout) (log : list line)
  : list line * raised bool :=
  match print out Validation_failed log with
  | (log', Returns _) => (log', Returns false)
  | (log', Raises message) => (log', Raises message)
  end.

Definition run_validation_if_requested (w : world) (out : stdout)
           (dest : string) (do_validate : bool) (log : list line)
  : list line * raised bool :=
  if negb do_validate then (log, Returns true)
  else
    match call (import_validate w) with
    | Raises _ => validation_failed out log
    | Returns _ =>
        match print out Running_validation log with
        | (log', Raises _) => validation_failed out log'
        | (log', Returns _) =>
            match (f ← getattr "etl.validate" validate_module
                       "run_validation";
                   call_attribute f dest) with
            | Returns ok => (log', Returns ok)
            | Raises _ => validation_failed out log'
            end
        end
    end.

(** The exit status of the process: 0 when [main] returns, the argument of
    [SystemExit] when it is raised, 1 when another exception leaves [main]
    uncaught.  The [except] clause of the copy prints, then raises
    [SystemExit(1)]: the status is 1 whether its [print] returns or
    raises. *)
Definition main (argv : list string) (w : world) (out : stdout) : Z :=
  match parse_args argv with
  | Usage_error => 2%Z
  | Help_exit => 0%Z
  | Namespace a =>
      match copy_to_dest w (src a) (dest a) with
      | Raises _ => 1%Z
      | Returns _ =>
          match print out Copied [] with
          | (_, Raises _) => 1%Z
          | (log, Returns _) =>
              match run_validation_if_requested w out (dest a) (validate a)
                      log with
              | (_, Raises _) => 1%Z
              | (log', Returns ok) =>
                  if negb ok then
                    match print out Completed_with_errors log' with
                    | (_, Returns _) => 2%Z
                    | (_, Raises _) => 1%Z
                    end
                  else
                    match print out Finished log' with
                    | (_, Returns _) => 0%Z
                    | (_, Raises _) => 1%Z
                    end
              end
          end
      end
  end.

End Run.
End Ingest.

Module AdminService.

(** The body of a JSON response. *)
Inductive body : Type :=
| Error (message : string)          (* {"error": message} *)
| ValidationOk (ok : bool).         (* {"validation_ok": ok} *)

Record world : Type := {
  staged_exists : bool;               (* staged.exists() *)
  import_validate : option string     (* from etl import validate *)
}.

Section Endpoint.

Variable call_attribute : string -> string -> raised bool.

(** [validate_endpoint]: the body and the status of the response. *)
Definition validate_endpoint (w : world) (staged : string) : body * Z :=
  if negb (staged_exists w) then (Error "no staged file", 400%Z)
  else
    match (_ ← Ingest.call (import_validate w);
           f ← getattr "etl.validate" validate_module "run_validation";
           call_attribute f staged) with
    | Returns ok => (ValidationOk ok, 200%Z)
    | Raises message => (Error message, 500%Z)
    end.

End Endpoint.
End AdminService.

(* ===================================================================== *)
(** ** The transform runner: [etl/transform.py] *)
(* ===================================================================== *)

Module Transform.

(** What the runner does to the database, in order. *)
Inductive event : Type :=
| ToSql (table : string)          (* df.to_sql(table, conn, if_exists="replace") *)
| ExecuteScript (file : string)   (* conn.executescript(text of file) *)
| Commit                          (* conn.commit() *)
| Close.                          (* conn.close() *)

(** The calls of [print] of the module, one constructor per call. *)
Inductive line : Type :=
| Wrote                          (* "Wrote {len(df)} rows -> {table_name}" *)
| Running (file : string)        (* "Running transform: {sql_file.name}" *)
| Error_running (file : string)  (* "Error running {sql_file.name}: {e}" *)
| Completed.                     (* "Transforms completed. ..." *)

(** What a run finds outside the program; a call gives [None] when it
    succeeds and the message of its exception otherwise.  What
    [executescript] does depends on the scripts run before it. *)
Record world : Type := {
  csv_exists : bool;
  mkdir : option string;
  connect : option string;
  read_csv : option string;
  to_sql : option string;
  sql_files : list string;                 (* transforms_dir.glob("*.sql") *)
  read_text : string -> raised string;
  executescript : list string -> string -> option string;
  commit : option string;
  close : option string;
  print : line -> option string
}.

(** A computation that appends to the log of events and returns or
    raises. *)
Definition io (A : Type) : Type := list event -> list event * raised A.

Definition ret {A : Type} (a : A) : io A := fun log => (log, Returns a).

Definition bind {A B : Type} (m : io A) (f : A -> io B) : io B :=
  fun log =>
    match m log with
    | (log', Returns a) => f a log'
    | (log', Raises message) => (log', Raises message)
    end.

(** A call that is logged, then succeeds or raises. *)
Definition perform (e : event) (outcome : option string) : io unit :=
  fun log =>
    (log ++ [e], match outcome with
                 | None => Returns tt
                 | Some message => Raises message
                 end).

(** A call that is not logged. *)
Definition lift {A : Type} (r : raised A) : io A := fun log => (log, r).

Definition say (w : world) (l : line) : io unit :=
  lift (Ingest.call (print w l)).

(** [try: body except Exception: handler; raise]: the exception of [body]
    is raised again after [handler], unless [handler] raises its own. *)
Definition try_reraise {A : Type} (body : io A) (handler : io unit)
  : io A :=
  fun log =>
    match body log with
    | (log', Returns a) => (log', Returns a)
    | (log', Raises message) =>
        match handler log' with
        | (log'', Returns _) => (log'', Raises message)
        | (log'', Raises message') => (log'', Raises message')
        end
    end.

(** [try: body finally: final]: [final] always runs; its exception, if
    any, replaces the outcome of [body]. *)
Definition try_finally {A : Type} (body : io A) (final : io unit) : io A :=
  fun log =>
    match body log with
    | (log', outcome) =>
        match final log' with
        | (log'', Returns _) => (log'', outcome)
        | (log'', Raises message) => (log'', Raises message)
        end
    end.

(** [sorted]: names in the order of their code points. *)
Fixpoint insert_sorted (x : string) (l : list string) : list string :=
  match l with
  | [] => [x]
  | y :: l' => if String.leb x y then x :: l else y :: insert_sorted x l'
  end.

Definition sorted (l : list string) : list string :=
  fold_right insert_sorted [] l.

Definition csv_to_sqlite_table (w : world) (table_name : string) : io unit :=
  bind (lift (Ingest.call (read_csv w)))
       (fun _ => bind (perform (ToSql table_name) (to_sql w))
                      (fun _ => say w Wrote)).

(** The loop of [run_sql_scripts] over the sorted files; [ran] holds the
    texts already executed. *)
Fixpoint run_scripts (w : world) (ran : list string) (files : list string)
  : io unit :=
  match files with
  | [] => ret tt
  | sql_file :: files' =>
      bind (lift (read_text w sql_file))
           (fun sql_text =>
              bind (try_reraise
                      (bind (say w (Running sql_file))
                            (fun _ =>
                               perform (ExecuteScript sql_file)
                                 (executescript w ran sql_text)))
                      (say w (Error_running sql_file)))
                   (fun _ => run_scripts w (ran ++ [sql_text]) files'))
  end.

Definition run_sql_scripts (w : world) : io unit :=
  run_scripts w [] (sorted (sql_files w)).

Definition main (w : world) (csv_path : string) : io unit :=
  if negb (csv_exists w) then
    lift (Raises ("CSV not found: " ++ csv_path
                  ++ ". Run etl/ingest.py first to stage it.")%string)
  else
    bind (lift (Ingest.call (mkdir w)))
         (fun _ =>
            bind (lift (Ingest.call (connect w)))
                 (fun _ =>
                    try_finally
                      (bind (csv_to_sqlite_table w "transactions")
                            (fun _ =>
                               bind (run_sql_scripts w)
                                    (fun _ => say w Completed)))
                      (bind (perform Commit (commit w))
                            (fun _ => perform Close (close w))))).

End Transform.

(* ===================================================================== *)
(** ** Notions the properties are stated with *)
(* ===================================================================== *)

Definition chars (s : string) : list ascii := list_ascii_of_string s.

(** The words [local-part@domain.tld]: a non-empty local part over
    [[A-Za-z0-9._%+-]], a non-empty domain over [[A-Za-z0-9.-]], a dot, and
    a suffix of at least two letters. *)
Definition email_shape (v : list ascii) : Prop :=
  exists l d t,
    v = l ++ "@"%char :: d ++ "."%char :: t /\
    l <> [] /\ Forall (fun c => email_local_class c = true) l /\
    d <> [] /\ Forall (fun c => email_domain_class c = true) d /\
    2 <= length t /\ Forall (fun c => PyStr.isalpha c = true) t.

(** Two dots in a row somewhere in the text. *)
Fixpoint consecutive_dots (v : list ascii) : bool :=
  match v with
  | c1 :: v' =>
      match v' with
      | c2 :: _ =>
          (Ascii.eqb c1 "." && Ascii.eqb c2 ".") || consecutive_dots v'
      | [] => false
      end
  | [] => false
  end.

(** A cell is null or blank: NaN, or empty once trimmed. *)
Definition null_or_blank (c : cell) : bool :=
  match c with
  | None => true
  | Some s => String.eqb (PyStr.strip s) ""
  end.

(** The pattern [YYYY-MM-DD] exactly, in the words of the specification:
    four digits, a dash, two digits, a dash, two digits; the result holds
    the three numbers. *)
Definition iso_date_fields (v : string) : option (Z * Z * Z) :=
  match chars v with
  | [y1; y2; y3; y4; s1; m1; m2; s2; d1; d2] =>
      if forallb PyStr.isdigit [y1; y2; y3; y4; m1; m2; d1; d2]
         && Ascii.eqb s1 "-" && Ascii.eqb s2 "-"
      then Some (PyStr.int_of_digits [y1; y2; y3; y4],
                 PyStr.int_of_digits [m1; m2],
                 PyStr.int_of_digits [d1; d2])
      else None
  | _ => None
  end.

(** The strict date check in the words of the specification: the cell is
    not null, not blank, matches [YYYY-MM-DD] exactly (once trimmed) and
    names a calendar date that exists. *)
Definition spec_date_valid (c : cell) : bool :=
  match c with
  | None => false
  | Some s =>
      negb (String.eqb (PyStr.strip s) "")
      && match iso_date_fields (PyStr.strip s) with
         | Some (y, m, d) => Strptime.date_exists y m d
         | None => false
         end
  end.

(** A cell fails the strict date check of the program. *)
Definition date_invalid (strptime_other : string -> string -> bool)
           (fmt : string) (c : cell) : bool :=
  null_or_blank c
  || negb (validate_date_strict strptime_other (cell_value c) fmt).

(** The cells whose value occurs at least twice in the series. *)
Definition duplicates (ser : list cell) : list cell :=
  List.filter (fun c => 1 <? Series.count c ser) ser.

(** A cell that a type coercion check counts as failed: it is neither NaN
    nor blank. *)
Definition present_cell (c : cell) : bool := negb (null_or_blank c).

(** The type tags [_coerce_and_check_series] checks: the integer, float and
    timestamp declarations with their aliases. *)
Definition checked_tags : list string :=
  ["int"; "integer"; "float"; "numeric"; "number";
   "timestamp"; "datetime"; "date"].

(** The result of a coercion check that found nothing. *)
Definition check_passed : Check.t :=
  {| Check.success := true; Check.failed_count := 0;
     Check.sample_values := [] |}.

(** The mask of the cells the coercion to [ty] lost: the NaN mask of
    [pd.to_numeric] for an integer or float declaration, the NaT mask of
    [pd.to_datetime] for a timestamp declaration; there is none for
    another type tag, and none when [pd.to_datetime] raises. *)
Definition coercion_mask (to_numeric_isna : list cell -> list bool)
           (to_datetime_isna : list cell -> result (list bool))
           (ty : string) (ser : list cell) : option (list bool) :=
  if in_tuple ty ["int"; "integer"; "float"; "numeric"; "number"]
  then Some (to_numeric_isna ser)
  else if in_tuple ty ["timestamp"; "datetime"; "date"]
  then match to_datetime_isna ser with
       | Ok coerced_isna => Some coerced_isna
       | Raise _ => None
       end
  else None.


(** The cells, in row order, that a mask marks and that are neither NaN
    nor blank. *)
Definition lost_cells (m : list bool) (ser : list cell) : list cell :=
  map snd
    (List.filter (fun p => fst p && present_cell (snd p)) (combine m ser)).



Definition except_code (e : exn) : Z :=
  match e with
  | FileNotFoundError => 3
  | ValidationError => 4
  | OtherException => 5
  end.

(** The runner has opened the connection: the CSV file is there, and the
    directory of the database and the connection could be made. *)
Definition opened (w : Transform.world) : bool :=
  Transform.csv_exists w && bool_decide (Transform.mkdir w = None)
  && bool_decide (Transform.connect w = None).

(** Names in ascending order of their code points. *)
Fixpoint ascending (l : list string) : Prop :=
  match l with
  | a :: (b :: _) as l' => String.leb a b = true /\ ascending l'
  | _ => True
  end.

(** The findings of one kind about one column. *)
Definition select (k : expectation_kind) (col : string) (fs : list finding)
  : list finding :=
  List.filter
    (fun f => kind_eqb (kind_of f) k && String.eqb (column_of f) col) fs.

(** A cell fails the strict email check. *)
Definition email_invalid (c : cell) : bool :=
  null_or_blank c || negb (validate_email_strict (cell_value c)).

(** A cell fails the strict time check of the program. *)
Definition time_invalid (strptime_other : string -> string -> bool)
           (fmt : string) (c : cell) : bool :=
  null_or_blank c
  || negb (validate_time_strict strptime_other (cell_value c) fmt).

(** What a finding says of its counts, in a frame of [rows] rows: the
    count is at most the number of rows and at least 1 (at least 2 for
    duplicates; a type finding may hold 0), the sample holds the first 10
    of the counted cells, and a sample of duplicates holds at most 20
    distinct values, each of which accounts for two counted cells at
    least. *)
Definition finding_bounded (rows : Z) (f : finding) : Prop :=
  match f with
  | expect_column_to_exist _ _ => True
  | expect_column_values_to_not_be_null _ n sample =>
      (1 <= n <= rows)%Z /\ Z.of_nat (length sample) = Z.min 10 n
  | expect_column_values_to_be_unique _ n values =>
      (2 <= n <= rows)%Z /\ 1 <= length values <= 20
      /\ (2 * Z.of_nat (length values) <= n)%Z /\ List.NoDup values
  | expect_column_type_convertible _ _ n sample =>
      (0 <= n <= rows)%Z /\ Z.of_nat (length sample) = Z.min 10 n
  | expect_column_values_to_match_strict_email n sample
  | expect_column_values_to_match_strict_date n sample _
  | expect_column_values_to_match_strict_time n sample _ =>
      (1 <= n <= rows)%Z /\ Z.of_nat (length sample) = Z.min 10 n
  end.

(** The check a finding comes from, numbered as in [validate_csv]; the
    strict checks are numbered 5, 6 and 7 in the order they run. *)
Definition check_rank (f : finding) : nat :=
  match f with
  | expect_column_to_exist _ reason =>
      if String.eqb reason "column missing" then 1 else 3
  | expect_column_values_to_not_be_null _ _ _ => 2
  | expect_column_values_to_be_unique _ _ _ => 3
  | expect_column_type_convertible _ _ _ _ => 4
  | expect_column_values_to_match_strict_email _ _ => 5
  | expect_column_values_to_match_strict_date _ _ _ => 6
  | expect_column_values_to_match_strict_time _ _ _ => 7
  end.

(** [d.get(k)] on the dictionary of column types. *)
Fixpoint dict_get (d : list (string * string)) (k : string) : option string :=
  match d with
  | [] => None
  | (k', v) :: d' => if String.eqb k k' then Some v else dict_get d' k
  end.

(** What an entry of [columns] declares: a name and a type tag in lower
    case, ["string"] when no type is given. *)
Definition declared (c : column_entry) : option (string * string) :=
  match c with
  | EntryName name => Some (name, "string")
  | EntryDict name type => Some (name, PyStr.lower (default "string" type))
  | EntryOther => None
  end.

Definition declared_names (cols : list column_entry) : list string :=
  flat_map (fun c => match declared c with
                     | Some (name, _) => [name]
                     | None => []
                     end) cols.

(** The type of the last entry that declares [name]. *)
Fixpoint last_declared (cols : list column_entry) (name : string)
  : option string :=
  match cols with
  | [] => None
  | c :: cols' =>
      match last_declared cols' name with
      | Some t => Some t
      | None =>
          match declared c with
          | Some (n, t) => if String.eqb name n then Some t else None
          | None => None
          end
      end
  end.

(** The distinct names of a list in the order of first appearance. *)
Fixpoint first_seen_from (seen l : list string) : list string :=
  match l with
  | [] => []
  | n :: l' =>
      if existsb (String.eqb n) seen then first_seen_from seen l'
      else n :: first_seen_from (seen ++ [n]) l'
  end.

Definition first_seen (l : list string) : list string := first_seen_from [] l.

(** A field written with one or two decimal digits. *)
Definition numeral (w : list ascii) : Prop :=
  (length w = 1 \/ length w = 2)
  /\ Forall (fun c => PyStr.isdigit c = true) w.

(** The texts [h:m:s] with fields of one or two digits, an hour up to 23,
    a minute and a second up to 59. *)
Definition time_text (v : list ascii) (h m s : Z) : Prop :=
  exists wh wm ws,
    v = wh ++ ":"%char :: wm ++ ":"%char :: ws
    /\ numeral wh /\ numeral wm /\ numeral ws
    /\ h = PyStr.int_of_digits wh /\ m = PyStr.int_of_digits wm
    /\ s = PyStr.int_of_digits ws
    /\ (h <= 23)%Z /\ (m <= 59)%Z /\ (s <= 59)%Z.

(** The texts [y-m-d] with a year of four digits, a month of one or two
    digits, and a day of one or two digits or of a space and a digit, that
    name a date of the calendar. *)
Definition date_text (v : list ascii) (y m d : Z) : Prop :=
  exists wy wm wd,
    v = wy ++ "-"%char :: wm ++ "-"%char :: wd
    /\ length wy = 4 /\ Forall (fun c => PyStr.isdigit c = true) wy
    /\ numeral wm
    /\ (numeral wd
        \/ exists c, wd = [" "%char; c] /\ PyStr.isdigit c = true)
    /\ y = PyStr.int_of_digits wy /\ m = PyStr.int_of_digits wm
    /\ d = Strptime.int wd
    /\ Strptime.date_exists y m d = true.

(** Concrete inputs, and simple stand-ins for the library calls that are
    not written out, to run the validator: a number is a non-empty string
    of digits, a timestamp a date in the default format, and no other
    [strptime] format parses anything. *)
Module Sample.

Definition strptime_other (v fmt : string) : bool := false.

Definition to_numeric_isna (ser : list cell) : list bool :=
  map (fun c =>
         match c with
         | Some s =>
             String.eqb s "" || negb (forallb PyStr.isdigit (chars s))
         | None => true
         end) ser.

Definition to_datetime_isna (ser : list cell) : result (list bool) :=
  Ok (map (fun c =>
             match c with
             | Some s =>
                 match Strptime.strptime_Ymd s with
                 | Some _ => false
                 | None => true
                 end
             | None => true
             end) ser).

Definition df : DataFrame :=
  {| columns := ["id"; "Email"; "Date"; "amount"];
     rows := [ [Some "A"; Some "a@b.com"; Some "2024-02-29"; Some "10"];
               [Some "B"; Some "a@b"; Some "2024-02-30"; Some "x"];
               [Some "A"; None; Some "24-02-29"; Some " "];
               [Some "C"; Some "a b@c.com"; Some "2024-2-9"];
               [Some "A"; Some " "; Some "2024-12-31"; Some "7"] ] |}.

(** One key column with the values [A, B, A, C, A]. *)
Definition keys_df : DataFrame :=
  {| columns := ["k"];
     rows := [[Some "A"]; [Some "B"]; [Some "A"]; [Some "C"]; [Some "A"]] |}.

(** One [Date] column with a month and a day of one digit. *)
Definition unpadded_date_df : DataFrame :=
  {| columns := ["Date"]; rows := [[Some "2024-2-9"]] |}.

(** The frame [df] with other ids and amounts, and one column more. *)
Definition df_other : DataFrame :=
  {| columns := ["Email"; "id"; "Date"; "amount"; "Time"];
     rows := [ [Some "a@b.com"; Some "1"; Some "2024-02-29"; Some "1"; None];
               [Some "a@b"; Some "2"; Some "2024-02-30"; Some "2"];
               [None; Some "3"; Some "24-02-29"; Some "3"];
               [Some "a b@c.com"; Some "4"; Some "2024-2-9"; Some "4"];
               [Some " "; Some "5"; Some "2024-12-31"] ] |}.

Definition empty_df : DataFrame :=
  {| columns := ["id"; "Email"; "Date"; "Time"; "amount"]; rows := [] |}.

Definition cfg : config :=
  {| col_types := [("id", "string"); ("amount", "int"); ("Date", "timestamp");
                   ("note", "float"); ("Email", "varchar")];
     required := ["customer_id"; "Email"];
     unique_keys := ["id"; "customer_id"];
     validations := {["Email" := "email"]} |}.

Definition yaml : yaml_config :=
  {| yaml_columns := [EntryDict "id" None; EntryDict "amount" (Some "INT");
                      EntryDict "Date" (Some "timestamp");
                      EntryDict "note" (Some "float");
                      EntryDict "Email" (Some "varchar")];
     yaml_required := ["customer_id"; "Email"];
     yaml_unique_keys := ["id"; "customer_id"];
     yaml_validations := {["Email" := "email"]} |}.

Definition world_of (d : DataFrame) : world :=
  {| csv_exists := true;
     config_file := Some (inl yaml);
     read_csv := inl d;
     write_report := inl tt |}.

Definition failing := failing strptime_other to_numeric_isna to_datetime_isna.
Definition validate_csv :=
  validate_csv strptime_other to_numeric_isna to_datetime_isna.

Definition report : Report.t :=
  build_result strptime_other to_numeric_isna to_datetime_isna
    "staged.csv" cfg df.

(** A world where the report file cannot be written. *)
Definition world_read_only (d : DataFrame) : world :=
  {| csv_exists := true;
     config_file := Some (inl yaml);
     read_csv := inl d;
     write_report := inr Failure |}.





(** [parse_args] on command lines whose arguments that start with [-] are
    option strings of the parser spelled in full: the help action ends the
    scan, a second path or a missing one is a usage error. *)
Fixpoint parse_from (argv : list string) (paths : list string)
         (no_save raise_on_fail : bool) : parsed :=
  match argv with
  | [] =>
      match paths with
      | [path] =>
          Namespace {| csv := path; no_save := no_save;
                       raise_on_fail := raise_on_fail |}
      | _ => Usage_error
      end
  | arg :: argv' =>
      if String.eqb arg "-h" || String.eqb arg "--help" then Help_exit
      else if String.eqb arg "--no-save"
      then parse_from argv' paths true raise_on_fail
      else if String.eqb arg "--raise-on-fail"
      then parse_from argv' paths no_save true
      else parse_from argv' (paths ++ [arg]) no_save raise_on_fail
  end.

Definition parse_args (argv : list string) : parsed :=
  parse_from argv [] false false.







Definition _cli :=
  _cli strptime_other to_numeric_isna to_datetime_isna parse_args.

(** A run of the transform runner where every call succeeds, with three
    scripts. *)
Definition transform_world : Transform.world :=
  {| Transform.csv_exists := true;
     Transform.mkdir := None;
     Transform.connect := None;
     Transform.read_csv := None;
     Transform.to_sql := None;
     Transform.sql_files := ["b.sql"; "a.sql"; "B.sql"];
     Transform.read_text := fun f => Returns ("-- " ++ f)%string;
     Transform.executescript := fun _ _ => None;
     Transform.commit := None;
     Transform.close := None;
     Transform.print := fun _ => None |}.

End Sample.

(* ===================================================================== *)
(** ** Facts about the series operations *)
(* ===================================================================== *)

Module SeriesFacts.
Import Series.

Lemma zip_with_map {A B C D : Type} (f : B -> C -> D) (g : A -> B)
      (h : A -> C) (l : list A) :
  zip_with f (map g l) (map h l) = map (fun x => f (g x) (h x)) l.
Proof.
  induction l as [|x l IH]; simpl; [reflexivity|]. now rewrite IH.
Qed.

Lemma zip_with_map_l {A B C D : Type} (f : B -> C -> D) (g : A -> B)
      (l : list A) (m : list C) :
  zip_with f (map g l) m = zip_with (fun x c => f (g x) c) l m.
Proof.
  revert m; induction l as [|x l IH]; intros [|c m]; simpl; try reflexivity.
  now rewrite IH.
Qed.

Lemma loc_map {A : Type} (p : A -> bool) (l : list A) :
  loc (map p l) l = List.filter p l.
Proof.
  unfold loc. induction l as [|x l IH]; simpl; [reflexivity|].
  destruct (p x); simpl; now rewrite IH.
Qed.

Lemma sum_map {A : Type} (p : A -> bool) (l : list A) :
  sum (map p l) = Z.of_nat (length (List.filter p l)).
Proof.
  unfold sum. f_equal. induction l as [|x l IH]; simpl; [reflexivity|].
  destruct (p x); simpl; now rewrite IH.
Qed.

Lemma sum_nonneg (m : list bool) : (0 <= sum m)%Z.
Proof. unfold sum. lia. Qed.

Lemma str_strip_map (ser : list cell) (f : cell -> bool) :
  map f (str_strip ser) = map (fun c => f (option_map PyStr.strip c)) ser.
Proof. unfold str_strip. now rewrite map_map. Qed.

Lemma cell_eqb_eq (a b : cell) : cell_eqb a b = true <-> a = b.
Proof.
  destruct a as [x|], b as [y|]; simpl; try (split; congruence).
  rewrite String.eqb_eq. split; congruence.
Qed.

Lemma cell_eqb_refl (a : cell) : cell_eqb a a = true.
Proof. now apply cell_eqb_eq. Qed.

Lemma cell_eqb_sym (a b : cell) : cell_eqb a b = cell_eqb b a.
Proof.
  destruct (cell_eqb a b) eqn:E.
  - apply cell_eqb_eq in E. subst. symmetry. apply cell_eqb_refl.
  - destruct (cell_eqb b a) eqn:E'; [|reflexivity].
    apply cell_eqb_eq in E'. subst. now rewrite cell_eqb_refl in E.
Qed.

Lemma filter_length_le {A : Type} (p : A -> bool) (l : list A) :
  length (List.filter p l) <= length l.
Proof.
  induction l as [|x l IH]; simpl; [lia|]. destruct (p x); simpl; lia.
Qed.

Lemma filter_split_length {A : Type} (p : A -> bool) (l : list A) :
  length (List.filter p l) + length (List.filter (fun x => negb (p x)) l)
  = length l.
Proof.
  induction l as [|x l IH]; simpl; [reflexivity|].
  destruct (p x); simpl; lia.
Qed.

(** A loop that appends at most one finding per element. *)
Lemma flat_map_length_le {A B : Type} (f : A -> list B) (l : list A) :
  (forall x, length (f x) <= 1) -> length (flat_map f l) <= length l.
Proof.
  intros Hf. induction l as [|x l IH]; simpl; [lia|].
  rewrite length_app. specialize (Hf x). lia.
Qed.

Lemma flat_map_filter {A B : Type} (p : A -> bool) (f : A -> list B)
      (l : list A) :
  flat_map f (List.filter p l) = flat_map (fun x => if p x then f x else []) l.
Proof.
  induction l as [|x l IH]; simpl; [reflexivity|].
  destruct (p x); simpl; now rewrite IH.
Qed.

End SeriesFacts.

(* ===================================================================== *)
(** ** The statistics of the report *)
(* ===================================================================== *)

Section Statistics.
Import SeriesFacts.

Variable strptime_other : string -> string -> bool.
Variable to_numeric_isna : list cell -> list bool.
Variable to_datetime_isna : list cell -> result (list bool).

Let failing' := failing strptime_other to_numeric_isna to_datetime_isna.
Let build_result' :=
  build_result strptime_other to_numeric_isna to_datetime_isna.
Let validate_csv' :=
  validate_csv strptime_other to_numeric_isna to_datetime_isna.

(** The existence check and the null check share the entries of
    [required]: an entry feeds one or the other. *)
Lemma required_checks_length (req : list string) (df : DataFrame) :
  length (check_required_exist req df)
  + length (check_required_not_null req df) <= length req.
Proof.
  unfold check_required_exist, check_required_not_null.
  rewrite flat_map_filter.
  induction req as [|col req IH]; simpl; [lia|].
  rewrite !length_app. unfold required_exist_step at 1.
  destruct (has_column df col); simpl; [|lia].
  unfold required_not_null_step at 1.
  match goal with |- context [if ?b then _ else _] => destruct b end;
    simpl; lia.
Qed.

Lemma unique_checks_length (keys : list string) (df : DataFrame) :
  length (check_unique_keys keys df) <= length keys.
Proof.
  apply flat_map_length_le. intros key. unfold unique_key_step.
  destruct (has_column df key); simpl; [|lia].
  match goal with |- context [if ?b then _ else _] => destruct b end;
    simpl; lia.
Qed.

Lemma type_checks_length (tys : list (string * string)) (df : DataFrame) :
  length (check_types to_numeric_isna to_datetime_isna tys df) <= length tys.
Proof.
  apply flat_map_length_le. intros [col ty]. unfold type_step.
  destruct (has_column df col); simpl; [|lia].
  match goal with |- context [if ?b then _ else _] => destruct b end;
    simpl; lia.
Qed.

Lemma email_check_length (df : DataFrame) : length (check_email df) <= 1.
Proof.
  unfold check_email. destruct (has_column df "Email"); simpl; [|lia].
  match goal with |- context [if ?b then _ else _] => destruct b end;
    simpl; lia.
Qed.

Lemma date_check_length (v : gmap string string) (df : DataFrame) :
  length (check_date strptime_other v df) <= 1.
Proof.
  unfold check_date. destruct (has_column df "Date"); simpl; [|lia].
  match goal with |- context [if ?b then _ else _] => destruct b end;
    simpl; lia.
Qed.

Lemma time_check_length (v : gmap string string) (df : DataFrame) :
  length (check_time strptime_other v df) <= 1.
Proof.
  unfold check_time. destruct (has_column df "Time"); simpl; [|lia].
  match goal with |- context [if ?b then _ else _] => destruct b end;
    simpl; lia.
Qed.

(** No run has more findings than evaluated expectations. *)
Lemma failing_length (cfg : config) (df : DataFrame) :
  length (failing' cfg df)
  <= length (required cfg) + length (unique_keys cfg)
     + length (col_types cfg) + 3.
Proof.
  unfold failing', failing. rewrite !length_app.
  pose proof (required_checks_length (required cfg) df).
  pose proof (unique_checks_length (unique_keys cfg) df).
  pose proof (type_checks_length (col_types cfg) df).
  pose proof (email_check_length df).
  pose proof (date_check_length (validations cfg) df).
  pose proof (time_check_length (validations cfg) df).
  lia.
Qed.

(** A run that returns a report read a configuration and a frame, and the
    report is built from them. *)
Lemma validate_csv_Ok (w : world) (csv_path : string) (save : bool)
      (r : Report.t) :
  validate_csv' w csv_path save = Ok r ->
  exists cfg df,
    csv_exists w = true /\
    load_config (config_file w) = Ok cfg /\
    read_csv w = inl df /\
    r = build_result' csv_path cfg df.
Proof.
  unfold validate_csv', validate_csv.
  destruct (csv_exists w); simpl; [|discriminate].
  destruct (load_config (config_file w)) as [cfg|e]; simpl; [|discriminate].
  destruct (read_csv w) as [df|[|]]; simpl; try discriminate.
  destruct save; simpl.
  - destruct (write_report w) as [u|[|]]; simpl; try discriminate.
    intros [= <-]. now exists cfg, df.
  - intros [= <-]. now exists cfg, df.
Qed.

(** A run whose files are there and readable returns a report. *)
Lemma validate_csv_returns (w : world) (csv_path : string) (save : bool)
      (cfg : config) (df : DataFrame) :
  csv_exists w = true ->
  load_config (config_file w) = Ok cfg ->
  read_csv w = inl df ->
  (save = true -> write_report w = inl tt) ->
  validate_csv' w csv_path save = Ok (build_result' csv_path cfg df).
Proof.
  intros He Hc Hd Hs. unfold validate_csv', validate_csv.
  rewrite He, Hc; simpl. rewrite Hd; simpl.
  destruct save; simpl; [|reflexivity]. now rewrite Hs.
Qed.


(** C1. For every configuration and data set, the report of
    [validate_csv'] has [success] true exactly when the list of findings
    is empty; [evaluated_expectations] is
    [|required| + |unique_keys| + |col_types| + 3];
    [unsuccessful_expectations] is the number of findings; the findings
    never outnumber the evaluated expectations, so the clamp
    [max(0, ...)] never fires and
    [successful_expectations + unsuccessful_expectations
     = evaluated_expectations]. *)
Theorem validate_csv_statistics_consistent
        (w : world) (csv_path : string) (save : bool) (r : Report.t) :
  validate_csv' w csv_path save = Ok r ->
  exists cfg df,
    load_config (config_file w) = Ok cfg /\ read_csv w = inl df /\
    let st := Report.stats r in
    (Report.success r = true <-> Report.results r = []) /\
    Report.results r = failing' cfg df /\
    Report.evaluated_expectations st
    = (Z.of_nat (length (required cfg))
       + Z.of_nat (length (unique_keys cfg))
       + Z.of_nat (length (col_types cfg)) + 3)%Z /\
    Report.unsuccessful_expectations st
    = Z.of_nat (length (Report.results r)) /\
    (Z.of_nat (length (Report.results r))
     <= Report.evaluated_expectations st)%Z /\
    Report.successful_expectations st
    = (Report.evaluated_expectations st
       - Report.unsuccessful_expectations st)%Z /\
    (Report.successful_expectations st
     + Report.unsuccessful_expectations st
     = Report.evaluated_expectations st)%Z.
Proof.
  intros Hrun.
  destruct (validate_csv_Ok _ _ _ _ Hrun) as (cfg & df & _ & Hc & Hd & ->).
  exists cfg, df. split; [exact Hc|]. split; [exact Hd|].
  pose proof (failing_length cfg df) as Hlen.
  cbn -[Z.of_nat Z.add Z.sub Z.max Z.eqb].
  fold (failing' cfg df).
  repeat split; try lia.
  - rewrite Z.eqb_eq. intros H. apply length_zero_iff_nil. lia.
  - intros ->. reflexivity.
Qed.

End Statistics.

Lemma validate_csv_statistics_consistent_witness :
  Sample.validate_csv (Sample.world_of Sample.df) "staged.csv" true
  = Ok Sample.report
  /\ (Report.successful_expectations (Report.stats Sample.report)
      + Report.unsuccessful_expectations (Report.stats Sample.report)
      = Report.evaluated_expectations (Report.stats Sample.report))%Z.
Proof.
  split; [vm_compute; reflexivity|].
  destruct (validate_csv_statistics_consistent
              Sample.strptime_other Sample.to_numeric_isna
              Sample.to_datetime_isna (Sample.world_of Sample.df)
              "staged.csv" true Sample.report)
    as (cfg & df & _ & _ & H); [vm_compute; reflexivity|].
  apply H.
Defined.

(* ===================================================================== *)
(** ** The matcher finds a match exactly when the language has one *)
(* ===================================================================== *)

Module ReFacts.
Import Re.

Lemma rep_is_Some {A : Type} (p : ascii -> bool) (s : list ascii) :
  forall (min : nat) (k : list ascii -> list ascii -> option A),
    is_Some (rep p min s k) <->
    exists w rest,
      s = w ++ rest /\ Forall (fun c => p c = true) w /\
      min <= length w /\ is_Some (k w rest).
Proof.
  induction s as [|c s IH]; intros min k; simpl.
  - destruct (Nat.eqb_spec min 0) as [->|Hmin]; split.
    + intros Hk. exists [], []. repeat split; auto.
    + intros (w & rest & Hs & _ & _ & Hk).
      symmetry in Hs. apply app_eq_nil in Hs as [-> ->]. exact Hk.
    + intros [x Hx]. discriminate.
    + intros (w & rest & Hs & _ & Hlen & _).
      symmetry in Hs. apply app_eq_nil in Hs as [-> ->]. simpl in Hlen. lia.
  - split.
    + intros Hm.
      assert (Hcases :
                (p c = true
                 /\ is_Some (rep p (Nat.pred min) s
                               (fun w rest => k (c :: w) rest)))
                \/ (min = 0 /\ is_Some (k [] (c :: s)))).
      { destruct (p c) eqn:Hp.
        - destruct (rep p (Nat.pred min) s (fun w rest => k (c :: w) rest))
            eqn:Hr.
          + left. split; [reflexivity|]. now exists a.
          + right. destruct (Nat.eqb_spec min 0); [now split|].
            destruct Hm; discriminate.
        - right. destruct (Nat.eqb_spec min 0); [now split|].
          destruct Hm; discriminate. }
      destruct Hcases as [[Hp Hr]|[-> Hk]].
      * apply IH in Hr as (w & rest & -> & Hw & Hlen & Hk).
        exists (c :: w), rest. repeat split; auto. simpl. lia.
      * exists [], (c :: s). repeat split; auto.
    + intros (w & rest & Hs & Hw & Hlen & Hk).
      destruct w as [|c' w]; simpl in Hs.
      * subst rest. simpl in Hlen. assert (min = 0) as -> by lia. simpl.
        destruct (p c); [|exact Hk].
        destruct (rep p 0 s _); [now eexists | exact Hk].
      * injection Hs as <- ->. inversion Hw as [|? ? Hp Hw']; subst.
        rewrite Hp.
        assert (Hr : is_Some (rep p (Nat.pred min) (w ++ rest)
                                  (fun w rest => k (c :: w) rest))).
        { apply IH. exists w, rest. repeat split; auto. simpl in Hlen. lia. }
        destruct Hr as [a ->]. now eexists.
Qed.

(** The backtracking search succeeds exactly when the input splits into a
    word of the language and a rest, and the continuation accepts them. *)
Lemma rmatch_is_Some {A : Type} (r : regex) :
  forall (s : list ascii) (k : list ascii -> list ascii -> option A),
    is_Some (rmatch r s k) <->
    exists w rest, s = w ++ rest /\ lang r w /\ is_Some (k w rest).
Proof.
  induction r as [p | r1 IH1 r2 IH2 | r1 IH1 r2 IH2 | p min];
    intros s k; simpl.
  - destruct s as [|c s].
    + split; [intros [x Hx]; discriminate|].
      intros (w & rest & Hs & (c & -> & _) & _). discriminate.
    + split.
      * destruct (p c) eqn:Hp; [|intros [x Hx]; discriminate].
        intros Hk. exists [c], s. repeat split; eauto.
      * intros (w & rest & Hs & (c' & -> & Hp) & Hk).
        injection Hs as <- <-. now rewrite Hp.
  - rewrite IH1. split.
    + intros (w1 & rest1 & -> & H1 & H2).
      apply IH2 in H2 as (w2 & rest & -> & H2 & Hk).
      exists (w1 ++ w2), rest. rewrite <- app_assoc.
      repeat split; eauto.
    + intros (w & rest & -> & (w1 & w2 & -> & H1 & H2) & Hk).
      exists w1, (w2 ++ rest). rewrite <- app_assoc.
      repeat split; auto. apply IH2. eauto.
  - split.
    + intros Hm.
      assert (is_Some (rmatch r1 s k) \/ is_Some (rmatch r2 s k)) as [H|H].
      { destruct (rmatch r1 s k); [left; now eexists | now right]. }
      * apply IH1 in H as (w & rest & -> & Hw & Hk). eauto 6.
      * apply IH2 in H as (w & rest & -> & Hw & Hk). eauto 6.
    + intros (w & rest & -> & [Hw|Hw] & Hk).
      * assert (H : is_Some (rmatch r1 (w ++ rest) k)) by (apply IH1; eauto).
        destruct H as [a ->]. now eexists.
      * destruct (rmatch r1 (w ++ rest) k); [now eexists|].
        apply IH2; eauto.
  - rewrite rep_is_Some. split.
    + intros (w & rest & Hs & Hw & Hlen & Hk). eauto 7.
    + intros (w & rest & Hs & [Hw Hlen] & Hk). eauto 7.
Qed.

End ReFacts.

(* ===================================================================== *)
(** ** Trimming *)
(* ===================================================================== *)

Module StripFacts.
Import PyStr.

Lemma chars_strip (s : string) : chars (strip s) = strip_chars (chars s).
Proof. unfold strip, chars. apply list_ascii_of_string_of_list_ascii. Qed.

Lemma chars_inj (s t : string) : chars s = chars t -> s = t.
Proof.
  unfold chars. intros H.
  rewrite <- (string_of_list_ascii_of_string s),
          <- (string_of_list_ascii_of_string t).
  now rewrite H.
Qed.

Lemma eqb_empty_chars (s : string) :
  String.eqb s "" = true <-> chars s = [].
Proof.
  rewrite String.eqb_eq. split; [now intros ->|].
  intros H. now apply chars_inj.
Qed.

(** What [rstrip] leaves does not end in white space. *)
Lemma rstrip_last (s w : list ascii) (c : ascii) :
  rstrip s = w ++ [c] -> isspace c = false.
Proof.
  revert w. induction s as [|a s IH]; intros w; simpl.
  - intros H. now destruct w.
  - destruct (rstrip s) as [|b r] eqn:Hr.
    + destruct (isspace a) eqn:Ha.
      * intros H. now destruct w.
      * intros H. destruct w as [|x [|y w]]; try discriminate.
        now injection H as <-.
    + intros H. destruct w as [|x w].
      * discriminate.
      * injection H as <- H. now apply (IH w).
Qed.

Lemma strip_chars_last (s w : list ascii) (c : ascii) :
  strip_chars s = w ++ [c] -> isspace c = false.
Proof. apply rstrip_last. Qed.

(** What [lstrip] leaves does not start with white space. *)
Lemma lstrip_first (s r : list ascii) (c : ascii) :
  lstrip s = c :: r -> isspace c = false.
Proof.
  induction s as [|a s IH]; simpl; [discriminate|].
  destruct (isspace a) eqn:Ha; [exact IH|].
  now intros [= <- _].
Qed.

Lemma rstrip_nil_or_head (s : list ascii) :
  rstrip s = [] \/ exists c r r', s = c :: r /\ rstrip s = c :: r'.
Proof.
  destruct s as [|a s]; simpl; [now left|].
  destruct (rstrip s) as [|b r] eqn:Hr.
  - destruct (isspace a); [now left|]. right. now exists a, s, [].
  - right. now exists a, s, (b :: r).
Qed.

Lemma strip_chars_first (s r : list ascii) (c : ascii) :
  strip_chars s = c :: r -> isspace c = false.
Proof.
  unfold strip_chars. intros H.
  destruct (rstrip_nil_or_head (lstrip s)) as [E|(a & t & t' & E1 & E2)].
  - rewrite E in H. discriminate.
  - rewrite E2 in H. injection H as <- _. now apply (lstrip_first s t).
Qed.

(** A text with no white space at either end is its own trimming. *)
Lemma rstrip_id (s : list ascii) :
  (forall w c, s = w ++ [c] -> isspace c = false) -> rstrip s = s.
Proof.
  induction s as [|a s IH]; intros H; simpl; [reflexivity|].
  destruct s as [|b s].
  - simpl. now rewrite (H [] a eq_refl).
  - rewrite IH.
    + reflexivity.
    + intros w c E. apply (H (a :: w) c). simpl. now rewrite E.
Qed.

Lemma strip_chars_id (s : list ascii) :
  (forall c r, s = c :: r -> isspace c = false) ->
  (forall w c, s = w ++ [c] -> isspace c = false) ->
  strip_chars s = s.
Proof.
  intros Hf Hl. unfold strip_chars.
  assert (lstrip s = s) as ->.
  { destruct s as [|c r]; simpl; [reflexivity|].
    now rewrite (Hf c r eq_refl). }
  now apply rstrip_id.
Qed.

End StripFacts.

(* ===================================================================== *)
(** ** The strict email check *)
(* ===================================================================== *)

Module EmailFacts.
Import Re PyStr StripFacts SeriesFacts.

Lemma lit_eq (c c' : ascii) : lit c c' = true <-> c' = c.
Proof. unfold lit. rewrite Ascii.eqb_eq. split; congruence. Qed.

Lemma length_pos_nonnil {A : Type} (l : list A) : 1 <= length l <-> l <> [].
Proof. destruct l; simpl; split; try congruence; lia. Qed.

(** The language of [_EMAIL_RE] is [local-part@domain.tld]. *)
Lemma lang_EMAIL_RE (w : list ascii) : lang _EMAIL_RE w <-> email_shape w.
Proof.
  unfold email_shape, _EMAIL_RE. cbn [lang]. split.
  - intros (l & w2 & -> & [Hl Hln] & a & w4 & -> & (c1 & -> & Hc1)
            & d & w6 & -> & [Hd Hdn] & b & t & -> & (c2 & -> & Hc2)
            & Ht & Htn).
    apply lit_eq in Hc1, Hc2. subst c1 c2.
    exists l, d, t. rewrite length_pos_nonnil in Hln, Hdn.
    repeat split; auto.
  - intros (l & d & t & -> & Hln & Hl & Hdn & Hd & Htn & Ht).
    rewrite <- length_pos_nonnil in Hln, Hdn.
    exists l, ("@"%char :: d ++ "."%char :: t). repeat split; auto.
    exists ["@"%char], (d ++ "."%char :: t). repeat split; eauto.
    exists d, ("."%char :: t). repeat split; auto.
    exists ["."%char], t. repeat split; eauto.
Qed.

Lemma at_dollar_is_Some (rest : list ascii) :
  is_Some (at_dollar rest) <-> rest = [] \/ rest = ["010"%char].
Proof.
  destruct rest as [|c [|c' rest]]; simpl.
  - split; [now left | now eexists].
  - destruct (Ascii.eqb_spec c "010"%char) as [->|Hc].
    + split; [now right | now eexists].
    + split; [intros [x Hx]; discriminate|].
      intros [H|H]; [discriminate | congruence].
  - split; [intros [x Hx]; discriminate|]. intros [H|H]; discriminate.
Qed.

Lemma re_match_dollar_true (r : regex) (v : string) :
  re_match_dollar r v = true <->
  exists w rest,
    chars v = w ++ rest /\ lang r w /\ (rest = [] \/ rest = ["010"%char]).
Proof.
  unfold re_match_dollar, chars.
  pose proof (ReFacts.rmatch_is_Some r (list_ascii_of_string v)
                (fun _ => at_dollar)) as H.
  setoid_rewrite at_dollar_is_Some in H. rewrite <- H.
  destruct (rmatch r (list_ascii_of_string v) (fun _ => at_dollar)).
  - split; [now eexists | reflexivity].
  - split; [discriminate | intros [x Hx]; discriminate].
Qed.

(** On a trimmed text, [$] can only be the end of the text. *)
Lemma re_match_dollar_strip (r : regex) (s : string) :
  re_match_dollar r (strip s) = true <-> lang r (chars (strip s)).
Proof.
  rewrite re_match_dollar_true. split.
  - intros (w & rest & Hv & Hw & [-> | ->]).
    + rewrite app_nil_r in Hv. now rewrite Hv.
    + rewrite chars_strip in Hv. apply strip_chars_last in Hv. discriminate.
  - intros Hw. exists (chars (strip s)), []. rewrite app_nil_r. auto.
Qed.

Lemma email_shape_nonempty (v : list ascii) : email_shape v -> v <> [].
Proof. intros (l & d & t & -> & _). now destruct l. Qed.

(** A string passes exactly when its trimming is
    [local-part@domain.tld]. *)
Lemma validate_email_strict_Str (s : string) :
  validate_email_strict (Str s) = true <-> email_shape (chars (strip s)).
Proof.
  unfold validate_email_strict. simpl str.
  destruct (String.eqb (strip s) "") eqn:He.
  - apply eqb_empty_chars in He. split; [discriminate|].
    intros H. now apply email_shape_nonempty in H.
  - now rewrite re_match_dollar_strip, lang_EMAIL_RE.
Qed.

Lemma validate_email_strict_NaN : validate_email_strict NaN = false.
Proof. reflexivity. Qed.

(** None of the three character classes holds ["@"] or white space. *)
Lemma local_class_not_at (c : ascii) :
  email_local_class c = true -> c <> "@"%char /\ isspace c = false.
Proof.
  destruct c as [[] [] [] [] [] [] [] []]; vm_compute; intros H;
    try discriminate; split; congruence.
Qed.

Lemma domain_class_not_at (c : ascii) :
  email_domain_class c = true -> c <> "@"%char /\ isspace c = false.
Proof.
  destruct c as [[] [] [] [] [] [] [] []]; vm_compute; intros H;
    try discriminate; split; congruence.
Qed.

Lemma alpha_not_at_dot (c : ascii) :
  isalpha c = true ->
  c <> "@"%char /\ c <> "."%char /\ isspace c = false.
Proof.
  destruct c as [[] [] [] [] [] [] [] []]; vm_compute; intros H;
    try discriminate; repeat split; congruence.
Qed.

Lemma Forall_not_In {A : Type} (P : A -> Prop) (l : list A) (x : A) :
  Forall P l -> ~ P x -> ~ In x l.
Proof. rewrite List.Forall_forall. intros H Hx Hin. apply Hx. now apply H. Qed.

(** The text after the last occurrence of a character is determined. *)
Lemma after_last_unique {A : Type} (c : A) (l1 l2 r1 r2 : list A) :
  l1 ++ c :: r1 = l2 ++ c :: r2 -> ~ In c r1 -> ~ In c r2 -> r1 = r2.
Proof.
  revert l2. induction l1 as [|a l1 IH]; intros [|b l2]; simpl;
    intros E H1 H2.
  - now injection E.
  - injection E as -> ->. exfalso. apply H1. apply in_or_app. right. now left.
  - injection E as -> <-. exfalso. apply H2. apply in_or_app. right. now left.
  - injection E as -> E. now apply (IH l2).
Qed.

(** The shape has exactly one ["@"], all of the domain after it. *)
Lemma email_shape_at (v : list ascii) :
  email_shape v -> In "@"%char v.
Proof.
  intros (l & d & t & -> & _). apply in_or_app. right. now left.
Qed.

Lemma email_shape_tld (l d : list ascii) :
  email_shape (l ++ "@"%char :: d) -> ~ In "@"%char d -> In "."%char d.
Proof.
  intros (l' & d' & t' & E & _ & _ & _ & Hd & _ & Ht) Hno.
  assert (Hrest : d = d' ++ "."%char :: t').
  { apply (after_last_unique "@"%char l l'); auto.
    intros Hin. apply in_app_or in Hin as [Hin|[Hin|Hin]].
    - revert Hin. apply (Forall_not_In _ _ _ Hd).
      intros H. now apply domain_class_not_at in H as [H _].
    - discriminate.
    - revert Hin. apply (Forall_not_In _ _ _ Ht).
      intros H. now apply alpha_not_at_dot in H as [H _]. }
  subst d. apply in_or_app. right. now left.
Qed.

Lemma email_shape_no_space (v : list ascii) (c : ascii) :
  email_shape v -> In c v -> isspace c = false.
Proof.
  intros (l & d & t & -> & _ & Hl & _ & Hd & _ & Ht) Hin.
  rewrite List.Forall_forall in Hl, Hd, Ht.
  apply in_app_or in Hin as [Hin|[<-|Hin]]; [| reflexivity |].
  - now apply local_class_not_at, Hl.
  - apply in_app_or in Hin as [Hin|[<-|Hin]]; [| reflexivity |].
    + now apply domain_class_not_at, Hd.
    + now apply alpha_not_at_dot, Ht.
Qed.

(** The mask of a strict check, cell by cell. *)
Lemma strict_invalid_mask_map (valid : pyvalue -> bool) (ser : list cell) :
  strict_invalid_mask ser valid
  = map (fun c => null_or_blank c || negb (valid (cell_value c))) ser.
Proof.
  unfold strict_invalid_mask, Series.or_, Series.isna, Series.eq,
    Series.not_, Series.apply.
  rewrite str_strip_map, zip_with_map, map_map, zip_with_map.
  apply map_ext. intros [s|]; reflexivity.
Qed.

End EmailFacts.

(* ===================================================================== *)
(** ** Which check emits which finding *)
(* ===================================================================== *)

Section FindingsByCheck.
Import SeriesFacts.

Variable strptime_other : string -> string -> bool.
Variable to_numeric_isna : list cell -> list bool.
Variable to_datetime_isna : list cell -> result (list bool).

Let check_types' := check_types to_numeric_isna to_datetime_isna.
Let check_date' := check_date strptime_other.
Let check_time' := check_time strptime_other.
Let failing' := failing strptime_other to_numeric_isna to_datetime_isna.

Lemma in_check_required_exist (req : list string) (df : DataFrame)
      (f : finding) :
  In f (check_required_exist req df) <->
  exists col, In col req /\ has_column df col = false
              /\ f = expect_column_to_exist col "column missing".
Proof.
  unfold check_required_exist. rewrite in_flat_map. unfold required_exist_step.
  split.
  - intros (col & Hin & Hf). exists col.
    destruct (has_column df col); simpl in Hf; [contradiction|].
    destruct Hf as [<-|[]]. auto.
  - intros (col & Hin & Hc & ->). exists col. rewrite Hc. simpl. auto.
Qed.

Lemma in_check_required_not_null (req : list string) (df : DataFrame)
      (f : finding) :
  In f (check_required_not_null req df) <->
  exists col, In col req /\ has_column df col = true
              /\ In f (required_not_null_step df col).
Proof.
  unfold check_required_not_null. rewrite in_flat_map. split.
  - intros (col & Hin & Hf). apply filter_In in Hin as [Hin Hc]. eauto.
  - intros (col & Hin & Hc & Hf). exists col. rewrite filter_In. auto.
Qed.

Lemma in_required_not_null_step (df : DataFrame) (col : string)
      (f : finding) :
  In f (required_not_null_step df col) ->
  kind_of f = NullValuesPresent /\ column_of f = col.
Proof.
  unfold required_not_null_step.
  match goal with |- context [if ?b then _ else _] => destruct b end;
    simpl; [|contradiction].
  intros [<-|[]]. auto.
Qed.

Lemma in_check_unique_keys (keys : list string) (df : DataFrame)
      (f : finding) :
  In f (check_unique_keys keys df) <->
  exists key, In key keys /\ In f (unique_key_step df key).
Proof. unfold check_unique_keys. apply in_flat_map. Qed.

Lemma in_unique_key_step (df : DataFrame) (key : string) (f : finding) :
  In f (unique_key_step df key) ->
  column_of f = key /\
  ((has_column df key = false /\
    f = expect_column_to_exist key "column missing (for uniqueness check)")
   \/ (has_column df key = true /\ kind_of f = DuplicateValues)).
Proof.
  unfold unique_key_step. destruct (has_column df key); simpl.
  - match goal with |- context [if ?b then _ else _] => destruct b end;
      simpl; [|contradiction].
    intros [<-|[]]. auto.
  - intros [<-|[]]. auto.
Qed.

Lemma in_check_types (tys : list (string * string)) (df : DataFrame)
      (f : finding) :
  In f (check_types' tys df) <->
  exists col ty, In (col, ty) tys /\
                 In f (type_step to_numeric_isna to_datetime_isna df (col, ty)).
Proof.
  unfold check_types', check_types. rewrite in_flat_map. split.
  - intros ([col ty] & Hin & Hf). eauto.
  - intros (col & ty & Hin & Hf). eauto.
Qed.

Lemma in_type_step (df : DataFrame) (col ty : string) (f : finding) :
  In f (type_step to_numeric_isna to_datetime_isna df (col, ty)) ->
  has_column df col = true /\
  let check :=
    _coerce_and_check_series to_numeric_isna to_datetime_isna
      (getitem df col) ty in
  Check.success check = false /\
  f = expect_column_type_convertible col ty (Check.failed_count check)
        (Check.sample_values check).
Proof.
  unfold type_step. destruct (has_column df col); simpl; [|contradiction].
  match goal with |- context [negb ?b] => destruct b eqn:Hs end;
    simpl; [contradiction|].
  intros [<-|[]]. auto.
Qed.

Lemma in_check_email (df : DataFrame) (f : finding) :
  In f (check_email df) ->
  has_column df "Email" = true /\ kind_of f = StrictFormatInvalid
  /\ column_of f = "Email".
Proof.
  unfold check_email. destruct (has_column df "Email"); [|contradiction].
  match goal with |- context [if ?b then _ else _] => destruct b end;
    simpl; [|contradiction].
  intros [<-|[]]. auto.
Qed.

Lemma in_check_date (v : gmap string string) (df : DataFrame) (f : finding) :
  In f (check_date' v df) ->
  has_column df "Date" = true /\ kind_of f = StrictFormatInvalid
  /\ column_of f = "Date".
Proof.
  unfold check_date', check_date.
  destruct (has_column df "Date"); [|contradiction].
  match goal with |- context [if ?b then _ else _] => destruct b end;
    simpl; [|contradiction].
  intros [<-|[]]. auto.
Qed.

Lemma in_check_time (v : gmap string string) (df : DataFrame) (f : finding) :
  In f (check_time' v df) ->
  has_column df "Time" = true /\ kind_of f = StrictFormatInvalid
  /\ column_of f = "Time".
Proof.
  unfold check_time', check_time.
  destruct (has_column df "Time"); [|contradiction].
  match goal with |- context [if ?b then _ else _] => destruct b end;
    simpl; [|contradiction].
  intros [<-|[]]. auto.
Qed.

(** Where a finding of the report comes from. *)
Lemma in_failing (cfg : config) (df : DataFrame) (f : finding) :
  In f (failing' cfg df) <->
  In f (check_required_exist (required cfg) df)
  \/ In f (check_required_not_null (required cfg) df)
  \/ In f (check_unique_keys (unique_keys cfg) df)
  \/ In f (check_types' (col_types cfg) df)
  \/ In f (check_email df)
  \/ In f (check_date' (validations cfg) df)
  \/ In f (check_time' (validations cfg) df).
Proof.
  unfold failing', failing. rewrite !in_app_iff. reflexivity.
Qed.

Lemma select_app (k : expectation_kind) (col : string)
      (l1 l2 : list finding) :
  select k col (l1 ++ l2) = select k col l1 ++ select k col l2.
Proof. apply List.filter_app. Qed.

Lemma select_none (k : expectation_kind) (col : string) (l : list finding) :
  (forall f, In f l -> kind_of f <> k \/ column_of f <> col) ->
  select k col l = [].
Proof.
  intros H. unfold select. induction l as [|f l IH]; simpl; [reflexivity|].
  rewrite IH by (intros g Hg; apply H; now right).
  destruct (H f (or_introl eq_refl)) as [Hk|Hc].
  - destruct (kind_of f), k; simpl; congruence.
  - destruct (String.eqb_spec (column_of f) col); [contradiction|].
    now rewrite andb_false_r.
Qed.

Lemma select_all (k : expectation_kind) (col : string) (l : list finding) :
  (forall f, In f l -> kind_of f = k /\ column_of f = col) ->
  select k col l = l.
Proof.
  intros H. unfold select. induction l as [|f l IH]; simpl; [reflexivity|].
  rewrite IH by (intros g Hg; apply H; now right).
  destruct (H f (or_introl eq_refl)) as [<- <-].
  rewrite String.eqb_refl. now destruct (kind_of f).
Qed.

(** The strict findings about a column come from its strict check only. *)
Lemma select_strict_email (cfg : config) (df : DataFrame) :
  select StrictFormatInvalid "Email" (failing' cfg df) = check_email df.
Proof.
  unfold failing', failing. rewrite !select_app.
  rewrite (select_none _ _ (check_required_exist _ _)),
    (select_none _ _ (check_required_not_null _ _)),
    (select_none _ _ (check_unique_keys _ _)),
    (select_none _ _ (check_types _ _ _ _)),
    (select_none _ _ (check_date _ _ _)),
    (select_none _ _ (check_time _ _ _)).
  - simpl. rewrite app_nil_r. apply select_all. intros f Hf.
    now apply in_check_email in Hf.
  - intros f Hf. apply in_check_time in Hf as (_ & _ & ->). now right.
  - intros f Hf. apply in_check_date in Hf as (_ & _ & ->). now right.
  - intros f Hf. apply in_check_types in Hf as (col & ty & _ & Hf).
    apply in_type_step in Hf as (_ & _ & ->). now left.
  - intros f Hf. apply in_check_unique_keys in Hf as (key & _ & Hf).
    apply in_unique_key_step in Hf as (_ & [[_ ->]|[_ Hk]]);
      left; [discriminate | congruence].
  - intros f Hf. apply in_check_required_not_null in Hf as (col & _ & _ & Hf).
    apply in_required_not_null_step in Hf as [Hk _]. left. congruence.
  - intros f Hf. apply in_check_required_exist in Hf as (col & _ & _ & ->).
    now left.
Qed.

End FindingsByCheck.

(* ===================================================================== *)
(** ** C2: the strict email check *)
(* ===================================================================== *)

(** The claim's examples. *)
Example email_examples :
  validate_email_strict (Str "a@b.com") = true
  /\ validate_email_strict (Str "a@b") = false
  /\ validate_email_strict (Str "a b@c.com") = false.
Proof. repeat split; reflexivity. Qed.

(** C2, the part the code does not do: an address with two dots in a row,
    in the local part or in the domain, passes the strict email check. *)
Lemma email_consecutive_dots_pass :
  consecutive_dots (chars (PyStr.strip "a..b@c.com")) = true
  /\ validate_email_strict (Str "a..b@c.com") = true
  /\ consecutive_dots (chars (PyStr.strip "a@b..com")) = true
  /\ validate_email_strict (Str "a@b..com") = true.
Proof. repeat split; reflexivity. Qed.

Lemma email_invalid_iff (c : cell) :
  email_invalid c = true <->
  null_or_blank c = true
  \/ exists s, c = Some s /\ ~ email_shape (chars (PyStr.strip s)).
Proof.
  unfold email_invalid. rewrite orb_true_iff, negb_true_iff.
  destruct c as [s|]; simpl cell_value.
  - rewrite <- not_true_iff_false, EmailFacts.validate_email_strict_Str.
    split; (intros [H|H]; [now left | right]).
    + now exists s.
    + destruct H as (s' & [= <-] & H). exact H.
  - split; intros _; now left.
Qed.

Lemma check_email_present (df : DataFrame) :
  has_column df "Email" = true ->
  let invalid := List.filter email_invalid (getitem df "Email") in
  let n := Z.of_nat (length invalid) in
  check_email df
  = if (0 <? n)%Z
    then [expect_column_values_to_match_strict_email n
            (Series.astype_str (Series.head 10 invalid))]
    else [].
Proof.
  intros Hc. unfold check_email. rewrite Hc.
  rewrite EmailFacts.strict_invalid_mask_map.
  fold email_invalid.
  change (fun c => null_or_blank c || negb (validate_email_strict (cell_value c)))
    with email_invalid.
  now rewrite SeriesFacts.sum_map, SeriesFacts.loc_map.
Qed.

(** C2 (amended). When the column [Email] is present, the strict email
    check marks a cell invalid exactly when it is null or blank or its
    trimmed text is not of the shape [local-part@domain.tld] (non-empty
    local part over letters, digits and [._%+-], non-empty domain over
    letters, digits, [.] and [-], a dot, at least two letters); ["a@b.com"]
    passes, ["a@b"] and ["a b@c.com"] fail; a text with no ["@"], a text
    with no dot after its last ["@"], and a text with white space inside
    fail; and the report holds exactly one strict finding about [Email]
    when the number of invalid cells is positive, none otherwise.  Two dots
    in a row are not rejected. *)
Theorem strict_email_check
        (strptime_other : string -> string -> bool)
        (to_numeric_isna : list cell -> list bool)
        (to_datetime_isna : list cell -> result (list bool))
        (cfg : config) (df : DataFrame) :
  has_column df "Email" = true ->
  let invalid := List.filter email_invalid (getitem df "Email") in
  let n := Z.of_nat (length invalid) in
  (forall c,
      email_invalid c = true <->
      null_or_blank c = true
      \/ exists s, c = Some s /\ ~ email_shape (chars (PyStr.strip s)))
  /\ select StrictFormatInvalid "Email"
       (failing strptime_other to_numeric_isna to_datetime_isna cfg df)
     = (if (0 <? n)%Z
        then [expect_column_values_to_match_strict_email n
                (Series.astype_str (Series.head 10 invalid))]
        else [])
  /\ (validate_email_strict (Str "a@b.com") = true
      /\ validate_email_strict (Str "a@b") = false
      /\ validate_email_strict (Str "a b@c.com") = false)
  /\ (forall s, ~ In "@"%char (chars (PyStr.strip s)) ->
                validate_email_strict (Str s) = false)
  /\ (forall s l d,
         chars (PyStr.strip s) = l ++ "@"%char :: d ->
         ~ In "@"%char d -> ~ In "."%char d ->
         validate_email_strict (Str s) = false)
  /\ (forall s c,
         In c (chars (PyStr.strip s)) -> PyStr.isspace c = true ->
         validate_email_strict (Str s) = false).
Proof.
  intros Hc invalid n. split; [exact email_invalid_iff|].
  split; [rewrite select_strict_email; now apply check_email_present|].
  split; [exact email_examples|].
  repeat split.
  - intros s Hno. apply not_true_iff_false.
    rewrite EmailFacts.validate_email_strict_Str. intros Hs.
    now apply EmailFacts.email_shape_at in Hs.
  - intros s l d E Hat Hdot. apply not_true_iff_false.
    rewrite EmailFacts.validate_email_strict_Str, E. intros Hs.
    now apply EmailFacts.email_shape_tld in Hs.
  - intros s c Hin Hsp. apply not_true_iff_false.
    rewrite EmailFacts.validate_email_strict_Str. intros Hs.
    rewrite (EmailFacts.email_shape_no_space _ _ Hs Hin) in Hsp. discriminate.
Qed.

Lemma strict_email_check_witness :
  has_column Sample.df "Email" = true
  /\ select StrictFormatInvalid "Email" (Sample.failing Sample.cfg Sample.df)
     = [expect_column_values_to_match_strict_email 4
          ["a@b"; "nan"; "a b@c.com"; " "]].
Proof.
  split; [reflexivity|].
  destruct (strict_email_check Sample.strptime_other Sample.to_numeric_isna
              Sample.to_datetime_isna Sample.cfg Sample.df eq_refl)
    as (_ & H & _).
  unfold Sample.failing. rewrite H. vm_compute. reflexivity.
Defined.

(* ===================================================================== *)
(** ** The strict date check *)
(* ===================================================================== *)

Module DateFacts.
Import Re PyStr Strptime StripFacts.

Lemma isdigit_cases (c : ascii) :
  isdigit c = true -> In c (chars "0123456789").
Proof.
  destruct c as [[] [] [] [] [] [] [] []]; vm_compute; intros H;
    try discriminate; tauto.
Qed.

Lemma isdigit_not_space (c : ascii) : isdigit c = true -> isspace c = false.
Proof.
  intros H. apply isdigit_cases in H. simpl in H.
  repeat (destruct H as [<-|H]; [reflexivity|]). contradiction.
Qed.

(** [int] of a group of digits reads the digits: there is nothing to
    trim. *)
Lemma int_digits (g : list ascii) :
  Forall (fun c => isdigit c = true) g -> int g = int_of_digits g.
Proof.
  intros Hg. unfold int. f_equal. apply strip_chars_id.
  - intros c r ->. inversion Hg; subst. now apply isdigit_not_space.
  - intros w c ->. apply Forall_app in Hg as [_ Hc].
    inversion Hc; subst. now apply isdigit_not_space.
Qed.

Ltac digit_cases H :=
  apply isdigit_cases in H; simpl in H;
  repeat (destruct H as [<-|H]; [|]); [..|contradiction].

Lemma ch_match {A : Type} (c : ascii) (s : list ascii)
      (k : list ascii -> list ascii -> option A) :
  rmatch (ch c) (c :: s) k = k [c] s.
Proof.
  unfold ch. cbn [rmatch]. now rewrite (proj2 (EmailFacts.lit_eq c c) eq_refl).
Qed.

(** [%Y] takes four digits. *)
Lemma re_Y_match {A : Type} (y1 y2 y3 y4 : ascii) (s : list ascii)
      (k : list ascii -> list ascii -> option A) :
  isdigit y1 = true -> isdigit y2 = true ->
  isdigit y3 = true -> isdigit y4 = true ->
  rmatch re_Y (y1 :: y2 :: y3 :: y4 :: s) k = k [y1; y2; y3; y4] s.
Proof.
  intros H1 H2 H3 H4. unfold re_Y, digit. cbn [rmatch].
  now rewrite H1, H2, H3, H4.
Qed.

(** [%m] before a dash takes both digits of a month written with two
    digits, whatever follows. *)
Lemma re_m_match {A : Type} (m1 m2 : ascii) (s : list ascii)
      (k : list ascii -> list ascii -> option A) :
  isdigit m1 = true -> isdigit m2 = true ->
  ((1 <=? int_of_digits [m1; m2]) && (int_of_digits [m1; m2] <=? 12))%Z = true ->
  rmatch re_m (m1 :: m2 :: "-"%char :: s)
    (fun g s3 => rmatch (ch "-") s3 (fun _ s4 => k g s4))
  = k [m1; m2] s.
Proof.
  intros H1 H2 Hm.
  digit_cases H1; digit_cases H2; vm_compute in Hm; try discriminate Hm;
    cbn; now destruct (k _ s).
Qed.

(** [%d] at the end of the data takes both digits of a day written with two
    digits. *)
Lemma re_d_match {A : Type} (d1 d2 : ascii)
      (f : list ascii -> list ascii -> A) :
  isdigit d1 = true -> isdigit d2 = true ->
  ((1 <=? int_of_digits [d1; d2]) && (int_of_digits [d1; d2] <=? 31))%Z = true ->
  rmatch re_d [d1; d2] (fun g rest => Some (f g rest)) = Some (f [d1; d2] []).
Proof.
  intros H1 H2 Hd.
  digit_cases H1; digit_cases H2; vm_compute in Hd; try discriminate Hd;
    reflexivity.
Qed.

Lemma _days_in_month_le (y m : Z) : (_days_in_month y m <= 31)%Z.
Proof.
  unfold _days_in_month.
  destruct (m =? 2)%Z; [destruct (_is_leap y); lia|].
  match goal with |- context [if ?b then _ else _] => destruct b end; lia.
Qed.

Lemma date_exists_bounds (y m d : Z) :
  date_exists y m d = true ->
  ((1 <=? m) && (m <=? 12))%Z = true /\ ((1 <=? d) && (d <=? 31))%Z = true.
Proof.
  unfold date_exists. rewrite !andb_true_iff, !Z.leb_le.
  pose proof (_days_in_month_le y m). lia.
Qed.

(** A text that is exactly [YYYY-MM-DD] and names a date that exists
    parses, to that date. *)
Lemma strptime_Ymd_iso (v : string) (y m d : Z) :
  iso_date_fields v = Some (y, m, d) ->
  date_exists y m d = true ->
  strptime_Ymd v = Some (y, m, d).
Proof.
  unfold iso_date_fields, strptime_Ymd, chars.
  destruct (list_ascii_of_string v)
    as [|y1 [|y2 [|y3 [|y4 [|s1 [|m1 [|m2 [|s2 [|d1 [|d2 [|? ?]]]]]]]]]]];
    try discriminate.
  destruct (forallb _ _ && _ && _) eqn:Hshape; [|discriminate].
  intros [= <- <- <-] Hdate.
  rewrite !andb_true_iff in Hshape. destruct Hshape as [[Hdig Hs1] Hs2].
  apply Ascii.eqb_eq in Hs1, Hs2. subst s1 s2.
  cbn [forallb] in Hdig. rewrite !andb_true_iff in Hdig.
  destruct Hdig as (Hy1 & Hy2 & Hy3 & Hy4 & Hm1 & Hm2 & Hd1 & Hd2 & _).
  destruct (date_exists_bounds _ _ _ Hdate) as [Hm Hd].
  unfold match3. rewrite re_Y_match by assumption.
  rewrite ch_match.
  rewrite (re_m_match m1 m2 [d1; d2]
             (fun g2 s4 =>
                rmatch re_d s4
                  (fun g3 rest => Some ([y1; y2; y3; y4], g2, g3, rest))))
    by assumption.
  rewrite (re_d_match d1 d2) by assumption.
  rewrite !int_digits by (repeat constructor; assumption).
  now rewrite Hdate.
Qed.

(** What parses names a date that exists. *)
Lemma strptime_Ymd_exists (v : string) (y m d : Z) :
  strptime_Ymd v = Some (y, m, d) -> date_exists y m d = true.
Proof.
  unfold strptime_Ymd.
  destruct (match3 _ _ _ _ _) as [[[[gY gm] gd] [|? ?]]|]; try discriminate.
  destruct (date_exists _ _ _) eqn:H; [|discriminate].
  now intros [= <- <- <-].
Qed.

End DateFacts.

(* ===================================================================== *)
(** ** C3: the strict date check with the default format *)
(* ===================================================================== *)

Lemma check_date_present (strptime_other : string -> string -> bool)
      (v : gmap string string) (df : DataFrame) :
  has_column df "Date" = true ->
  let fmt := default "%Y-%m-%d" (v !! "Date") in
  let invalid := List.filter (date_invalid strptime_other fmt) (getitem df "Date") in
  let n := Z.of_nat (length invalid) in
  check_date strptime_other v df
  = if (0 <? n)%Z
    then [expect_column_values_to_match_strict_date n
            (Series.astype_str (Series.head 10 invalid)) fmt]
    else [].
Proof.
  intros Hc. unfold check_date. rewrite Hc.
  rewrite EmailFacts.strict_invalid_mask_map.
  change (fun c => null_or_blank c
                   || negb (validate_date_strict strptime_other (cell_value c)
                              (default "%Y-%m-%d" (v !! "Date"))))
    with (date_invalid strptime_other (default "%Y-%m-%d" (v !! "Date"))).
  now rewrite SeriesFacts.sum_map, SeriesFacts.loc_map.
Qed.

(** The claim's examples, with the default format. *)
Lemma date_examples (strptime_other : string -> string -> bool) :
  date_invalid strptime_other "%Y-%m-%d" (Some "2024-02-29") = false
  /\ date_invalid strptime_other "%Y-%m-%d" (Some "2024-02-30") = true
  /\ date_invalid strptime_other "%Y-%m-%d" (Some "24-02-29") = true
  /\ date_invalid strptime_other "%Y-%m-%d" None = true
  /\ date_invalid strptime_other "%Y-%m-%d" (Some "  ") = true.
Proof. repeat split; reflexivity. Qed.

(** Every cell that is valid in the words of the specification passes the
    check of the program. *)
Lemma spec_date_valid_passes (strptime_other : string -> string -> bool)
      (c : cell) :
  spec_date_valid c = true ->
  date_invalid strptime_other "%Y-%m-%d" c = false.
Proof.
  destruct c as [s|]; [|discriminate]. unfold spec_date_valid, date_invalid.
  rewrite andb_true_iff, negb_true_iff. intros [Hblank Hiso].
  simpl null_or_blank. rewrite Hblank. simpl.
  rewrite Hblank. unfold strptime_ok. simpl String.eqb.
  destruct (iso_date_fields (PyStr.strip s)) as [[[y m] d]|] eqn:Hf;
    [|discriminate].
  now rewrite (DateFacts.strptime_Ymd_iso _ _ _ _ Hf Hiso).
Qed.

(** Every cell that passes the check of the program names a date that
    exists. *)
Lemma date_passes_exists (strptime_other : string -> string -> bool)
      (c : cell) :
  date_invalid strptime_other "%Y-%m-%d" c = false ->
  exists s y m d,
    c = Some s /\ Strptime.strptime_Ymd (PyStr.strip s) = Some (y, m, d)
    /\ Strptime.date_exists y m d = true.
Proof.
  unfold date_invalid. rewrite orb_false_iff, negb_false_iff.
  destruct c as [s|]; simpl; [|intros [H _]; discriminate].
  intros [Hblank Hv]. rewrite Hblank in Hv. unfold strptime_ok in Hv.
  simpl String.eqb in Hv.
  destruct (Strptime.strptime_Ymd (PyStr.strip s)) as [[[y m] d]|] eqn:Hp;
    [|discriminate].
  exists s, y, m, d. repeat split; auto.
  now apply DateFacts.strptime_Ymd_exists in Hp.
Qed.

(** C3, at the input where the program departs from it: the cell
    ["2024-2-9"] does not match [YYYY-MM-DD] exactly, yet it passes the
    strict date check with the default format, and a [Date] column that
    holds it gets no finding. *)
Theorem strict_date_accepts_unpadded
        (strptime_other : string -> string -> bool) :
  iso_date_fields (PyStr.strip "2024-2-9") = None
  /\ spec_date_valid (Some "2024-2-9") = false
  /\ validate_date_strict strptime_other (Str "2024-2-9") "%Y-%m-%d" = true
  /\ date_invalid strptime_other "%Y-%m-%d" (Some "2024-2-9") = false
  /\ check_date strptime_other ∅ Sample.unpadded_date_df = [].
Proof. repeat split; reflexivity. Qed.

(* ===================================================================== *)
(** ** Distinct values and duplicates *)
(* ===================================================================== *)

Module UniqueFacts.
Import Series SeriesFacts.

Lemma existsb_cell_eqb (c : cell) (l : list cell) :
  existsb (cell_eqb c) l = true <-> In c l.
Proof.
  rewrite existsb_exists. split.
  - intros (x & Hin & Hx). apply cell_eqb_eq in Hx. now subst.
  - intros Hin. exists c. split; [exact Hin | apply cell_eqb_refl].
Qed.

Lemma in_unique_from (x : cell) (l : list cell) :
  forall seen, In x (unique_from seen l) <-> In x l /\ ~ In x seen.
Proof.
  induction l as [|c l IH]; intros seen; simpl; [tauto|].
  destruct (existsb (cell_eqb c) seen) eqn:Hs.
  - apply existsb_cell_eqb in Hs. rewrite IH. split.
    + tauto.
    + intros [[->|Hin] Hno]; [contradiction | tauto].
  - assert (Hns : ~ In c seen).
    { intros H. apply existsb_cell_eqb in H. congruence. }
    simpl. rewrite IH. simpl. split.
    + intros [->|[Hin Hno]]; [tauto|]. split; [tauto|]. intros H. apply Hno. now right.
    + intros [[->|Hin] Hno]; [now left|].
      destruct (cell_eqb c x) eqn:E.
      * apply cell_eqb_eq in E. now left.
      * right. split; [exact Hin|]. intros [->|H]; [|contradiction].
        now rewrite cell_eqb_refl in E.
Qed.

Lemma in_unique (x : cell) (l : list cell) : In x (unique l) <-> In x l.
Proof. unfold unique. rewrite in_unique_from. simpl. tauto. Qed.

Lemma NoDup_unique_from (l : list cell) :
  forall seen, List.NoDup (unique_from seen l).
Proof.
  induction l as [|c l IH]; intros seen; simpl; [constructor|].
  destruct (existsb (cell_eqb c) seen); [apply IH|].
  constructor; [|apply IH].
  rewrite in_unique_from. simpl. tauto.
Qed.

Lemma NoDup_unique (l : list cell) : List.NoDup (unique l).
Proof. apply NoDup_unique_from. Qed.

Lemma existsb_ext_in (c : cell) (s1 s2 : list cell) :
  (forall y, In y s1 <-> In y s2) ->
  existsb (cell_eqb c) s1 = existsb (cell_eqb c) s2.
Proof.
  intros H. apply eq_true_iff_eq. now rewrite !existsb_cell_eqb.
Qed.

(** Only the members of [seen] matter. *)
Lemma unique_from_ext (l : list cell) :
  forall s1 s2,
    (forall y, In y s1 <-> In y s2) -> unique_from s1 l = unique_from s2 l.
Proof.
  induction l as [|c l IH]; intros s1 s2 H; simpl; [reflexivity|].
  rewrite (existsb_ext_in c s1 s2 H).
  destruct (existsb (cell_eqb c) s2); [now apply IH|].
  f_equal. apply IH. intros y. simpl. now rewrite H.
Qed.

Lemma filter_idem {A : Type} (p : A -> bool) (l : list A) :
  List.filter p (List.filter p l) = List.filter p l.
Proof.
  induction l as [|x l IH]; simpl; [reflexivity|].
  destruct (p x) eqn:Hp; simpl; [rewrite Hp; now f_equal | exact IH].
Qed.

Lemma unique_from_cons_seen (x : cell) (l : list cell) :
  forall seen,
    unique_from (x :: seen) l
    = List.filter (fun y => negb (cell_eqb x y)) (unique_from seen l).
Proof.
  induction l as [|c l IH]; intros seen; [reflexivity|].
  cbn [unique_from existsb]. rewrite (cell_eqb_sym c x).
  destruct (existsb (cell_eqb c) seen) eqn:Hs.
  - rewrite orb_true_r. apply IH.
  - rewrite orb_false_r. destruct (cell_eqb x c) eqn:E.
    + apply cell_eqb_eq in E. subst c. cbn [List.filter].
      rewrite cell_eqb_refl. cbn [negb].
      rewrite (IH seen). now rewrite filter_idem.
    + cbn [List.filter]. rewrite E. cbn [negb]. f_equal.
      rewrite <- IH. apply unique_from_ext. intros y. simpl. tauto.
Qed.

(** The order of first appearance: the head comes first, and is dropped
    from the distinct values of the tail. *)
Lemma unique_cons (x : cell) (l : list cell) :
  unique (x :: l) = x :: List.filter (fun y => negb (cell_eqb x y)) (unique l).
Proof.
  unfold unique. cbn [unique_from existsb]. f_equal. apply unique_from_cons_seen.
Qed.

Lemma count_cons (c x : cell) (l : list cell) :
  count c (x :: l) = (if cell_eqb c x then 1 else 0) + count c l.
Proof. unfold count. simpl. now destruct (cell_eqb c x). Qed.

Lemma count_pos_iff (c : cell) (l : list cell) : 0 < count c l <-> In c l.
Proof.
  induction l as [|x l IH]; [simpl; unfold count; simpl; split; [lia|tauto]|].
  rewrite count_cons. simpl. destruct (cell_eqb c x) eqn:E.
  - apply cell_eqb_eq in E. subst. split; [now left | lia].
  - rewrite <- IH. split; [intros H; right; lia|].
    intros [->|H]; [now rewrite cell_eqb_refl in E | lia].
Qed.

Lemma count_zero (c : cell) (l : list cell) : ~ In c l -> count c l = 0.
Proof. rewrite <- count_pos_iff. lia. Qed.

Lemma list_sum_cons (n : nat) (l : list nat) :
  list_sum (n :: l) = n + list_sum l.
Proof. reflexivity. Qed.

(** The sum of a function over a list, apart from one value. *)
Lemma list_sum_filter_ne (f : cell -> nat) (x : cell) (u : list cell) :
  List.NoDup u ->
  list_sum (map f u)
  = (if existsb (cell_eqb x) u then f x else 0)
    + list_sum (map f (List.filter (fun y => negb (cell_eqb x y)) u)).
Proof.
  induction u as [|a u IH]; intros Hnd; [reflexivity|].
  apply List.NoDup_cons_iff in Hnd as [Ha Hnd].
  cbn [map existsb List.filter]. rewrite list_sum_cons, (IH Hnd).
  destruct (cell_eqb x a) eqn:E; cbn [orb negb].
  - apply cell_eqb_eq in E. subst a.
    assert (existsb (cell_eqb x) u = false) as ->.
    { apply not_true_iff_false. now rewrite existsb_cell_eqb. }
    lia.
  - cbn [map]. rewrite list_sum_cons. lia.
Qed.

Lemma list_sum_map_ext_in {A : Type} (f g : A -> nat) (l : list A) :
  (forall x, In x l -> f x = g x) -> list_sum (map f l) = list_sum (map g l).
Proof. intros H. f_equal. now apply map_ext_in. Qed.

(** Every cell is counted once, under its value. *)
Lemma length_sum_counts (l : list cell) :
  length l = list_sum (map (fun v => count v l) (unique l)).
Proof.
  induction l as [|x l IH]; [reflexivity|].
  rewrite unique_cons. cbn [map length]. rewrite list_sum_cons.
  rewrite count_cons, cell_eqb_refl.
  rewrite (list_sum_map_ext_in (fun v => count v (x :: l)) (fun v => count v l)).
  - rewrite IH at 1.
    rewrite (list_sum_filter_ne (fun v => count v l) x (unique l))
      by apply NoDup_unique.
    destruct (existsb (cell_eqb x) (unique l)) eqn:E; [lia|].
    assert (count x l = 0); [|lia].
    apply count_zero. rewrite <- in_unique, <- existsb_cell_eqb. congruence.
  - intros v Hv. apply filter_In in Hv as [_ Hv].
    rewrite count_cons, (cell_eqb_sym v x).
    apply negb_true_iff in Hv. now rewrite Hv.
Qed.

Lemma count_filter (c : cell) (p : cell -> bool) (l : list cell) :
  count c (List.filter p l) = if p c then count c l else 0.
Proof.
  induction l as [|x l IH]; [simpl; now destruct (p c)|].
  simpl List.filter. destruct (p x) eqn:Hx.
  - rewrite !count_cons, IH. destruct (cell_eqb c x) eqn:E.
    + apply cell_eqb_eq in E. subst. now rewrite Hx.
    + now destruct (p c).
  - rewrite count_cons, IH. destruct (cell_eqb c x) eqn:E.
    + apply cell_eqb_eq in E. subst. now rewrite Hx.
    + now destruct (p c).
Qed.

Lemma in_duplicates (c : cell) (ser : list cell) :
  In c (duplicates ser) <-> 2 <= count c ser.
Proof.
  unfold duplicates. rewrite filter_In, Nat.ltb_lt. split; [tauto|].
  intros H. split; [|lia]. apply count_pos_iff. lia.
Qed.

(** The number of duplicated cells is the number of occurrences of every
    value that occurs at least twice. *)
Lemma length_duplicates (ser : list cell) :
  length (duplicates ser)
  = list_sum (map (fun v => count v ser) (unique (duplicates ser))).
Proof.
  rewrite (length_sum_counts (duplicates ser)).
  apply list_sum_map_ext_in. intros v Hv.
  apply in_unique, in_duplicates in Hv.
  unfold duplicates at 1. rewrite count_filter.
  destruct (Nat.ltb_spec 1 (count v ser)); [reflexivity | lia].
Qed.

Lemma count_le_1_NoDup (l : list cell) :
  (forall c, count c l <= 1) <-> List.NoDup l.
Proof.
  induction l as [|x l IH].
  - split; [constructor | intros _ c; unfold count; simpl; lia].
  - rewrite List.NoDup_cons_iff, <- IH. split.
    + intros H. split.
      * intros Hin. apply count_pos_iff in Hin.
        specialize (H x). rewrite count_cons, cell_eqb_refl in H. lia.
      * intros c. specialize (H c). rewrite count_cons in H. lia.
    + intros [Hx H] c. rewrite count_cons. destruct (cell_eqb c x) eqn:E.
      * apply cell_eqb_eq in E. subst. rewrite (count_zero x l Hx). lia.
      * specialize (H c). lia.
Qed.

(** There are duplicated cells exactly when the values are not pairwise
    distinct. *)
Lemma duplicates_nil_iff (ser : list cell) :
  duplicates ser = [] <-> List.NoDup ser.
Proof.
  rewrite <- count_le_1_NoDup. split.
  - intros H c. destruct (le_lt_dec (count c ser) 1) as [Hle|Hgt]; [exact Hle|].
    assert (Hin : In c (duplicates ser)) by (apply in_duplicates; lia).
    rewrite H in Hin. contradiction.
  - intros H. destruct (duplicates ser) as [|c l] eqn:E; [reflexivity|].
    assert (Hin : In c (duplicates ser)) by (rewrite E; now left).
    apply in_duplicates in Hin. specialize (H c). lia.
Qed.

Lemma duplicated_sum (ser : list cell) :
  sum (duplicated_keep_false ser) = Z.of_nat (length (duplicates ser)).
Proof. unfold duplicated_keep_false. apply sum_map. Qed.

Lemma duplicated_loc (ser : list cell) :
  loc (duplicated_keep_false ser) ser = duplicates ser.
Proof. unfold duplicated_keep_false. apply loc_map. Qed.

End UniqueFacts.

(* ===================================================================== *)
(** ** C4: the uniqueness check *)
(* ===================================================================== *)

Lemma unique_key_step_present (df : DataFrame) (key : string) :
  has_column df key = true ->
  let dups := duplicates (getitem df key) in
  let n := Z.of_nat (length dups) in
  unique_key_step df key
  = if (0 <? n)%Z
    then [expect_column_values_to_be_unique key n
            (firstn 20 (Series.unique dups))]
    else [].
Proof.
  intros Hc. unfold unique_key_step. rewrite Hc. simpl negb. cbv iota.
  now rewrite UniqueFacts.duplicated_sum, UniqueFacts.duplicated_loc.
Qed.

(** A finding about duplicates in the report comes from the uniqueness
    check of its column. *)
Lemma duplicate_finding_origin
      (strptime_other : string -> string -> bool)
      (to_numeric_isna : list cell -> list bool)
      (to_datetime_isna : list cell -> result (list bool))
      (cfg : config) (df : DataFrame) (g : finding) :
  In g (failing strptime_other to_numeric_isna to_datetime_isna cfg df) ->
  kind_of g = DuplicateValues ->
  In (column_of g) (unique_keys cfg)
  /\ In g (unique_key_step df (column_of g)).
Proof.
  intros Hin Hk. apply in_failing in Hin.
  destruct Hin as [H|[H|[H|[H|[H|[H|H]]]]]].
  - apply in_check_required_exist in H as (col & _ & _ & ->). discriminate.
  - apply in_check_required_not_null in H as (col & _ & _ & H).
    apply in_required_not_null_step in H as [H _]. congruence.
  - apply in_check_unique_keys in H as (key & Hkey & H).
    pose proof (in_unique_key_step _ _ _ H) as [-> _]. auto.
  - apply in_check_types in H as (col & ty & _ & H).
    apply in_type_step in H as (_ & _ & ->). discriminate.
  - apply in_check_email in H as (_ & H & _). congruence.
  - apply in_check_date in H as (_ & H & _). congruence.
  - apply in_check_time in H as (_ & H & _). congruence.
Qed.

(** C4. For every unique-key column present in the data set, the
    uniqueness check counts every cell whose value occurs at least twice in
    the column (values compared by equality, nothing trimmed), that is
    every occurrence of every such value, and reports the first 20 distinct
    duplicated values in the order of first appearance; the report holds
    the finding about duplicates for the column exactly when that count is
    positive, which is when the values are not pairwise distinct.  For the
    key values [A, B, A, C, A] the count is 3 and the sample is [A]. *)
Theorem uniqueness_check
        (strptime_other : string -> string -> bool)
        (to_numeric_isna : list cell -> list bool)
        (to_datetime_isna : list cell -> result (list bool))
        (cfg : config) (df : DataFrame) (key : string) :
  In key (unique_keys cfg) ->
  has_column df key = true ->
  let ser := getitem df key in
  let dups := duplicates ser in
  let n := Z.of_nat (length dups) in
  let f := expect_column_values_to_be_unique key n
             (firstn 20 (Series.unique dups)) in
  let report := failing strptime_other to_numeric_isna to_datetime_isna cfg df in
  (* the cells counted *)
  (forall c, In c dups <-> In c ser /\ 2 <= Series.count c ser)
  /\ (forall a b, cell_eqb a b = true <-> a = b)
  /\ length dups
     = list_sum (map (fun v => Series.count v ser) (Series.unique dups))
  (* the sample *)
  /\ (forall v, In v (Series.unique dups) <-> 2 <= Series.count v ser)
  /\ List.NoDup (Series.unique dups)
  /\ (forall x l,
         Series.unique (x :: l)
         = x :: List.filter (fun y => negb (cell_eqb x y)) (Series.unique l))
  /\ length (firstn 20 (Series.unique dups)) <= 20
  (* the finding *)
  /\ unique_key_step df key = (if (0 <? n)%Z then [f] else [])
  /\ (In f report <-> (0 < n)%Z)
  /\ ((0 < n)%Z <-> ~ List.NoDup ser)
  /\ (forall g, In g report -> kind_of g = DuplicateValues ->
                column_of g = key -> g = f)
  (* the example *)
  /\ unique_key_step Sample.keys_df "k"
     = [expect_column_values_to_be_unique "k" 3 [Some "A"]].
Proof.
  intros Hkey Hc ser dups n f report.
  pose proof (unique_key_step_present df key Hc) as Hstep.
  change (unique_key_step df key = if (0 <? n)%Z then [f] else []) in Hstep.
  assert (Horigin : forall g, In g report -> kind_of g = DuplicateValues ->
                              column_of g = key -> g = f /\ (0 < n)%Z).
  { intros g Hg Hk Hcol.
    apply duplicate_finding_origin in Hg as [_ Hg]; [|exact Hk].
    rewrite Hcol, Hstep in Hg.
    destruct (Z.ltb_spec 0 n); [|contradiction].
    destruct Hg as [<-|[]]. auto. }
  split.
  { intros c. unfold dups, duplicates. rewrite filter_In, Nat.ltb_lt. tauto. }
  split; [exact SeriesFacts.cell_eqb_eq|].
  split; [apply UniqueFacts.length_duplicates|].
  split.
  { intros v. rewrite UniqueFacts.in_unique. apply UniqueFacts.in_duplicates. }
  split; [apply UniqueFacts.NoDup_unique|].
  split; [exact UniqueFacts.unique_cons|].
  split; [rewrite length_firstn; lia|].
  split; [exact Hstep|].
  split.
  { split.
    - intros Hf. now apply Horigin in Hf.
    - intros Hn. apply in_failing. right. right. left.
      apply in_check_unique_keys. exists key. split; [exact Hkey|].
      rewrite Hstep. destruct (Z.ltb_spec 0 n); [now left | lia]. }
  split.
  { rewrite <- UniqueFacts.duplicates_nil_iff. fold dups. unfold n.
    destruct dups; simpl; split; intros H; try lia; congruence. }
  split; [intros g Hg Hk Hcol; now apply Horigin|].
  reflexivity.
Qed.

Lemma uniqueness_check_witness :
  In "id" (unique_keys Sample.cfg)
  /\ has_column Sample.df "id" = true
  /\ In (expect_column_values_to_be_unique "id" 3 [Some "A"])
        (Sample.failing Sample.cfg Sample.df).
Proof.
  split; [now left|]. split; [reflexivity|].
  destruct (uniqueness_check Sample.strptime_other Sample.to_numeric_isna
              Sample.to_datetime_isna Sample.cfg Sample.df "id"
              (or_introl eq_refl) eq_refl)
    as (_ & _ & _ & _ & _ & _ & _ & _ & H & _).
  apply H. vm_compute. reflexivity.
Defined.

(* ===================================================================== *)
(** ** The findings of the report about one column *)
(* ===================================================================== *)

Section FindingsByColumn.

Variable strptime_other : string -> string -> bool.
Variable to_numeric_isna : list cell -> list bool.
Variable to_datetime_isna : list cell -> result (list bool).

Let failing' := failing strptime_other to_numeric_isna to_datetime_isna.

Lemma select_flat_map {A : Type} (k : expectation_kind) (col : string)
      (step : A -> list finding) (l : list A) :
  select k col (flat_map step l) = flat_map (fun x => select k col (step x)) l.
Proof.
  induction l as [|x l IH]; simpl; [reflexivity|].
  now rewrite select_app, IH.
Qed.

Lemma flat_map_repeat {A B : Type} (dec : forall x y : A, {x = y} + {x <> y})
      (step : A -> list B) (a : A) (b : B) (l : list A) :
  step a = [b] ->
  (forall x, x <> a -> step x = []) ->
  flat_map step l = repeat b (count_occ dec l a).
Proof.
  intros Ha Hne. induction l as [|x l IH]; simpl; [reflexivity|].
  destruct (dec x a) as [->|Hx].
  - rewrite Ha, IH. reflexivity.
  - rewrite (Hne x Hx), IH. reflexivity.
Qed.

Lemma flat_map_nil {A B : Type} (step : A -> list B) (l : list A) :
  (forall x, step x = []) -> flat_map step l = [].
Proof.
  intros H. induction l as [|x l IH]; simpl; [reflexivity|].
  now rewrite H, IH.
Qed.

Lemma select_one (k : expectation_kind) (col : string) (g : finding) :
  select k col [g]
  = if kind_eqb (kind_of g) k && String.eqb (column_of g) col then [g] else [].
Proof. reflexivity. Qed.

(** The existence check: one finding per entry of [required] that names an
    absent column. *)
Lemma select_missing_required (col : string) (req : list string)
      (df : DataFrame) :
  select ColumnMissing col (check_required_exist req df)
  = if has_column df col then []
    else repeat (expect_column_to_exist col "column missing")
           (count_occ string_dec req col).
Proof.
  unfold check_required_exist. rewrite select_flat_map.
  destruct (has_column df col) eqn:Hc.
  - apply flat_map_nil. intros x. unfold required_exist_step.
    destruct (has_column df x) eqn:Hx; [reflexivity|].
    simpl negb. cbv iota. rewrite select_one. simpl.
    destruct (String.eqb_spec x col); [congruence | reflexivity].
  - apply flat_map_repeat.
    + unfold required_exist_step. rewrite Hc. simpl negb. cbv iota.
      rewrite select_one. simpl. now rewrite String.eqb_refl.
    + intros x Hx. unfold required_exist_step.
      destruct (has_column df x); [reflexivity|].
      simpl negb. cbv iota. rewrite select_one. simpl.
      destruct (String.eqb_spec x col); [contradiction | reflexivity].
Qed.

(** The uniqueness check: one finding per entry of [unique_keys] that names
    an absent column. *)
Lemma select_missing_unique (col : string) (keys : list string)
      (df : DataFrame) :
  select ColumnMissing col (check_unique_keys keys df)
  = if has_column df col then []
    else repeat (expect_column_to_exist col
                   "column missing (for uniqueness check)")
           (count_occ string_dec keys col).
Proof.
  unfold check_unique_keys. rewrite select_flat_map.
  assert (Hother : forall x, x <> col \/ has_column df x = true ->
                             select ColumnMissing col (unique_key_step df x) = []).
  { intros x Hx. apply select_none. intros g Hg.
    apply in_unique_key_step in Hg as [Hcol [[Hc ->]|[Hc Hk]]].
    - destruct Hx as [Hx|Hx]; [right; exact Hx | congruence].
    - left. congruence. }
  destruct (has_column df col) eqn:Hc.
  - apply flat_map_nil. intros x.
    destruct (string_dec x col) as [->|Hx]; apply Hother; auto.
  - apply flat_map_repeat.
    + unfold unique_key_step. rewrite Hc. simpl negb. cbv iota.
      rewrite select_one. simpl. now rewrite String.eqb_refl.
    + intros x Hx. apply Hother. now left.
Qed.

(** The null check: one finding per entry of [required] that names a
    present column with a null or blank cell. *)
Lemma select_null_required (col : string) (req : list string)
      (df : DataFrame) :
  select NullValuesPresent col (check_required_not_null req df)
  = if has_column df col
    then flat_map (fun _ => required_not_null_step df col)
           (repeat tt (count_occ string_dec req col))
    else [].
Proof.
  unfold check_required_not_null.
  rewrite SeriesFacts.flat_map_filter, select_flat_map.
  induction req as [|x req IH]; simpl.
  - now destruct (has_column df col).
  - rewrite IH. destruct (string_dec x col) as [->|Hx].
    + destruct (has_column df col); [|reflexivity].
      simpl. f_equal. apply select_all. intros g Hg.
      now apply in_required_not_null_step in Hg.
    + replace (select NullValuesPresent col
                 (if has_column df x then required_not_null_step df x else []))
        with (@nil finding); [reflexivity|].
      symmetry. apply select_none. intros g Hg. right.
      destruct (has_column df x); [|contradiction].
      apply in_required_not_null_step in Hg as [_ ->]. exact Hx.
Qed.

Ltac by_origin H :=
  first
    [ apply in_check_required_exist in H as (? & _ & _ & ->)
    | apply in_check_required_not_null in H as (? & _ & _ & H);
      apply in_required_not_null_step in H as [H _]
    | apply in_check_unique_keys in H as (? & _ & H);
      apply in_unique_key_step in H as (_ & [[_ ->]|[_ H]])
    | apply in_check_types in H as (? & ? & _ & H);
      apply in_type_step in H as (_ & _ & ->)
    | apply in_check_email in H as (_ & H & _)
    | apply in_check_date in H as (_ & H & _)
    | apply in_check_time in H as (_ & H & _) ];
  left; first [discriminate | congruence].

(** The findings about a missing column in the whole report. *)
Lemma select_missing (cfg : config) (df : DataFrame) (col : string) :
  select ColumnMissing col (failing' cfg df)
  = if has_column df col then []
    else repeat (expect_column_to_exist col "column missing")
           (count_occ string_dec (required cfg) col)
         ++ repeat (expect_column_to_exist col
                      "column missing (for uniqueness check)")
              (count_occ string_dec (unique_keys cfg) col).
Proof.
  unfold failing', failing. rewrite !select_app.
  rewrite select_missing_required, select_missing_unique.
  rewrite (select_none _ _ (check_required_not_null _ _)),
    (select_none _ _ (check_types _ _ _ _)),
    (select_none _ _ (check_email _)),
    (select_none _ _ (check_date _ _ _)),
    (select_none _ _ (check_time _ _ _));
    try (intros g Hg; by_origin Hg).
  rewrite !app_nil_r. simpl. now destruct (has_column df col).
Qed.

(** The findings about null values of a column in the whole report. *)
Lemma select_null (cfg : config) (df : DataFrame) (col : string) :
  select NullValuesPresent col (failing' cfg df)
  = if has_column df col
    then flat_map (fun _ => required_not_null_step df col)
           (repeat tt (count_occ string_dec (required cfg) col))
    else [].
Proof.
  unfold failing', failing. rewrite !select_app.
  rewrite select_null_required.
  rewrite (select_none _ _ (check_required_exist _ _)),
    (select_none _ _ (check_unique_keys _ _)),
    (select_none _ _ (check_types _ _ _ _)),
    (select_none _ _ (check_email _)),
    (select_none _ _ (check_date _ _ _)),
    (select_none _ _ (check_time _ _ _));
    try (intros g Hg; by_origin Hg).
  now rewrite !app_nil_r.
Qed.

End FindingsByColumn.

(* ===================================================================== *)
(** ** C5: required columns *)
(* ===================================================================== *)

Lemma null_or_blank_iff (c : cell) :
  null_or_blank c = true <->
  c = None \/ exists s, c = Some s /\ PyStr.strip s = "".
Proof.
  destruct c as [s|]; simpl.
  - rewrite String.eqb_eq. split.
    + intros H. right. now exists s.
    + intros [H|(s' & [= <-] & H)]; [discriminate | exact H].
  - split; [now left | reflexivity].
Qed.

Lemma missing_mask_map (ser : list cell) :
  Series.or_ (Series.isna ser) (Series.eq (Series.str_strip ser) "")
  = map null_or_blank ser.
Proof.
  unfold Series.or_, Series.isna, Series.eq.
  rewrite SeriesFacts.str_strip_map, SeriesFacts.zip_with_map.
  apply map_ext. intros [s|]; reflexivity.
Qed.

Lemma required_not_null_step_eq (df : DataFrame) (col : string) :
  let nulls := List.filter null_or_blank (getitem df col) in
  let n := Z.of_nat (length nulls) in
  required_not_null_step df col
  = if (0 <? n)%Z
    then [expect_column_values_to_not_be_null col n
            (Series.astype_str (Series.head 10 nulls))]
    else [].
Proof.
  unfold required_not_null_step.
  now rewrite missing_mask_map, SeriesFacts.sum_map, SeriesFacts.loc_map.
Qed.

Lemma flat_map_repeat_tt {B : Type} (l : list B) (k : nat) :
  flat_map (fun _ : unit => l) (repeat tt k) = concat (repeat l k).
Proof. induction k as [|k IH]; simpl; [reflexivity | now rewrite IH]. Qed.

Lemma concat_repeat_one {B : Type} (b : B) (k : nat) :
  concat (repeat [b] k) = repeat b k.
Proof. induction k as [|k IH]; simpl; [reflexivity | now rewrite IH]. Qed.

Lemma concat_repeat_nil {B : Type} (k : nat) :
  concat (repeat (@nil B) k) = [].
Proof. induction k as [|k IH]; simpl; [reflexivity | exact IH]. Qed.

Lemma count_occ_pos_In (l : list string) (x : string) :
  In x l <-> 0 < count_occ string_dec l x.
Proof. apply count_occ_In. Qed.

Lemma repeat_one {A : Type} (x y : A) (j k : nat) :
  repeat x j ++ repeat y k = [x] -> x <> y -> j = 1 /\ k = 0.
Proof.
  intros H Hne. destruct j as [|[|j]]; simpl in H.
  - destruct k as [|[|k]]; simpl in H; try discriminate.
    injection H as H. now symmetry in H.
  - destruct k; [auto | discriminate].
  - discriminate.
Qed.

(** C5, as the program has it.  For every required column.  If it is
    absent from the data set, the existence check emits one finding for
    each time the column is listed in [required], the uniqueness check
    one more for each time it is listed in [unique_keys], and these are
    the findings about a missing column: there is exactly one exactly when
    the column is listed once in [required] and is not a unique key; and
    none of the findings about null values is ever about that column.  If
    it is present, no finding says that it is missing, a cell counts as
    null exactly when it is NaN or trims to the empty string, and one
    finding about null values per listing, with the count of such cells
    and the first 10 of them in row order, is in the report exactly when
    that count is positive: a single one exactly when the column is listed
    once. *)
Theorem required_column_check
        (strptime_other : string -> string -> bool)
        (to_numeric_isna : list cell -> list bool)
        (to_datetime_isna : list cell -> result (list bool))
        (cfg : config) (df : DataFrame) (col : string) :
  In col (required cfg) ->
  let report := failing strptime_other to_numeric_isna to_datetime_isna cfg df in
  let listed := count_occ string_dec (required cfg) col in
  let keyed := count_occ string_dec (unique_keys cfg) col in
  let missing := expect_column_to_exist col "column missing" in
  let missing_key :=
    expect_column_to_exist col "column missing (for uniqueness check)" in
  let nulls := List.filter null_or_blank (getitem df col) in
  let n := Z.of_nat (length nulls) in
  let null_finding :=
    expect_column_values_to_not_be_null col n
      (Series.astype_str (Series.head 10 nulls)) in
  1 <= listed
  /\ (keyed = 0 <-> ~ In col (unique_keys cfg))
  /\ (has_column df col = false ->
      required_exist_step df col = [missing]
      /\ In missing report
      /\ select ColumnMissing col report
         = repeat missing listed ++ repeat missing_key keyed
      /\ length (select ColumnMissing col report) = listed + keyed
      /\ (select ColumnMissing col report = [missing]
          <-> listed = 1 /\ keyed = 0)
      /\ select NullValuesPresent col report = [])
  /\ (has_column df col = true ->
      (forall c, null_or_blank c = true <->
                 c = None \/ exists s, c = Some s /\ PyStr.strip s = "")
      /\ required_exist_step df col = []
      /\ select ColumnMissing col report = []
      /\ required_not_null_step df col
         = (if (0 <? n)%Z then [null_finding] else [])
      /\ select NullValuesPresent col report
         = (if (0 <? n)%Z then repeat null_finding listed else [])
      /\ (select NullValuesPresent col report = [null_finding]
          <-> (0 < n)%Z /\ listed = 1)
      /\ (In null_finding report <-> (0 < n)%Z)
      /\ length (Series.head 10 nulls) <= 10).
Proof.
  intros Hin report listed keyed missing missing_key nulls n null_finding.
  assert (Hlisted : 1 <= listed) by (apply count_occ_pos_In in Hin; exact Hin).
  assert (Hsel := select_missing strptime_other to_numeric_isna
                    to_datetime_isna cfg df col).
  fold report listed keyed missing missing_key in Hsel.
  split; [exact Hlisted|]. split.
  { unfold keyed. symmetry. apply count_occ_not_In. }
  split.
  - intros Hc. rewrite Hc in Hsel.
    split; [unfold required_exist_step; now rewrite Hc|].
    split.
    { apply in_failing. left. apply in_check_required_exist. now exists col. }
    split; [exact Hsel|]. split.
    { now rewrite Hsel, length_app, !repeat_length. }
    split.
    + rewrite Hsel. split.
      * intros H. apply (repeat_one _ _ _ _ H). discriminate.
      * intros [-> ->]. reflexivity.
    + unfold report. rewrite select_null. now rewrite Hc.
  - intros Hc. rewrite Hc in Hsel.
    pose proof (required_not_null_step_eq df col) as Hstep.
    change (required_not_null_step df col
            = if (0 <? n)%Z then [null_finding] else []) in Hstep.
    assert (Hnull :
              select NullValuesPresent col report
              = if (0 <? n)%Z then repeat null_finding listed else []).
    { unfold report. rewrite select_null, Hc, flat_map_repeat_tt, Hstep.
      destruct (0 <? n)%Z.
      - apply concat_repeat_one.
      - apply concat_repeat_nil. }
    split; [exact null_or_blank_iff|].
    split; [unfold required_exist_step; now rewrite Hc|].
    split; [exact Hsel|].
    split; [exact Hstep|]. split; [exact Hnull|]. split.
    { rewrite Hnull. destruct (Z.ltb_spec 0 n) as [Hn|Hn].
      - split.
        + intros H. split; [exact Hn|].
          apply (f_equal (@length finding)) in H.
          now rewrite repeat_length in H.
        + intros [_ ->]. reflexivity.
      - split; [discriminate | lia]. }
    split.
    + split.
      * intros Hf.
        assert (Hs : In null_finding (select NullValuesPresent col report)).
        { apply filter_In. split; [exact Hf|]. simpl.
          apply String.eqb_refl. }
        rewrite Hnull in Hs.
        destruct (Z.ltb_spec 0 n); [assumption|contradiction].
      * intros Hn.
        assert (Hs : In null_finding (select NullValuesPresent col report)).
        { rewrite Hnull. destruct (Z.ltb_spec 0 n); [|lia].
          destruct listed; [lia | now left]. }
        now apply filter_In in Hs.
    + unfold Series.head. rewrite length_firstn. lia.
Qed.

Lemma required_column_check_witness :
  let cfg := {| col_types := []; required := ["customer_id"; "Email"];
                unique_keys := ["id"]; validations := ∅ |} in
  In "customer_id" (required cfg)
  /\ has_column Sample.df "customer_id" = false
  /\ select ColumnMissing "customer_id" (Sample.failing cfg Sample.df)
     = [expect_column_to_exist "customer_id" "column missing"]
  /\ select NullValuesPresent "customer_id" (Sample.failing cfg Sample.df)
     = []
  /\ In "Email" (required cfg)
  /\ has_column Sample.df "Email" = true
  /\ select NullValuesPresent "Email" (Sample.failing cfg Sample.df)
     = [expect_column_values_to_not_be_null "Email" 2 ["nan"; " "]].
Proof.
  intros cfg.
  split; [now left|]. split; [reflexivity|].
  destruct (required_column_check Sample.strptime_other
              Sample.to_numeric_isna Sample.to_datetime_isna
              cfg Sample.df "customer_id" (or_introl eq_refl))
    as (_ & _ & Habsent & _).
  destruct (Habsent eq_refl) as (_ & _ & _ & _ & Hone & Hnull).
  split; [apply Hone; split; reflexivity|]. split; [exact Hnull|].
  split; [right; now left|]. split; [reflexivity|].
  destruct (required_column_check Sample.strptime_other
              Sample.to_numeric_isna Sample.to_datetime_isna
              cfg Sample.df "Email" (or_intror (or_introl eq_refl)))
    as (_ & _ & _ & Hpresent).
  destruct (Hpresent eq_refl) as (_ & _ & _ & _ & _ & Hone' & _).
  apply Hone'. split; reflexivity.
Defined.

(** More than one finding for one required column.  The required column
    [customer_id], listed once and absent, is also a unique key: the
    report holds two findings that say it is missing.  A column listed
    twice in [required] gets two findings from the existence check when
    it is absent, and two findings about null values when it is present
    with a blank cell. *)
Lemma required_column_two_findings :
  In "customer_id" (required Sample.cfg)
  /\ count_occ string_dec (required Sample.cfg) "customer_id" = 1
  /\ has_column Sample.df "customer_id" = false
  /\ select ColumnMissing "customer_id" (Sample.failing Sample.cfg Sample.df)
     = [expect_column_to_exist "customer_id" "column missing";
        expect_column_to_exist "customer_id"
          "column missing (for uniqueness check)"]
  /\ Sample.failing
       {| col_types := []; required := ["customer_id"; "customer_id"];
          unique_keys := []; validations := ∅ |}
       Sample.keys_df
     = [expect_column_to_exist "customer_id" "column missing";
        expect_column_to_exist "customer_id" "column missing"]
  /\ Sample.failing
       {| col_types := []; required := ["k"; "k"];
          unique_keys := []; validations := ∅ |}
       {| columns := ["k"]; rows := [[Some "A"]; [Some " "]] |}
     = [expect_column_values_to_not_be_null "k" 1 [" "];
        expect_column_values_to_not_be_null "k" 1 [" "]].
Proof. repeat split; vm_compute; auto. Qed.

(* ===================================================================== *)
(** ** C6: the type coercion check *)
(* ===================================================================== *)

Lemma in_tuple_In (t : string) (ts : list string) :
  in_tuple t ts = true <-> In t ts.
Proof.
  unfold in_tuple. rewrite existsb_exists. split.
  - intros (x & Hin & Hx). apply String.eqb_eq in Hx. now subst.
  - intros Hin. exists t. split; [exact Hin | apply String.eqb_refl].
Qed.

Section Coercion.
Import Series SeriesFacts.

Variable to_numeric_isna : list cell -> list bool.
Variable to_datetime_isna : list cell -> result (list bool).

Let coerce := _coerce_and_check_series to_numeric_isna to_datetime_isna.
Let mask := coercion_mask to_numeric_isna to_datetime_isna.

Lemma present_mask (m : list bool) (ser : list cell) :
  and_ (and_ m (notna ser)) (ne (str_strip ser) "")
  = zip_with (fun b c => b && present_cell c) m ser.
Proof.
  unfold and_, notna, ne, str_strip. rewrite map_map.
  revert m. induction ser as [|c ser IH]; intros [|b m]; simpl;
    try reflexivity.
  rewrite IH. f_equal. destruct c as [s|]; simpl.
  - unfold present_cell. simpl. now destruct b.
  - now destruct b.
Qed.

Lemma present_mask_all (ser : list cell) :
  and_ (notna ser) (ne (str_strip ser) "") = map present_cell ser.
Proof.
  unfold and_, notna, ne. rewrite str_strip_map, zip_with_map.
  apply map_ext. intros [s|]; reflexivity.
Qed.

(** The failed cells, row by row. *)
Lemma in_failed_of (m : list bool) (ser : list cell) (c : cell) :
  In c (failed_of m ser) <->
  exists i, nth_error ser i = Some c /\ nth_error m i = Some true
            /\ present_cell c = true.
Proof.
  unfold failed_of. rewrite present_mask. unfold loc.
  revert m. induction ser as [|x ser IH]; intros [|b m]; simpl.
  - split; [contradiction | intros ([|i] & H & _); discriminate].
  - split; [contradiction | intros ([|i] & H & _); discriminate].
  - split; [contradiction | intros ([|i] & _ & H & _); discriminate].
  - destruct (b && present_cell x) eqn:E; simpl.
    + apply andb_true_iff in E as [-> Hx]. rewrite IH. split.
      * intros [<-|(i & H)]; [now exists 0 | now exists (S i)].
      * intros ([|i] & H1 & H2 & H3); simpl in *.
        -- left. congruence.
        -- right. now exists i.
    + rewrite IH. split.
      * intros (i & H). now exists (S i).
      * intros ([|i] & H1 & H2 & H3); simpl in *.
        -- injection H1 as ->. injection H2 as ->. simpl in E. congruence.
        -- now exists i.
Qed.

(** The failed cells are the cells the mask marks that are neither NaN nor
    blank. *)
Lemma failed_of_lost (m : list bool) (ser : list cell) :
  failed_of m ser = lost_cells m ser.
Proof.
  unfold failed_of, lost_cells. rewrite present_mask. unfold loc.
  revert m. induction ser as [|x ser IH]; intros [|b m]; simpl;
    try reflexivity.
  destruct (b && present_cell x); simpl; now rewrite IH.
Qed.

Lemma in_lost_cells (m : list bool) (ser : list cell) (c : cell) :
  In c (lost_cells m ser) <->
  exists i, nth_error ser i = Some c /\ nth_error m i = Some true
            /\ present_cell c = true.
Proof. rewrite <- failed_of_lost. apply in_failed_of. Qed.




Lemma failed_of_length (m : list bool) (ser : list cell) :
  length (failed_of m ser) <= length (List.filter present_cell ser).
Proof.
  unfold failed_of. rewrite present_mask. unfold loc.
  revert m. induction ser as [|x ser IH]; intros [|b m]; simpl; try lia.
  specialize (IH m).
  destruct b, (present_cell x); simpl; lia.
Qed.

Lemma failed_of_blank (m : list bool) (ser : list cell) :
  (forall c, In c ser -> null_or_blank c = true) -> failed_of m ser = [].
Proof.
  intros H. destruct (failed_of m ser) as [|c l] eqn:E; [reflexivity|].
  assert (Hin : In c (failed_of m ser)) by (rewrite E; now left).
  apply in_failed_of in Hin as (i & Hi & _ & Hp).
  apply nth_error_In in Hi. apply H in Hi.
  unfold present_cell in Hp. rewrite Hi in Hp. discriminate.
Qed.


Lemma in_tuple_app (ty : string) (l1 l2 : list string) :
  in_tuple ty (l1 ++ l2) = in_tuple ty l1 || in_tuple ty l2.
Proof. apply existsb_app. Qed.

Lemma checked_tags_split (ty : string) :
  in_tuple ty checked_tags
  = in_tuple ty ["int"; "integer"]
    || (in_tuple ty ["float"; "numeric"; "number"]
        || in_tuple ty ["timestamp"; "datetime"; "date"]).
Proof.
  change checked_tags
    with (["int"; "integer"]
            ++ ["float"; "numeric"; "number"]
            ++ ["timestamp"; "datetime"; "date"]).
  now rewrite !in_tuple_app.
Qed.

Lemma numeric_tags_split (ty : string) :
  in_tuple ty ["int"; "integer"; "float"; "numeric"; "number"]
  = in_tuple ty ["int"; "integer"] || in_tuple ty ["float"; "numeric"; "number"].
Proof.
  change ["int"; "integer"; "float"; "numeric"; "number"]
    with (["int"; "integer"] ++ ["float"; "numeric"; "number"]).
  apply in_tuple_app.
Qed.

(** The tuples of type tags have no tag in common. *)
Lemma checked_tag_not_string (ty : string) :
  in_tuple ty checked_tags = true ->
  in_tuple ty ["string"; "str"; "object"] = false.
Proof.
  intros H. apply in_tuple_In in H. unfold checked_tags in H. simpl in H.
  repeat (destruct H as [<-|H]; [reflexivity|]). contradiction.
Qed.

Lemma timestamp_tag_not_numeric (ty : string) :
  in_tuple ty ["timestamp"; "datetime"; "date"] = true ->
  in_tuple ty ["int"; "integer"; "float"; "numeric"; "number"] = false.
Proof.
  intros H. apply in_tuple_In in H. simpl in H.
  repeat (destruct H as [<-|H]; [reflexivity|]). contradiction.
Qed.

Lemma checked_tags_cases (ty : string) :
  in_tuple ty checked_tags
  = in_tuple ty ["int"; "integer"; "float"; "numeric"; "number"]
    || in_tuple ty ["timestamp"; "datetime"; "date"].
Proof.
  rewrite checked_tags_split, numeric_tags_split. now rewrite orb_assoc.
Qed.

(** The declared type [string], and a type tag the helper does not know,
    always succeed. *)
Lemma coerce_unchecked (ser : list cell) (ty : string) :
  in_tuple ty checked_tags = false -> coerce ser ty = check_passed.
Proof.
  rewrite checked_tags_split, !orb_false_iff. intros (Hi & Hf & Ht).
  unfold coerce, _coerce_and_check_series. rewrite Hi, Hf, Ht.
  now destruct (in_tuple ty ["string"; "str"; "object"]).
Qed.


(** A check over the cells the coercion lost. *)
Lemma coerce_numeric (ser : list cell) (ty : string) :
  in_tuple ty ["string"; "str"; "object"] = false ->
  in_tuple ty ["int"; "integer"; "float"; "numeric"; "number"] = true ->
  let failed := failed_of (to_numeric_isna ser) ser in
  coerce ser ty
  = {| Check.success := (Z.of_nat (length failed) =? 0)%Z;
       Check.failed_count := Z.of_nat (length failed);
       Check.sample_values := astype_str (head 10 failed) |}.
Proof.
  intros Hs. rewrite numeric_tags_split.
  unfold coerce, _coerce_and_check_series. rewrite Hs.
  destruct (in_tuple ty ["int"; "integer"]); [reflexivity|].
  simpl. now intros ->.
Qed.

Lemma coerce_timestamp (ser : list cell) (ty : string) :
  in_tuple ty ["string"; "str"; "object"] = false ->
  in_tuple ty ["int"; "integer"; "float"; "numeric"; "number"] = false ->
  in_tuple ty ["timestamp"; "datetime"; "date"] = true ->
  coerce ser ty
  = match to_datetime_isna ser with
    | Ok coerced_isna =>
        let failed := failed_of coerced_isna ser in
        {| Check.success := (Z.of_nat (length failed) =? 0)%Z;
           Check.failed_count := Z.of_nat (length failed);
           Check.sample_values := astype_str (head 10 failed) |}
    | Raise _ =>
        let failed := List.filter present_cell ser in
        {| Check.success := false;
           Check.failed_count := Z.of_nat (length failed);
           Check.sample_values := astype_str (head 10 failed) |}
    end.
Proof.
  intros Hs. rewrite numeric_tags_split, orb_false_iff. intros [Hi Hf] Ht.
  unfold coerce, _coerce_and_check_series. rewrite Hs, Hi, Hf, Ht.
  destruct (to_datetime_isna ser); [reflexivity|].
  now rewrite present_mask_all, loc_map.
Qed.

(** When the coercion returns a mask, the check is over the cells it lost
    that are neither NaN nor blank. *)
Lemma coerce_mask (ser : list cell) (ty : string) (m : list bool) :
  mask ty ser = Some m ->
  let lost := lost_cells m ser in
  coerce ser ty
  = {| Check.success := (Z.of_nat (length lost) =? 0)%Z;
       Check.failed_count := Z.of_nat (length lost);
       Check.sample_values := astype_str (head 10 lost) |}.
Proof.
  intros H lost. subst lost. unfold mask, coercion_mask in H.
  destruct (in_tuple ty ["int"; "integer"; "float"; "numeric"; "number"])
    eqn:Hn.
  - injection H as <-. rewrite <- failed_of_lost.
    apply coerce_numeric; [|exact Hn].
    apply checked_tag_not_string. now rewrite checked_tags_cases, Hn.
  - destruct (in_tuple ty ["timestamp"; "datetime"; "date"]) eqn:Ht;
      [|discriminate].
    rewrite coerce_timestamp; auto;
      [|apply checked_tag_not_string; rewrite checked_tags_cases, Hn, Ht;
        reflexivity].
    destruct (to_datetime_isna ser) as [m'|e]; [|discriminate].
    injection H as <-. now rewrite <- failed_of_lost.
Qed.

(** When [pd.to_datetime] raises, the check fails and counts every cell
    that is neither NaN nor blank. *)
Lemma coerce_raise (ser : list cell) (ty : string) (e : exn) :
  in_tuple ty ["timestamp"; "datetime"; "date"] = true ->
  to_datetime_isna ser = Raise e ->
  let present := List.filter present_cell ser in
  coerce ser ty
  = {| Check.success := false;
       Check.failed_count := Z.of_nat (length present);
       Check.sample_values := astype_str (head 10 present) |}.
Proof.
  intros Ht He present. subst present.
  rewrite coerce_timestamp; auto.
  - now rewrite He.
  - apply checked_tag_not_string.
    rewrite checked_tags_cases, Ht. apply orb_true_r.
  - now apply timestamp_tag_not_numeric.
Qed.

(** The three ways the check of a declared type goes. *)
Lemma mask_cases (ser : list cell) (ty : string) :
  (in_tuple ty checked_tags = false /\ mask ty ser = None)
  \/ (in_tuple ty checked_tags = true /\ exists m, mask ty ser = Some m)
  \/ (in_tuple ty ["timestamp"; "datetime"; "date"] = true
      /\ mask ty ser = None /\ exists e, to_datetime_isna ser = Raise e).
Proof.
  unfold mask, coercion_mask. rewrite checked_tags_cases.
  destruct (in_tuple ty ["int"; "integer"; "float"; "numeric"; "number"]);
    [right; left; eauto|].
  destruct (in_tuple ty ["timestamp"; "datetime"; "date"]); [|now left].
  destruct (to_datetime_isna ser) as [m|e];
    [right; left; eauto | right; right; eauto].
Qed.

(** The shape of the result in the three checked branches. *)
Lemma coerce_cases (ser : list cell) (ty : string) :
  coerce ser ty = check_passed
  \/ (in_tuple ty checked_tags = true /\
      exists failed : list cell,
        (forall c, In c failed ->
                   exists i, nth_error ser i = Some c
                             /\ present_cell c = true)
        /\ length failed <= length (List.filter present_cell ser)
        /\ Check.failed_count (coerce ser ty) = Z.of_nat (length failed)
        /\ Check.sample_values (coerce ser ty) = astype_str (head 10 failed)
        /\ (Check.success (coerce ser ty) = false ->
            failed = [] ->
            in_tuple ty ["int"; "integer"; "float"; "numeric"; "number"]
            = false
            /\ exists e, to_datetime_isna ser = Raise e)).
Proof.
  destruct (mask_cases ser ty) as [[Hc _]|[[Hc [m Hm]]|(Ht & _ & e & He)]].
  - left. now apply coerce_unchecked.
  - right. split; [exact Hc|]. exists (lost_cells m ser).
    rewrite (coerce_mask ser ty m Hm). cbv zeta.
    cbn [Check.failed_count Check.sample_values Check.success].
    split; [|split; [|split; [reflexivity|split; [reflexivity|]]]].
    + intros c Hin. apply in_lost_cells in Hin as (i & ? & _ & ?). eauto.
    + rewrite <- failed_of_lost. apply failed_of_length.
    + intros H Hnil. rewrite Hnil in H. discriminate.
  - right. split; [rewrite checked_tags_cases, Ht; apply orb_true_r|].
    exists (List.filter present_cell ser).
    rewrite (coerce_raise ser ty e Ht He). cbv zeta.
    cbn [Check.failed_count Check.sample_values Check.success].
    split; [|split; [lia|split; [reflexivity|split; [reflexivity|]]]].
    + intros c Hin. apply filter_In in Hin as [Hin Hp].
      apply In_nth_error in Hin as [i Hi]. eauto.
    + intros _ _. split; [now apply timestamp_tag_not_numeric | eauto].
Qed.


End Coercion.




(* ===================================================================== *)
(** ** C7: a data set with zero rows *)
(* ===================================================================== *)

Lemma getitem_no_rows (df : DataFrame) (col : string) :
  rows df = [] -> getitem df col = [].
Proof.
  intros H. unfold getitem. rewrite H. now destruct (index_of col (columns df)).
Qed.

(** C7. For every data set with zero rows, every finding of the report
    says that a column is missing: the column is absent from the data set
    and is listed in [required] or in [unique_keys]; no finding about null
    values, duplicates, types or strict formats is ever emitted.  The
    statement supposes that [pd.to_datetime] does not raise on an empty
    series. *)
Theorem zero_rows_only_missing
        (strptime_other : string -> string -> bool)
        (to_numeric_isna : list cell -> list bool)
        (to_datetime_isna : list cell -> result (list bool))
        (cfg : config) (df : DataFrame) :
  (forall e, to_datetime_isna [] <> Raise e) ->
  rows df = [] ->
  let report := failing strptime_other to_numeric_isna to_datetime_isna cfg df in
  (forall f, In f report ->
             kind_of f = ColumnMissing
             /\ has_column df (column_of f) = false
             /\ (In (column_of f) (required cfg)
                 \/ In (column_of f) (unique_keys cfg)))
  /\ (forall col, select NullValuesPresent col report = []
                  /\ select DuplicateValues col report = []
                  /\ select TypeCoercionFailed col report = []
                  /\ select StrictFormatInvalid col report = [])
  /\ report
     = check_required_exist (required cfg) df
       ++ flat_map
            (fun key =>
               if has_column df key then []
               else [expect_column_to_exist key
                       "column missing (for uniqueness check)"])
            (unique_keys cfg).
Proof.
  intros Hraise Hrows report.
  assert (Hnull : check_required_not_null (required cfg) df = []).
  { unfold check_required_not_null. apply flat_map_nil. intros col.
    rewrite required_not_null_step_eq, (getitem_no_rows df col Hrows).
    reflexivity. }
  assert (Huniq : check_unique_keys (unique_keys cfg) df
                  = flat_map
                      (fun key =>
                         if has_column df key then []
                         else [expect_column_to_exist key
                                 "column missing (for uniqueness check)"])
                      (unique_keys cfg)).
  { unfold check_unique_keys. apply flat_map_ext. intros key.
    destruct (has_column df key) eqn:Hc.
    - rewrite (unique_key_step_present df key Hc),
        (getitem_no_rows df key Hrows). reflexivity.
    - unfold unique_key_step. now rewrite Hc. }
  assert (Htypes : check_types to_numeric_isna to_datetime_isna
                     (col_types cfg) df = []).
  { unfold check_types. apply flat_map_nil. intros [col ty]. unfold type_step.
    destruct (has_column df col); [|reflexivity]. simpl negb. cbv iota.
    rewrite (getitem_no_rows df col Hrows).
    destruct (coerce_cases to_numeric_isna to_datetime_isna [] ty)
      as [Hp|(_ & failed & _ & Hlen & _ & _ & Hnil)].
    - now rewrite Hp.
    - destruct (Check.success _) eqn:Hs; [reflexivity|].
      destruct failed; [|simpl in Hlen; lia].
      destruct (Hnil eq_refl eq_refl) as [_ [e He]]. now apply Hraise in He. }
  assert (Hemail : check_email df = []).
  { unfold check_email. destruct (has_column df "Email"); [|reflexivity].
    now rewrite (getitem_no_rows df "Email" Hrows). }
  assert (Hdate : check_date strptime_other (validations cfg) df = []).
  { unfold check_date. destruct (has_column df "Date"); [|reflexivity].
    now rewrite (getitem_no_rows df "Date" Hrows). }
  assert (Htime : check_time strptime_other (validations cfg) df = []).
  { unfold check_time. destruct (has_column df "Time"); [|reflexivity].
    now rewrite (getitem_no_rows df "Time" Hrows). }
  assert (Hreport :
            report
            = check_required_exist (required cfg) df
              ++ flat_map
                   (fun key =>
                      if has_column df key then []
                      else [expect_column_to_exist key
                              "column missing (for uniqueness check)"])
                   (unique_keys cfg)).
  { unfold report, failing.
    rewrite Hnull, Huniq, Htypes, Hemail, Hdate, Htime.
    now rewrite !app_nil_r. }
  assert (Hall : forall f, In f report ->
                   kind_of f = ColumnMissing
                   /\ has_column df (column_of f) = false
                   /\ (In (column_of f) (required cfg)
                       \/ In (column_of f) (unique_keys cfg))).
  { intros f Hf. rewrite Hreport in Hf. apply in_app_or in Hf as [Hf|Hf].
    - apply in_check_required_exist in Hf as (col & Hin & Hc & ->).
      simpl. auto.
    - apply in_flat_map in Hf as (key & Hin & Hf).
      destruct (has_column df key) eqn:Hc; [contradiction|].
      destruct Hf as [<-|[]]. simpl. auto. }
  split; [exact Hall|]. split; [|exact Hreport].
  intros col.
  repeat split; apply select_none; intros f Hf; left;
    apply Hall in Hf as [-> _]; discriminate.
Qed.

Lemma zero_rows_only_missing_witness :
  rows Sample.empty_df = []
  /\ Sample.failing Sample.cfg Sample.empty_df
     = [expect_column_to_exist "customer_id" "column missing";
        expect_column_to_exist "customer_id"
          "column missing (for uniqueness check)"].
Proof.
  split; [reflexivity|].
  destruct (zero_rows_only_missing Sample.strptime_other
              Sample.to_numeric_isna Sample.to_datetime_isna
              Sample.cfg Sample.empty_df)
    as (_ & _ & H); [intros e; discriminate | reflexivity |].
  unfold Sample.failing. rewrite H. reflexivity.
Defined.

(* ===================================================================== *)
(** ** C8: the exit code of the command line *)
(* ===================================================================== *)


Section CommandLine.

Variable strptime_other : string -> string -> bool.
Variable to_numeric_isna : list cell -> list bool.
Variable to_datetime_isna : list cell -> result (list bool).
Variable parse_args : list string -> parsed.

Let validate_csv' :=
  validate_csv strptime_other to_numeric_isna to_datetime_isna.





End CommandLine.


(* ===================================================================== *)
(** ** C9: the [validations] section and the strict email check *)
(* ===================================================================== *)

(** The report depends on [validations] through the entries [Date] and
    [Time] only. *)
Lemma failing_validations
      (strptime_other : string -> string -> bool)
      (to_numeric_isna : list cell -> list bool)
      (to_datetime_isna : list cell -> result (list bool))
      (tys : list (string * string)) (req keys : list string)
      (v1 v2 : gmap string string) (df : DataFrame) :
  v1 !! "Date" = v2 !! "Date" ->
  v1 !! "Time" = v2 !! "Time" ->
  failing strptime_other to_numeric_isna to_datetime_isna
    {| col_types := tys; required := req; unique_keys := keys;
       validations := v1 |} df
  = failing strptime_other to_numeric_isna to_datetime_isna
      {| col_types := tys; required := req; unique_keys := keys;
         validations := v2 |} df.
Proof.
  intros Hd Ht. unfold failing, check_date, check_time. simpl.
  now rewrite Hd, Ht.
Qed.

Lemma build_result_validations
      (strptime_other : string -> string -> bool)
      (to_numeric_isna : list cell -> list bool)
      (to_datetime_isna : list cell -> result (list bool))
      (csv_path : string)
      (tys : list (string * string)) (req keys : list string)
      (v1 v2 : gmap string string) (df : DataFrame) :
  v1 !! "Date" = v2 !! "Date" ->
  v1 !! "Time" = v2 !! "Time" ->
  build_result strptime_other to_numeric_isna to_datetime_isna csv_path
    {| col_types := tys; required := req; unique_keys := keys;
       validations := v1 |} df
  = build_result strptime_other to_numeric_isna to_datetime_isna csv_path
      {| col_types := tys; required := req; unique_keys := keys;
         validations := v2 |} df.
Proof.
  intros Hd Ht. unfold build_result.
  rewrite (failing_validations _ _ _ tys req keys v1 v2 df Hd Ht).
  reflexivity.
Qed.

(** C9. The strict email check always uses the one built-in expression:
    the check does not read the configuration, and two runs that differ
    only in the [Email] entry of [validations] (set to any value, or not
    there) return the same outcome and the same report.  More generally
    two runs that differ only in [validations] agree as soon as the two
    [validations] have the same [Date] and [Time] entries. *)
Theorem email_validation_ignored
        (strptime_other : string -> string -> bool)
        (to_numeric_isna : list cell -> list bool)
        (to_datetime_isna : list cell -> result (list bool))
        (cols : list column_entry) (req keys : list string)
        (v : gmap string string) (e : string)
        (exists_ : bool) (frame : DataFrame + library_error)
        (written : unit + library_error)
        (csv_path : string) (save : bool) :
  let run (validations : gmap string string) :=
    validate_csv strptime_other to_numeric_isna to_datetime_isna
      {| csv_exists := exists_;
         config_file :=
           Some (inl {| yaml_columns := cols; yaml_required := req;
                        yaml_unique_keys := keys;
                        yaml_validations := validations |});
         read_csv := frame;
         write_report := written |}
      csv_path save in
  run (<["Email" := e]> v) = run v
  /\ run (delete "Email" v) = run v
  /\ (forall v', v' !! "Date" = v !! "Date" -> v' !! "Time" = v !! "Time" ->
                 run v' = run v)
  /\ (forall df,
         select StrictFormatInvalid "Email"
           (failing strptime_other to_numeric_isna to_datetime_isna
              {| col_types := normalize_columns cols; required := req;
                 unique_keys := keys; validations := v |} df)
         = check_email df).
Proof.
  intros run.
  assert (Hgen : forall v', v' !! "Date" = v !! "Date" ->
                            v' !! "Time" = v !! "Time" -> run v' = run v).
  { intros v' Hd Ht. unfold run, validate_csv, load_config.
    destruct exists_; simpl; [|reflexivity].
    destruct frame as [df|[|]]; simpl; try reflexivity.
    now rewrite (build_result_validations _ _ _ csv_path _ req keys v' v df
                   Hd Ht). }
  split; [apply Hgen; now rewrite lookup_insert_ne|].
  split; [apply Hgen; now rewrite lookup_delete_ne|].
  split; [exact Hgen|].
  intros df. apply select_strict_email.
Qed.

(* ===================================================================== *)
(** ** C10: a column that is required, a unique key, and absent *)
(* ===================================================================== *)

(** The findings about an absent column all say that it is missing. *)
Lemma absent_column_findings
      (strptime_other : string -> string -> bool)
      (to_numeric_isna : list cell -> list bool)
      (to_datetime_isna : list cell -> result (list bool))
      (cfg : config) (df : DataFrame) (g : finding) :
  In g (failing strptime_other to_numeric_isna to_datetime_isna cfg df) ->
  has_column df (column_of g) = false ->
  kind_of g = ColumnMissing.
Proof.
  intros Hin Habs. apply in_failing in Hin.
  destruct Hin as [H|[H|[H|[H|[H|[H|H]]]]]].
  - apply in_check_required_exist in H as (col & _ & _ & ->). reflexivity.
  - apply in_check_required_not_null in H as (col & _ & Hc & H).
    apply in_required_not_null_step in H as [_ Hcol]. congruence.
  - apply in_check_unique_keys in H as (key & _ & H).
    apply in_unique_key_step in H as (Hcol & [[_ ->]|[Hc _]]);
      [reflexivity | congruence].
  - apply in_check_types in H as (col & ty & _ & H).
    apply in_type_step in H as (Hc & _ & ->). simpl in Habs. congruence.
  - apply in_check_email in H as (Hc & _ & Hcol). congruence.
  - apply in_check_date in H as (Hc & _ & Hcol). congruence.
  - apply in_check_time in H as (Hc & _ & Hcol). congruence.
Qed.

Lemma repeat_two {A : Type} (x y : A) (j k : nat) :
  1 <= j -> 1 <= k ->
  (repeat x j ++ repeat y k = [x; y] <-> j = 1 /\ k = 1).
Proof.
  intros Hj Hk. split.
  - intros H. apply (f_equal (@length A)) in H.
    rewrite length_app, !repeat_length in H. simpl in H. lia.
  - intros [-> ->]. reflexivity.
Qed.

(** C10, as the program has it.  If a column name is listed in [required]
    and in [unique_keys] and is absent from the data set, the findings of
    the report about that column all say that it is missing: one of the
    existence check, with reason ["column missing"], for each time the
    name is listed in [required], then one of the uniqueness check, with
    reason ["column missing (for uniqueness check)"], for each time it is
    listed in [unique_keys].  There are two of them at least, and exactly
    the two of the claim exactly when the name is listed once in each; all
    of them are counted in [unsuccessful_expectations]. *)
Theorem missing_required_unique_key
        (strptime_other : string -> string -> bool)
        (to_numeric_isna : list cell -> list bool)
        (to_datetime_isna : list cell -> result (list bool))
        (csv_path : string) (cfg : config) (df : DataFrame) (col : string) :
  In col (required cfg) ->
  In col (unique_keys cfg) ->
  has_column df col = false ->
  let r := build_result strptime_other to_numeric_isna to_datetime_isna
             csv_path cfg df in
  let listed := count_occ string_dec (required cfg) col in
  let keyed := count_occ string_dec (unique_keys cfg) col in
  let existence := expect_column_to_exist col "column missing" in
  let uniqueness :=
    expect_column_to_exist col "column missing (for uniqueness check)" in
  select ColumnMissing col (Report.results r)
  = repeat existence listed ++ repeat uniqueness keyed
  /\ List.filter (fun g => String.eqb (column_of g) col) (Report.results r)
     = repeat existence listed ++ repeat uniqueness keyed
  /\ 1 <= listed
  /\ 1 <= keyed
  /\ (select ColumnMissing col (Report.results r) = [existence; uniqueness]
      <-> listed = 1 /\ keyed = 1)
  /\ In existence (check_required_exist (required cfg) df)
  /\ In uniqueness (check_unique_keys (unique_keys cfg) df)
  /\ Report.unsuccessful_expectations (Report.stats r)
     = Z.of_nat (length (Report.results r))
  /\ (Z.of_nat (listed + keyed)
      <= Report.unsuccessful_expectations (Report.stats r))%Z
  /\ (2 <= Report.unsuccessful_expectations (Report.stats r))%Z
  /\ Report.success r = false.
Proof.
  intros Hreq Hkey Habs r listed keyed existence uniqueness.
  assert (Hlisted : 1 <= listed) by (apply count_occ_pos_In in Hreq; exact Hreq).
  assert (Hkeyed : 1 <= keyed) by (apply count_occ_pos_In in Hkey; exact Hkey).
  assert (Hsel : select ColumnMissing col (Report.results r)
                 = repeat existence listed ++ repeat uniqueness keyed).
  { simpl Report.results. rewrite select_missing, Habs. reflexivity. }
  assert (Hcol : List.filter (fun g => String.eqb (column_of g) col)
                   (Report.results r)
                 = select ColumnMissing col (Report.results r)).
  { unfold select. apply filter_ext_in. intros g Hg.
    destruct (String.eqb_spec (column_of g) col) as [Heq|Hne].
    - rewrite andb_true_r. simpl in Hg.
      rewrite (absent_column_findings _ _ _ _ _ _ Hg); [reflexivity|].
      now rewrite Heq.
    - now rewrite andb_false_r. }
  assert (Hlen : listed + keyed <= length (Report.results r)).
  { pose proof (SeriesFacts.filter_length_le
                  (fun f => kind_eqb (kind_of f) ColumnMissing
                            && String.eqb (column_of f) col)
                  (Report.results r)) as H.
    fold (select ColumnMissing col (Report.results r)) in H.
    rewrite Hsel, length_app, !repeat_length in H. exact H. }
  split; [exact Hsel|]. split; [now rewrite Hcol|].
  split; [exact Hlisted|]. split; [exact Hkeyed|]. split.
  { rewrite Hsel. now apply repeat_two. }
  split.
  { apply in_check_required_exist. exists col. repeat split; auto. }
  split.
  { apply in_check_unique_keys. exists col. split; [exact Hkey|].
    unfold unique_key_step. rewrite Habs. now left. }
  split; [reflexivity|]. split; [|split].
  - simpl Report.unsuccessful_expectations. simpl Report.results in Hlen. lia.
  - simpl Report.unsuccessful_expectations. simpl Report.results in Hlen. lia.
  - simpl Report.success. simpl Report.results in Hlen.
    apply Z.eqb_neq. lia.
Qed.

Lemma missing_required_unique_key_witness :
  has_column Sample.df "customer_id" = false
  /\ select ColumnMissing "customer_id" (Report.results Sample.report)
     = [expect_column_to_exist "customer_id" "column missing";
        expect_column_to_exist "customer_id"
          "column missing (for uniqueness check)"].
Proof.
  split; [reflexivity|].
  destruct (missing_required_unique_key Sample.strptime_other
              Sample.to_numeric_isna Sample.to_datetime_isna
              "staged.csv" Sample.cfg Sample.df "customer_id"
              (or_introl eq_refl) (or_intror (or_introl eq_refl)) eq_refl)
    as (_ & _ & _ & _ & H & _).
  apply H. split; reflexivity.
Defined.

(** Three findings for one column.  The name [customer_id] is in
    [required], where it is listed twice, and in [unique_keys], and the
    column is absent: the report holds three findings that say it is
    missing, and counts three unsuccessful expectations. *)
Lemma missing_required_unique_key_thrice :
  let cfg := {| col_types := []; required := ["customer_id"; "customer_id"];
                unique_keys := ["customer_id"]; validations := ∅ |} in
  let r := build_result Sample.strptime_other Sample.to_numeric_isna
             Sample.to_datetime_isna "staged.csv" cfg Sample.keys_df in
  In "customer_id" (required cfg)
  /\ In "customer_id" (unique_keys cfg)
  /\ has_column Sample.keys_df "customer_id" = false
  /\ select ColumnMissing "customer_id" (Report.results r)
     = [expect_column_to_exist "customer_id" "column missing";
        expect_column_to_exist "customer_id" "column missing";
        expect_column_to_exist "customer_id"
          "column missing (for uniqueness check)"]
  /\ Report.unsuccessful_expectations (Report.stats r) = 3%Z.
Proof. repeat split; vm_compute; auto. Qed.

(* ===================================================================== *)
(** ** The column types form a dictionary *)
(* ===================================================================== *)

Lemma dict_set_keys (d : list (string * string)) (k v : string) :
  map fst (dict_set d k v)
  = if existsb (String.eqb k) (map fst d) then map fst d
    else map fst d ++ [k].
Proof.
  induction d as [|[k' v'] d IH]; simpl; [reflexivity|].
  destruct (String.eqb_spec k k') as [->|Hne]; simpl; [reflexivity|].
  rewrite IH. now destruct (existsb (String.eqb k) (map fst d)).
Qed.

Lemma dict_set_NoDup (d : list (string * string)) (k v : string) :
  List.NoDup (map fst d) -> List.NoDup (map fst (dict_set d k v)).
Proof.
  intros Hd. rewrite dict_set_keys.
  destruct (existsb (String.eqb k) (map fst d)) eqn:E; [exact Hd|].
  assert (Hk : ~ In k (map fst d)).
  { intros Hin.
    assert (existsb (String.eqb k) (map fst d) = true); [|congruence].
    apply existsb_exists. exists k. split; [exact Hin | apply String.eqb_refl]. }
  clear E. induction (map fst d) as [|x l IH]; simpl.
  - constructor; [intros [] | constructor].
  - apply List.NoDup_cons_iff in Hd as [Hx Hl].
    constructor.
    + rewrite in_app_iff. simpl. intros [H|[H|[]]]; [contradiction|].
      apply Hk. now left.
    + apply IH; [exact Hl|]. intros H. apply Hk. now right.
Qed.

(** [load_config] gives each declared column one type: the keys of
    [col_types] are pairwise distinct, so its length is the number of
    declared columns. *)
Lemma normalize_columns_NoDup (cols : list column_entry) :
  List.NoDup (map fst (normalize_columns cols)).
Proof.
  unfold normalize_columns.
  assert (H : forall d, List.NoDup (map fst d) ->
                List.NoDup
                  (map fst
                     (fold_left
                        (fun d c =>
                           match c with
                           | EntryDict name type =>
                               dict_set d name
                                 (PyStr.lower (default "string" type))
                           | EntryName name => dict_set d name "string"
                           | EntryOther => d
                           end) cols d))).
  { induction cols as [|c cols IH]; intros d Hd; simpl; [exact Hd|].
    apply IH. destruct c; auto using dict_set_NoDup. }
  apply H. constructor.
Qed.

(* ===================================================================== *)
(** ** What the two default formats of [strptime] accept *)
(* ===================================================================== *)

Module StrptimeFacts.
Import Re PyStr Strptime StripFacts DateFacts.

Lemma rep_Some {A : Type} (p : ascii -> bool) (s : list ascii) (a : A) :
  forall (min : nat) (k : list ascii -> list ascii -> option A),
    rep p min s k = Some a ->
    exists w rest,
      s = w ++ rest /\ Forall (fun c => p c = true) w /\
      min <= length w /\ k w rest = Some a.
Proof.
  induction s as [|c s IH]; intros min k; simpl.
  - destruct (Nat.eqb_spec min 0) as [->|Hmin]; [|discriminate].
    intros Hk. exists [], []. repeat split; auto.
  - assert (Hstop : (if min =? 0 then k [] (c :: s) else None) = Some a ->
                    exists w rest,
                      c :: s = w ++ rest /\ Forall (fun c => p c = true) w /\
                      min <= length w /\ k w rest = Some a).
    { destruct (Nat.eqb_spec min 0) as [->|Hmin]; [|discriminate].
      intros Hk. exists [], (c :: s). repeat split; auto. }
    destruct (p c) eqn:Hp; [|exact Hstop].
    destruct (rep p (Nat.pred min) s (fun w rest => k (c :: w) rest)) as [b|]
      eqn:Hr; [|exact Hstop].
    intros [= ->]. apply IH in Hr as (w & rest & -> & Hw & Hlen & Hk).
    exists (c :: w), rest. repeat split; auto. simpl. lia.
Qed.

(** The result of the search comes from a word of the language. *)
Lemma rmatch_Some {A : Type} (r : regex) (a : A) :
  forall (s : list ascii) (k : list ascii -> list ascii -> option A),
    rmatch r s k = Some a ->
    exists w rest, s = w ++ rest /\ lang r w /\ k w rest = Some a.
Proof.
  induction r as [p | r1 IH1 r2 IH2 | r1 IH1 r2 IH2 | p min];
    intros s k; simpl.
  - destruct s as [|c s]; [discriminate|].
    destruct (p c) eqn:Hp; [|discriminate].
    intros Hk. exists [c], s. repeat split; eauto.
  - intros H. apply IH1 in H as (w1 & rest1 & -> & H1 & H).
    apply IH2 in H as (w2 & rest & -> & H2 & Hk).
    exists (w1 ++ w2), rest. rewrite <- app_assoc. repeat split; eauto.
  - destruct (rmatch r1 s k) as [b|] eqn:H1.
    + intros [= ->]. apply IH1 in H1 as (w & rest & -> & Hw & Hk). eauto 6.
    + intros H2. apply IH2 in H2 as (w & rest & -> & Hw & Hk). eauto 6.
  - intros H. apply rep_Some in H as (w & rest & Hs & Hw & Hlen & Hk).
    eauto 7.
Qed.

Lemma in_range_digit (lo hi c : ascii) :
  isdigit lo = true -> isdigit hi = true ->
  in_range lo hi c = true -> isdigit c = true.
Proof.
  unfold in_range, isdigit. rewrite !andb_true_iff, !Nat.leb_le. lia.
Qed.

Lemma lit_digit (d c : ascii) : isdigit d = true -> lit d c = true -> isdigit c = true.
Proof. intros Hd H. apply EmailFacts.lit_eq in H. now subst. Qed.

Lemma match3_Some (r1 r2 r3 : regex) (sep : ascii) (data : list ascii)
      (g1 g2 g3 rest : list ascii) :
  match3 r1 r2 r3 sep data = Some (g1, g2, g3, rest) ->
  data = g1 ++ sep :: g2 ++ sep :: g3 ++ rest
  /\ lang r1 g1 /\ lang r2 g2 /\ lang r3 g3.
Proof.
  unfold match3. intros H.
  apply rmatch_Some in H as (w1 & s1 & -> & H1 & H).
  apply rmatch_Some in H as (c1 & s2 & -> & (x1 & -> & Hx1) & H).
  apply rmatch_Some in H as (w2 & s3 & -> & H2 & H).
  apply rmatch_Some in H as (c2 & s4 & -> & (x2 & -> & Hx2) & H).
  apply rmatch_Some in H as (w3 & s5 & -> & H3 & H).
  injection H as <- <- <- <-.
  apply EmailFacts.lit_eq in Hx1, Hx2. subst x1 x2. auto.
Qed.

Lemma numeral_1 (a : ascii) : isdigit a = true -> numeral [a].
Proof. intros H. split; [now left | now repeat constructor]. Qed.

Lemma numeral_2 (a b : ascii) :
  isdigit a = true -> isdigit b = true -> numeral [a; b].
Proof. intros Ha Hb. split; [now right | now repeat constructor]. Qed.

(** The shapes of a numeral. *)
Lemma numeral_cases (w : list ascii) :
  numeral w ->
  (exists a, w = [a] /\ isdigit a = true)
  \/ (exists a b, w = [a; b] /\ isdigit a = true /\ isdigit b = true).
Proof.
  intros [Hlen Hd]. destruct w as [|a [|b [|c w]]]; simpl in Hlen;
    try (destruct Hlen; discriminate).
  - left. exists a. inversion Hd; auto.
  - right. exists a, b. inversion Hd as [|? ? Ha Hd']; subst.
    inversion Hd'; auto.
Qed.

Ltac lang_digits :=
  repeat match goal with
         | H : lit ?d ?c = true |- _ =>
             apply (lit_digit d c (eq_refl true)) in H
         | H : in_range ?lo ?hi ?c = true |- _ =>
             apply (in_range_digit lo hi c (eq_refl true) (eq_refl true)) in H
         end.

(** The groups of the two formats hold numerals. *)
Lemma lang_re_H (w : list ascii) : lang re_H w -> numeral w.
Proof.
  unfold re_H, digit, range, ch. cbn [lang].
  intros [(w1 & w2 & -> & (a & -> & Ha) & (b & -> & Hb))
         |[(w1 & w2 & -> & (a & -> & Ha) & (b & -> & Hb))
          |(a & -> & Ha)]];
    lang_digits; cbn [app]; auto using numeral_1, numeral_2.
Qed.

Lemma lang_re_M (w : list ascii) : lang re_M w -> numeral w.
Proof.
  unfold re_M, digit, range. cbn [lang].
  intros [(w1 & w2 & -> & (a & -> & Ha) & (b & -> & Hb))|(a & -> & Ha)];
    lang_digits; cbn [app]; auto using numeral_1, numeral_2.
Qed.

Lemma lang_re_S (w : list ascii) : lang re_S w -> numeral w.
Proof.
  unfold re_S, digit, range, ch. cbn [lang].
  intros [(w1 & w2 & -> & (a & -> & Ha) & (b & -> & Hb))
         |[(w1 & w2 & -> & (a & -> & Ha) & (b & -> & Hb))
          |(a & -> & Ha)]];
    lang_digits; cbn [app]; auto using numeral_1, numeral_2.
Qed.

Lemma lang_re_m (w : list ascii) : lang re_m w -> numeral w.
Proof.
  unfold re_m, range, ch. cbn [lang].
  intros [(w1 & w2 & -> & (a & -> & Ha) & (b & -> & Hb))
         |[(w1 & w2 & -> & (a & -> & Ha) & (b & -> & Hb))
          |(a & -> & Ha)]];
    lang_digits; cbn [app]; auto using numeral_1, numeral_2.
Qed.

Lemma lang_re_d (w : list ascii) :
  lang re_d w ->
  numeral w \/ exists c, w = [" "%char; c] /\ isdigit c = true.
Proof.
  unfold re_d, digit, range, ch. cbn [lang].
  intros [(w1 & w2 & -> & (a & -> & Ha) & (b & -> & Hb))
         |[(w1 & w2 & -> & (a & -> & Ha) & (b & -> & Hb))
          |[(w1 & w2 & -> & (a & -> & Ha) & (b & -> & Hb))
           |[(a & -> & Ha)
            |(w1 & w2 & -> & (a & -> & Ha) & (b & -> & Hb))]]]].
  5: { right. apply EmailFacts.lit_eq in Ha. subst a. exists b.
       split; [reflexivity|]. now lang_digits. }
  all: left; lang_digits; cbn [app]; auto using numeral_1, numeral_2.
Qed.

Lemma lang_re_Y (w : list ascii) :
  lang re_Y w -> length w = 4 /\ Forall (fun c => isdigit c = true) w.
Proof.
  unfold re_Y, digit. cbn [lang].
  intros (w1 & w2 & -> & (a & -> & Ha) & w3 & w4 & -> & (b & -> & Hb)
          & w5 & w6 & -> & (c & -> & Hc) & (d & -> & Hd)).
  split; [reflexivity | now repeat constructor].
Qed.

Lemma numeral_digits (w : list ascii) :
  numeral w -> Forall (fun c => isdigit c = true) w.
Proof. now intros [_ H]. Qed.

(** The first match of a group takes the whole field. *)
Lemma re_H_match {A : Type} (w s : list ascii)
      (k : list ascii -> list ascii -> option A) :
  numeral w -> (int_of_digits w <=? 23)%Z = true ->
  rmatch re_H (w ++ ":"%char :: s)
    (fun g s3 => rmatch (ch ":") s3 (fun _ s4 => k g s4))
  = k w s.
Proof.
  intros Hw Hv.
  destruct (numeral_cases w Hw) as [(a & -> & Ha)|(a & b & -> & Ha & Hb)].
  - digit_cases Ha; cbn; now destruct (k _ s).
  - digit_cases Ha; digit_cases Hb; vm_compute in Hv; try discriminate Hv;
      cbn; now destruct (k _ s).
Qed.

Lemma re_M_match {A : Type} (w s : list ascii)
      (k : list ascii -> list ascii -> option A) :
  numeral w -> (int_of_digits w <=? 59)%Z = true ->
  rmatch re_M (w ++ ":"%char :: s)
    (fun g s3 => rmatch (ch ":") s3 (fun _ s4 => k g s4))
  = k w s.
Proof.
  intros Hw Hv.
  destruct (numeral_cases w Hw) as [(a & -> & Ha)|(a & b & -> & Ha & Hb)].
  - digit_cases Ha; cbn; now destruct (k _ s).
  - digit_cases Ha; digit_cases Hb; vm_compute in Hv; try discriminate Hv;
      cbn; now destruct (k _ s).
Qed.

Lemma re_S_match {A : Type} (w : list ascii)
      (f : list ascii -> list ascii -> A) :
  numeral w -> (int_of_digits w <=? 59)%Z = true ->
  rmatch re_S w (fun g rest => Some (f g rest)) = Some (f w []).
Proof.
  intros Hw Hv.
  destruct (numeral_cases w Hw) as [(a & -> & Ha)|(a & b & -> & Ha & Hb)].
  - digit_cases Ha; reflexivity.
  - digit_cases Ha; digit_cases Hb; vm_compute in Hv; try discriminate Hv;
      reflexivity.
Qed.

Lemma re_m_match_numeral {A : Type} (w s : list ascii)
      (k : list ascii -> list ascii -> option A) :
  numeral w ->
  ((1 <=? int_of_digits w) && (int_of_digits w <=? 12))%Z = true ->
  rmatch re_m (w ++ "-"%char :: s)
    (fun g s3 => rmatch (ch "-") s3 (fun _ s4 => k g s4))
  = k w s.
Proof.
  intros Hw Hv.
  destruct (numeral_cases w Hw) as [(a & -> & Ha)|(a & b & -> & Ha & Hb)].
  - digit_cases Ha; vm_compute in Hv; try discriminate Hv;
      cbn; now destruct (k _ s).
  - now apply re_m_match.
Qed.

Lemma re_d_match_numeral {A : Type} (w : list ascii)
      (f : list ascii -> list ascii -> A) :
  numeral w ->
  ((1 <=? int_of_digits w) && (int_of_digits w <=? 31))%Z = true ->
  rmatch re_d w (fun g rest => Some (f g rest)) = Some (f w []).
Proof.
  intros Hw Hv.
  destruct (numeral_cases w Hw) as [(a & -> & Ha)|(a & b & -> & Ha & Hb)].
  - digit_cases Ha; vm_compute in Hv; try discriminate Hv; reflexivity.
  - now apply re_d_match.
Qed.

Lemma re_d_match_space {A : Type} (c : ascii)
      (f : list ascii -> list ascii -> A) :
  isdigit c = true -> (1 <=? int [" "%char; c])%Z = true ->
  rmatch re_d [" "%char; c] (fun g rest => Some (f g rest))
  = Some (f [" "%char; c] []).
Proof.
  intros Hc Hv.
  digit_cases Hc; vm_compute in Hv; try discriminate Hv; reflexivity.
Qed.

Lemma digit_value_nonneg (c : ascii) :
  isdigit c = true -> (0 <= digit_value c <= 9)%Z.
Proof.
  unfold isdigit, digit_value. rewrite andb_true_iff, !Nat.leb_le. lia.
Qed.

Lemma int_of_digits_nonneg (w : list ascii) :
  Forall (fun c => isdigit c = true) w -> (0 <= int_of_digits w)%Z.
Proof.
  unfold int_of_digits.
  assert (H : forall w acc, Forall (fun c => isdigit c = true) w ->
                (0 <= acc)%Z ->
                (0 <= fold_left (fun acc c => (10 * acc + digit_value c)%Z)
                       w acc)%Z).
  { clear w. induction w as [|c w IH]; intros acc Hw Hacc; simpl; [exact Hacc|].
    inversion Hw as [|? ? Hc Hw']; subst. apply IH; [exact Hw'|].
    pose proof (digit_value_nonneg c Hc). lia. }
  intros Hw. apply H; [exact Hw | lia].
Qed.

(** [strptime] with the format ["%H:%M:%S"] accepts exactly the texts
    [h:m:s] and returns their fields. *)
Lemma strptime_HMS_iff (data : string) (h m s : Z) :
  strptime_HMS data = Some (h, m, s) <-> time_text (chars data) h m s.
Proof.
  unfold strptime_HMS, time_text, chars. split.
  - destruct (match3 re_H re_M re_S ":" (list_ascii_of_string data))
      as [[[[gH gM] gS] [|? ?]]|] eqn:Hm; try discriminate.
    destruct (time_exists (int gH) (int gM) (int gS)) eqn:Ht; [|discriminate].
    intros [= <- <- <-].
    apply match3_Some in Hm as (Hd & HH & HM & HS).
    apply lang_re_H in HH. apply lang_re_M in HM. apply lang_re_S in HS.
    rewrite app_nil_r in Hd.
    unfold time_exists in Ht. rewrite !andb_true_iff, !Z.leb_le in Ht.
    rewrite (int_digits gH), (int_digits gM), (int_digits gS) in *
      by now apply numeral_digits.
    exists gH, gM, gS.
    split; [exact Hd|]. split; [exact HH|]. split; [exact HM|].
    split; [exact HS|]. repeat split; lia.
  - intros (wh & wm & ws & -> & Hh & Hm & Hs & -> & -> & -> & Bh & Bm & Bs).
    unfold match3.
    rewrite (re_H_match wh (wm ++ ":"%char :: ws)
               (fun g1 s2 =>
                  rmatch re_M s2
                    (fun g2 s3 =>
                       rmatch (ch ":") s3
                         (fun _ s4 =>
                            rmatch re_S s4
                              (fun g3 rest => Some (g1, g2, g3, rest))))))
      by (auto; now apply Z.leb_le).
    rewrite (re_M_match wm ws
               (fun g2 s4 =>
                  rmatch re_S s4 (fun g3 rest => Some (wh, g2, g3, rest))))
      by (auto; now apply Z.leb_le).
    rewrite (re_S_match ws) by (auto; now apply Z.leb_le).
    rewrite (int_digits wh), (int_digits wm), (int_digits ws)
      by now apply numeral_digits.
    assert (Ht : time_exists (int_of_digits wh) (int_of_digits wm)
                   (int_of_digits ws) = true).
    { unfold time_exists. rewrite !andb_true_iff, !Z.leb_le.
      pose proof (int_of_digits_nonneg wh (numeral_digits wh Hh)).
      pose proof (int_of_digits_nonneg wm (numeral_digits wm Hm)).
      pose proof (int_of_digits_nonneg ws (numeral_digits ws Hs)).
      lia. }
    now rewrite Ht.
Qed.

(** [strptime] with the format ["%Y-%m-%d"] accepts exactly the texts
    [y-m-d] and returns their fields. *)
Lemma strptime_Ymd_iff (data : string) (y m d : Z) :
  strptime_Ymd data = Some (y, m, d) <-> date_text (chars data) y m d.
Proof.
  unfold strptime_Ymd, date_text, chars. split.
  - destruct (match3 re_Y re_m re_d "-" (list_ascii_of_string data))
      as [[[[gY gm] gd] [|? ?]]|] eqn:Hm; try discriminate.
    destruct (date_exists (int gY) (int gm) (int gd)) eqn:Ht; [|discriminate].
    intros [= <- <- <-].
    apply match3_Some in Hm as (Hd & HY & HM & HD).
    apply lang_re_Y in HY as [HY1 HY2]. apply lang_re_m in HM.
    apply lang_re_d in HD. rewrite app_nil_r in Hd.
    rewrite (int_digits gY), (int_digits gm) in *
      by (auto; now apply numeral_digits).
    exists gY, gm, gd.
    split; [exact Hd|]. split; [exact HY1|]. split; [exact HY2|].
    split; [exact HM|]. split; [exact HD|]. repeat split. exact Ht.
  - intros (wy & wm & wd & -> & Hlen & Hy & Hm & Hd & -> & -> & -> & Hdate).
    destruct (date_exists_bounds _ _ _ Hdate) as [Bm Bd].
    destruct wy as [|y1 [|y2 [|y3 [|y4 [|? ?]]]]]; try discriminate Hlen.
    inversion Hy as [|? ? Hy1 Hya]; subst.
    inversion Hya as [|? ? Hy2 Hyb]; subst.
    inversion Hyb as [|? ? Hy3 Hyc]; subst.
    inversion Hyc as [|? ? Hy4 _]; subst.
    unfold match3. cbn [app]. rewrite re_Y_match by assumption.
    rewrite ch_match.
    rewrite (re_m_match_numeral wm wd
               (fun g2 s4 =>
                  rmatch re_d s4
                    (fun g3 rest => Some ([y1; y2; y3; y4], g2, g3, rest))))
      by assumption.
    assert (Hday : rmatch re_d wd
                     (fun g3 rest => Some ([y1; y2; y3; y4], wm, g3, rest))
                   = Some ([y1; y2; y3; y4], wm, wd, [])).
    { destruct Hd as [Hd|(c & -> & Hc)].
      - apply (re_d_match_numeral wd
                 (fun g3 rest => ([y1; y2; y3; y4], wm, g3, rest))); auto.
        rewrite <- (int_digits wd) by now apply numeral_digits. exact Bd.
      - apply (re_d_match_space c
                 (fun g3 rest => ([y1; y2; y3; y4], wm, g3, rest))); auto.
        now apply andb_true_iff in Bd as [Bd _]. }
    rewrite Hday.
    rewrite (int_digits [y1; y2; y3; y4]), (int_digits wm)
      by (auto; now apply numeral_digits).
    now rewrite Hdate.
Qed.

End StrptimeFacts.

(* ===================================================================== *)
(** ** The strict time and date validators with their default formats *)
(* ===================================================================== *)

Lemma text_nonempty_sep (sep : ascii) (w1 w2 : list ascii) :
  w1 ++ sep :: w2 <> [].
Proof. now destruct w1. Qed.

(** [validate_time_strict] with the default format accepts exactly the
    strings whose trimming is [h:m:s], each field of one or two digits,
    with an hour up to 23 and a minute and a second up to 59; it rejects
    [None] and NaN. *)
Theorem validate_time_strict_default
        (strptime_other : string -> string -> bool) (value : pyvalue) :
  validate_time_strict strptime_other value "%H:%M:%S" = true <->
  exists s h m sec,
    value = Str s /\ time_text (chars (PyStr.strip s)) h m sec.
Proof.
  destruct value as [| |s].
  - split; [discriminate | intros (s & h & m & sec & H & _); discriminate].
  - split; [discriminate | intros (s & h & m & sec & H & _); discriminate].
  - unfold validate_time_strict, strptime_ok. simpl str. simpl String.eqb.
    split.
    + destruct (String.eqb (PyStr.strip s) ""); [discriminate|].
      destruct (Strptime.strptime_HMS (PyStr.strip s)) as [[[h m] sec]|] eqn:Hp;
        [|discriminate].
      intros _. apply StrptimeFacts.strptime_HMS_iff in Hp.
      now exists s, h, m, sec.
    + intros (s' & h & m & sec & [= <-] & Ht).
      assert (Hne : String.eqb (PyStr.strip s) "" = false).
      { apply not_true_iff_false. rewrite StripFacts.eqb_empty_chars.
        destruct Ht as (wh & wm & ws & -> & _). apply text_nonempty_sep. }
      rewrite Hne.
      apply StrptimeFacts.strptime_HMS_iff in Ht. now rewrite Ht.
Qed.

(** [validate_date_strict] with the default format accepts exactly the
    strings whose trimming is [y-m-d] with a year of four digits, a month
    of one or two digits, a day of one or two digits (or a space and a
    digit), naming a date of the calendar between the years 1 and 9999; it
    rejects [None] and NaN. *)
Theorem validate_date_strict_default
        (strptime_other : string -> string -> bool) (value : pyvalue) :
  validate_date_strict strptime_other value "%Y-%m-%d" = true <->
  exists s y m d,
    value = Str s /\ date_text (chars (PyStr.strip s)) y m d.
Proof.
  destruct value as [| |s].
  - split; [discriminate | intros (s & y & m & d & H & _); discriminate].
  - split; [discriminate | intros (s & y & m & d & H & _); discriminate].
  - unfold validate_date_strict, strptime_ok. simpl str. simpl String.eqb.
    split.
    + destruct (String.eqb (PyStr.strip s) ""); [discriminate|].
      destruct (Strptime.strptime_Ymd (PyStr.strip s)) as [[[y m] d]|] eqn:Hp;
        [|discriminate].
      intros _. apply StrptimeFacts.strptime_Ymd_iff in Hp.
      now exists s, y, m, d.
    + intros (s' & y & m & d & [= <-] & Ht).
      assert (Hne : String.eqb (PyStr.strip s) "" = false).
      { apply not_true_iff_false. rewrite StripFacts.eqb_empty_chars.
        destruct Ht as (wy & wm & wd & -> & _). apply text_nonempty_sep. }
      rewrite Hne.
      apply StrptimeFacts.strptime_Ymd_iff in Ht. now rewrite Ht.
Qed.

Example time_examples (strptime_other : string -> string -> bool) :
  validate_time_strict strptime_other (Str " 7:5:9 ") "%H:%M:%S" = true
  /\ validate_time_strict strptime_other (Str "24:00:00") "%H:%M:%S" = false
  /\ validate_time_strict strptime_other (Str "23:59:60") "%H:%M:%S" = false
  /\ validate_time_strict strptime_other (Str "23:59:59") "%H:%M:%S" = true.
Proof. repeat split; reflexivity. Qed.

(* ===================================================================== *)
(** ** The strict findings about [Date] and [Time] *)
(* ===================================================================== *)

Lemma check_time_present (strptime_other : string -> string -> bool)
      (v : gmap string string) (df : DataFrame) :
  has_column df "Time" = true ->
  let fmt := default "%H:%M:%S" (v !! "Time") in
  let invalid := List.filter (time_invalid strptime_other fmt) (getitem df "Time") in
  let n := Z.of_nat (length invalid) in
  check_time strptime_other v df
  = if (0 <? n)%Z
    then [expect_column_values_to_match_strict_time n
            (Series.astype_str (Series.head 10 invalid)) fmt]
    else [].
Proof.
  intros Hc. unfold check_time. rewrite Hc.
  rewrite EmailFacts.strict_invalid_mask_map.
  change (fun c => null_or_blank c
                   || negb (validate_time_strict strptime_other (cell_value c)
                              (default "%H:%M:%S" (v !! "Time"))))
    with (time_invalid strptime_other (default "%H:%M:%S" (v !! "Time"))).
  now rewrite SeriesFacts.sum_map, SeriesFacts.loc_map.
Qed.

(** The strict findings of the report come from the three strict checks. *)
Lemma select_strict
      (strptime_other : string -> string -> bool)
      (to_numeric_isna : list cell -> list bool)
      (to_datetime_isna : list cell -> result (list bool))
      (cfg : config) (df : DataFrame) (col : string) :
  select StrictFormatInvalid col
    (failing strptime_other to_numeric_isna to_datetime_isna cfg df)
  = select StrictFormatInvalid col (check_email df)
    ++ select StrictFormatInvalid col
         (check_date strptime_other (validations cfg) df)
    ++ select StrictFormatInvalid col
         (check_time strptime_other (validations cfg) df).
Proof.
  unfold failing. rewrite !select_app.
  rewrite (select_none _ _ (check_required_exist _ _)),
    (select_none _ _ (check_required_not_null _ _)),
    (select_none _ _ (check_unique_keys _ _)),
    (select_none _ _ (check_types _ _ _ _)); [reflexivity| | | |].
  - intros f Hf. apply in_check_types in Hf as (c & ty & _ & Hf).
    apply in_type_step in Hf as (_ & _ & ->). now left.
  - intros f Hf. apply in_check_unique_keys in Hf as (key & _ & Hf).
    apply in_unique_key_step in Hf as (_ & [[_ ->]|[_ Hk]]);
      left; [discriminate | congruence].
  - intros f Hf. apply in_check_required_not_null in Hf as (c & _ & _ & Hf).
    apply in_required_not_null_step in Hf as [Hk _]. left. congruence.
  - intros f Hf. apply in_check_required_exist in Hf as (c & _ & _ & ->).
    now left.
Qed.

(** The report holds one strict finding about [Date] (about [Time]) exactly
    when the column is present and some cell is null, blank or rejected by
    the format in force, which is the entry of [validations] when there is
    one and the default otherwise; the finding holds the number of such
    cells, the first 10 of them in row order and that format.  No other
    column than [Email], [Date] and [Time] ever gets a strict finding. *)
Theorem strict_date_time_findings
        (strptime_other : string -> string -> bool)
        (to_numeric_isna : list cell -> list bool)
        (to_datetime_isna : list cell -> result (list bool))
        (cfg : config) (df : DataFrame) :
  let report := failing strptime_other to_numeric_isna to_datetime_isna cfg df in
  let date_fmt := default "%Y-%m-%d" (validations cfg !! "Date") in
  let time_fmt := default "%H:%M:%S" (validations cfg !! "Time") in
  let bad_dates :=
    List.filter (date_invalid strptime_other date_fmt) (getitem df "Date") in
  let bad_times :=
    List.filter (time_invalid strptime_other time_fmt) (getitem df "Time") in
  select StrictFormatInvalid "Date" report
  = (if has_column df "Date" && (0 <? Z.of_nat (length bad_dates))%Z
     then [expect_column_values_to_match_strict_date
             (Z.of_nat (length bad_dates))
             (Series.astype_str (Series.head 10 bad_dates)) date_fmt]
     else [])
  /\ select StrictFormatInvalid "Time" report
     = (if has_column df "Time" && (0 <? Z.of_nat (length bad_times))%Z
        then [expect_column_values_to_match_strict_time
                (Z.of_nat (length bad_times))
                (Series.astype_str (Series.head 10 bad_times)) time_fmt]
        else [])
  /\ (forall col, col <> "Email" -> col <> "Date" -> col <> "Time" ->
                  select StrictFormatInvalid col report = []).
Proof.
  intros report date_fmt time_fmt bad_dates bad_times.
  unfold report. split; [|split].
  - rewrite select_strict.
    rewrite (select_none _ _ (check_email df)),
      (select_none _ _ (check_time _ _ _)).
    + rewrite app_nil_r. simpl app.
      destruct (has_column df "Date") eqn:Hc.
      * rewrite (check_date_present _ _ _ Hc). cbv zeta.
        fold date_fmt bad_dates. simpl andb.
        now destruct (0 <? Z.of_nat (length bad_dates))%Z.
      * unfold check_date. now rewrite Hc.
    + intros f Hf. apply in_check_time in Hf as (_ & _ & ->). now right.
    + intros f Hf. apply in_check_email in Hf as (_ & _ & ->). now right.
  - rewrite select_strict.
    rewrite (select_none _ _ (check_email df)),
      (select_none _ _ (check_date _ _ _)).
    + simpl app.
      destruct (has_column df "Time") eqn:Hc.
      * rewrite (check_time_present _ _ _ Hc). cbv zeta.
        fold time_fmt bad_times. simpl andb.
        now destruct (0 <? Z.of_nat (length bad_times))%Z.
      * unfold check_time. now rewrite Hc.
    + intros f Hf. apply in_check_date in Hf as (_ & _ & ->). now right.
    + intros f Hf. apply in_check_email in Hf as (_ & _ & ->). now right.
  - intros col He Hd Ht. rewrite select_strict.
    rewrite (select_none _ _ (check_email df)),
      (select_none _ _ (check_date _ _ _)),
      (select_none _ _ (check_time _ _ _)); [reflexivity| | |].
    + intros f Hf. apply in_check_time in Hf as (_ & _ & ->). right. congruence.
    + intros f Hf. apply in_check_date in Hf as (_ & _ & ->). right. congruence.
    + intros f Hf. apply in_check_email in Hf as (_ & _ & ->). right. congruence.
Qed.

(* ===================================================================== *)
(** ** Counts and samples of the findings *)
(* ===================================================================== *)

Lemma getitem_length (df : DataFrame) (col : string) :
  length (getitem df col) <= length (rows df).
Proof.
  unfold getitem. destruct (index_of col (columns df)); simpl; [|lia].
  now rewrite length_map.
Qed.

Lemma sample_length (l : list cell) :
  Z.of_nat (length (Series.astype_str (Series.head 10 l)))
  = Z.min 10 (Z.of_nat (length l)).
Proof.
  unfold Series.astype_str, Series.head. rewrite length_map, length_firstn. lia.
Qed.

Lemma filter_getitem_length (p : cell -> bool) (df : DataFrame)
      (col : string) :
  (Z.of_nat (length (List.filter p (getitem df col))) <= shape0 df)%Z.
Proof.
  unfold shape0.
  pose proof (SeriesFacts.filter_length_le p (getitem df col)).
  pose proof (getitem_length df col). lia.
Qed.

Lemma list_sum_ge_2 {A : Type} (f : A -> nat) (l : list A) :
  (forall x, In x l -> 2 <= f x) -> 2 * length l <= list_sum (map f l).
Proof.
  intros H. induction l as [|x l IH]; simpl; [lia|].
  pose proof (H x (or_introl eq_refl)).
  assert (2 * length l <= list_sum (map f l)).
  { apply IH. intros y Hy. apply H. now right. }
  lia.
Qed.

Lemma NoDup_firstn {A : Type} (n : nat) (l : list A) :
  List.NoDup l -> List.NoDup (firstn n l).
Proof.
  intros H. rewrite <- (firstn_skipn n l) in H.
  now apply NoDup_app_remove_r in H.
Qed.

(** What the uniqueness check reports when there are duplicates. *)
Lemma duplicates_bounds (ser : list cell) :
  duplicates ser <> [] ->
  let values := firstn 20 (Series.unique (duplicates ser)) in
  2 <= length (duplicates ser)
  /\ 1 <= length values <= 20
  /\ 2 * length values <= length (duplicates ser)
  /\ List.NoDup values.
Proof.
  intros Hne values.
  pose proof (UniqueFacts.length_duplicates ser) as Hsum.
  assert (Hge : 2 * length (Series.unique (duplicates ser))
                <= length (duplicates ser)).
  { rewrite Hsum. apply list_sum_ge_2. intros v Hv.
    now apply UniqueFacts.in_unique, UniqueFacts.in_duplicates in Hv. }
  assert (Hu : 1 <= length (Series.unique (duplicates ser))).
  { destruct (duplicates ser) as [|c l] eqn:E; [contradiction|].
    assert (Hin : In c (Series.unique (c :: l)))
      by (apply UniqueFacts.in_unique; now left).
    destruct (Series.unique (c :: l)); [contradiction | simpl; lia]. }
  unfold values. rewrite length_firstn.
  repeat split; try lia.
  apply NoDup_firstn, UniqueFacts.NoDup_unique.
Qed.

(** Every finding of a report has counts within the number of rows and a
    sample cut to the first 10 counted cells (20 distinct values for
    duplicates): a finding about null values or a strict format counts at
    least one cell, a finding about duplicates at least two cells and two
    per distinct value; when more than 10 cells are counted the sample
    holds exactly 10. *)
Theorem findings_bounded
        (strptime_other : string -> string -> bool)
        (to_numeric_isna : list cell -> list bool)
        (to_datetime_isna : list cell -> result (list bool))
        (cfg : config) (df : DataFrame) :
  List.Forall (finding_bounded (shape0 df))
    (failing strptime_other to_numeric_isna to_datetime_isna cfg df).
Proof.
  apply List.Forall_forall. intros f Hf. apply in_failing in Hf.
  destruct Hf as [H|[H|[H|[H|[H|[H|H]]]]]].
  - apply in_check_required_exist in H as (col & _ & _ & ->). exact I.
  - apply in_check_required_not_null in H as (col & _ & _ & H).
    rewrite required_not_null_step_eq in H.
    destruct (Z.ltb_spec 0 (Z.of_nat (length
                (List.filter null_or_blank (getitem df col)))));
      [|contradiction].
    destruct H as [<-|[]]. simpl.
    pose proof (filter_getitem_length null_or_blank df col).
    split; [lia | apply sample_length].
  - apply in_check_unique_keys in H as (key & _ & H).
    destruct (has_column df key) eqn:Hc.
    + rewrite (unique_key_step_present df key Hc) in H.
      destruct (Z.ltb_spec 0 (Z.of_nat (length (duplicates (getitem df key)))));
        [|contradiction].
      destruct H as [<-|[]]. simpl.
      assert (Hne : duplicates (getitem df key) <> []).
      { intros E. rewrite E in *. simpl in *. lia. }
      destruct (duplicates_bounds _ Hne) as (H2 & Hv & H2v & Hnd).
      pose proof (filter_getitem_length
                    (fun c => 1 <? Series.count c (getitem df key)) df key)
        as Hrows.
      fold (duplicates (getitem df key)) in Hrows.
      repeat split; try lia; assumption.
    + unfold unique_key_step in H. rewrite Hc in H.
      destruct H as [<-|[]]. exact I.
  - apply in_check_types in H as (col & ty & _ & H).
    apply in_type_step in H as (_ & Hs & ->). simpl.
    destruct (coerce_cases to_numeric_isna to_datetime_isna (getitem df col) ty)
      as [Hp|(_ & failed & _ & Hlen & Hcount & Hsample & _)].
    + rewrite Hp in Hs. discriminate.
    + rewrite Hcount, Hsample.
      pose proof (filter_getitem_length present_cell df col).
      split; [lia | apply sample_length].
  - pose proof (in_check_email _ _ H) as (Hc & _).
    rewrite (check_email_present df Hc) in H.
    destruct (Z.ltb_spec 0 (Z.of_nat (length
                (List.filter email_invalid (getitem df "Email")))));
      [|contradiction].
    destruct H as [<-|[]]. simpl.
    pose proof (filter_getitem_length email_invalid df "Email").
    split; [lia | apply sample_length].
  - pose proof (in_check_date _ _ _ _ H) as (Hc & _).
    rewrite (check_date_present _ _ _ Hc) in H. cbv zeta in H.
    match type of H with
    | In _ (if (0 <? Z.of_nat (length (List.filter ?p ?l)))%Z then _ else _) =>
        destruct (Z.ltb_spec 0 (Z.of_nat (length (List.filter p l))));
        [|contradiction];
        pose proof (filter_getitem_length p df "Date")
    end.
    destruct H as [<-|[]]. simpl.
    split; [lia | apply sample_length].
  - pose proof (in_check_time _ _ _ _ H) as (Hc & _).
    rewrite (check_time_present _ _ _ Hc) in H. cbv zeta in H.
    match type of H with
    | In _ (if (0 <? Z.of_nat (length (List.filter ?p ?l)))%Z then _ else _) =>
        destruct (Z.ltb_spec 0 (Z.of_nat (length (List.filter p l))));
        [|contradiction];
        pose proof (filter_getitem_length p df "Time")
    end.
    destruct H as [<-|[]]. simpl.
    split; [lia | apply sample_length].
Qed.

(* ===================================================================== *)
(** ** The findings about a column depend on that column only *)
(* ===================================================================== *)

Lemma filter_column_none (col : string) (l : list finding) :
  (forall f, In f l -> column_of f <> col) ->
  List.filter (fun f => String.eqb (column_of f) col) l = [].
Proof.
  intros H. induction l as [|f l IH]; simpl; [reflexivity|].
  destruct (String.eqb_spec (column_of f) col) as [E|_].
  - exfalso. apply (H f); [now left | exact E].
  - apply IH. intros g Hg. apply H. now right.
Qed.

Lemma filter_column_flat_map {A : Type} (key : A -> string) (col : string)
      (step1 step2 : A -> list finding) (l : list A) :
  (forall x f, In f (step1 x) -> column_of f = key x) ->
  (forall x f, In f (step2 x) -> column_of f = key x) ->
  (forall x, key x = col -> step1 x = step2 x) ->
  List.filter (fun f => String.eqb (column_of f) col) (flat_map step1 l)
  = List.filter (fun f => String.eqb (column_of f) col) (flat_map step2 l).
Proof.
  intros H1 H2 Heq. induction l as [|x l IH]; simpl; [reflexivity|].
  rewrite !List.filter_app, IH. f_equal.
  destruct (string_dec (key x) col) as [E|E].
  - now rewrite (Heq x E).
  - rewrite !filter_column_none; [reflexivity| |].
    + intros f Hf. rewrite (H2 x f Hf). exact E.
    + intros f Hf. rewrite (H1 x f Hf). exact E.
Qed.

Lemma in_required_exist_step (df : DataFrame) (col : string) (f : finding) :
  In f (required_exist_step df col) -> column_of f = col.
Proof.
  unfold required_exist_step. destruct (has_column df col); [contradiction|].
  intros [<-|[]]. reflexivity.
Qed.

Lemma in_type_step_column
      (to_numeric_isna : list cell -> list bool)
      (to_datetime_isna : list cell -> result (list bool))
      (df : DataFrame) (item : string * string) (f : finding) :
  In f (type_step to_numeric_isna to_datetime_isna df item) ->
  column_of f = fst item.
Proof.
  destruct item as [col ty]. intros H.
  now apply in_type_step in H as (_ & _ & ->).
Qed.

(** Two data sets that agree on a column (both lack it, or both hold it
    with the same cells) get the same findings about that column, in the
    same order, whatever their other columns hold. *)
Theorem findings_local
        (strptime_other : string -> string -> bool)
        (to_numeric_isna : list cell -> list bool)
        (to_datetime_isna : list cell -> result (list bool))
        (cfg : config) (df1 df2 : DataFrame) (col : string) :
  has_column df1 col = has_column df2 col ->
  getitem df1 col = getitem df2 col ->
  List.filter (fun f => String.eqb (column_of f) col)
    (failing strptime_other to_numeric_isna to_datetime_isna cfg df1)
  = List.filter (fun f => String.eqb (column_of f) col)
      (failing strptime_other to_numeric_isna to_datetime_isna cfg df2).
Proof.
  intros Hhas Hget. unfold failing. rewrite !List.filter_app.
  f_equal; [|f_equal; [|f_equal; [|f_equal; [|f_equal; [|f_equal]]]]].
  - unfold check_required_exist.
    apply (filter_column_flat_map (fun x => x));
      try (intros x f; apply in_required_exist_step).
    intros x ->. unfold required_exist_step. now rewrite Hhas.
  - unfold check_required_not_null. rewrite !SeriesFacts.flat_map_filter.
    apply (filter_column_flat_map (fun x => x)).
    + intros x f. destruct (has_column df1 x); [|contradiction].
      intros Hf. now apply in_required_not_null_step in Hf.
    + intros x f. destruct (has_column df2 x); [|contradiction].
      intros Hf. now apply in_required_not_null_step in Hf.
    + intros x ->. rewrite Hhas. unfold required_not_null_step.
      now rewrite Hget.
  - unfold check_unique_keys.
    apply (filter_column_flat_map (fun x => x)).
    + intros x f Hf. now apply in_unique_key_step in Hf.
    + intros x f Hf. now apply in_unique_key_step in Hf.
    + intros x ->. unfold unique_key_step. now rewrite Hhas, Hget.
  - unfold check_types.
    apply (filter_column_flat_map fst);
      try (intros x f; apply in_type_step_column).
    intros [x ty]. simpl. intros ->. unfold type_step.
    now rewrite Hhas, Hget.
  - destruct (string_dec col "Email") as [->|Hne].
    + unfold check_email. now rewrite Hhas, Hget.
    + rewrite !filter_column_none; [reflexivity| |];
        intros f Hf; apply in_check_email in Hf as (_ & _ & ->); congruence.
  - destruct (string_dec col "Date") as [->|Hne].
    + unfold check_date. now rewrite Hhas, Hget.
    + rewrite !filter_column_none; [reflexivity| |];
        intros f Hf; apply in_check_date in Hf as (_ & _ & ->); congruence.
  - destruct (string_dec col "Time") as [->|Hne].
    + unfold check_time. now rewrite Hhas, Hget.
    + rewrite !filter_column_none; [reflexivity| |];
        intros f Hf; apply in_check_time in Hf as (_ & _ & ->); congruence.
Qed.

Lemma findings_local_witness :
  has_column Sample.df "Email" = has_column Sample.df_other "Email"
  /\ getitem Sample.df "Email" = getitem Sample.df_other "Email"
  /\ List.filter (fun f => String.eqb (column_of f) "Email")
       (Sample.failing Sample.cfg Sample.df_other)
     = [expect_column_values_to_not_be_null "Email" 2 ["nan"; " "];
        expect_column_values_to_match_strict_email 4
          ["a@b"; "nan"; "a b@c.com"; " "]].
Proof.
  split; [reflexivity|]. split; [reflexivity|].
  unfold Sample.failing.
  rewrite <- (findings_local Sample.strptime_other Sample.to_numeric_isna
                Sample.to_datetime_isna Sample.cfg Sample.df Sample.df_other
                "Email" eq_refl eq_refl).
  vm_compute. reflexivity.
Defined.

(* ===================================================================== *)
(** ** The order of the findings *)
(* ===================================================================== *)

Lemma ForallOrdPairs_app {A : Type} (R : A -> A -> Prop) (l1 l2 : list A) :
  ForallOrdPairs R l1 -> ForallOrdPairs R l2 ->
  (forall x y, In x l1 -> In y l2 -> R x y) ->
  ForallOrdPairs R (l1 ++ l2).
Proof.
  intros H1 H2 H12. induction H1 as [|x l Hx H1 IH]; simpl; [exact H2|].
  constructor.
  - apply List.Forall_forall. intros y Hy. apply in_app_or in Hy as [Hy|Hy].
    + rewrite List.Forall_forall in Hx. now apply Hx.
    + apply H12; [now left | exact Hy].
  - apply IH. intros a b Ha Hb. apply H12; [now right | exact Hb].
Qed.

Lemma ForallOrdPairs_const {A : Type} (rank : A -> nat) (n : nat)
      (l : list A) :
  (forall x, In x l -> rank x = n) ->
  ForallOrdPairs (fun x y => rank x <= rank y) l.
Proof.
  intros H. induction l as [|x l IH]; constructor.
  - apply List.Forall_forall. intros y Hy.
    rewrite (H x (or_introl eq_refl)), (H y (or_intror Hy)). lia.
  - apply IH. intros y Hy. apply H. now right.
Qed.

(** The columns of the findings of a loop that appends at most one finding
    per entry, about the column of the entry. *)
Lemma map_column_flat_map {A : Type} (key : A -> string) (p : A -> bool)
      (step : A -> list finding) (l : list A) :
  (forall x, if p x then exists f, step x = [f] /\ column_of f = key x
             else step x = []) ->
  map column_of (flat_map step l) = map key (List.filter p l).
Proof.
  intros H. induction l as [|x l IH]; simpl; [reflexivity|].
  rewrite map_app, IH. specialize (H x). destruct (p x).
  - destruct H as (f & -> & Hk). simpl. now rewrite Hk.
  - now rewrite H.
Qed.

(** The report lists the findings in the order of the checks: the missing
    required columns, then the required columns with null values, then the
    unique keys (missing, or with duplicates), then the declared types,
    then [Email], [Date], [Time]; and inside each of the first four checks
    the findings are about the entries of its list that fail, in the order
    of the list. *)
Theorem findings_order
        (strptime_other : string -> string -> bool)
        (to_numeric_isna : list cell -> list bool)
        (to_datetime_isna : list cell -> result (list bool))
        (cfg : config) (df : DataFrame) :
  ForallOrdPairs (fun f g => check_rank f <= check_rank g)
    (failing strptime_other to_numeric_isna to_datetime_isna cfg df)
  /\ map column_of (check_required_exist (required cfg) df)
     = List.filter (fun c => negb (has_column df c)) (required cfg)
  /\ map column_of (check_required_not_null (required cfg) df)
     = List.filter
         (fun c => has_column df c
                   && (0 <? length (List.filter null_or_blank (getitem df c))))
         (required cfg)
  /\ map column_of (check_unique_keys (unique_keys cfg) df)
     = List.filter
         (fun k => negb (has_column df k)
                   || (0 <? length (duplicates (getitem df k))))
         (unique_keys cfg)
  /\ map column_of
       (check_types to_numeric_isna to_datetime_isna (col_types cfg) df)
     = map fst
         (List.filter
            (fun item =>
               has_column df (fst item)
               && negb (Check.success
                          (_coerce_and_check_series to_numeric_isna
                             to_datetime_isna (getitem df (fst item))
                             (snd item))))
            (col_types cfg)).
Proof.
  split; [|split; [|split; [|split]]].
  - unfold failing.
    repeat apply ForallOrdPairs_app;
      try (intros f g Hf Hg;
           repeat (apply in_app_or in Hg as [Hg|Hg]));
      try match goal with
          | |- ForallOrdPairs _ (check_required_exist _ _) =>
              apply (ForallOrdPairs_const check_rank 1); intros f Hf
          | |- ForallOrdPairs _ (check_required_not_null _ _) =>
              apply (ForallOrdPairs_const check_rank 2); intros f Hf
          | |- ForallOrdPairs _ (check_unique_keys _ _) =>
              apply (ForallOrdPairs_const check_rank 3); intros f Hf
          | |- ForallOrdPairs _ (check_types _ _ _ _) =>
              apply (ForallOrdPairs_const check_rank 4); intros f Hf
          | |- ForallOrdPairs _ (check_email _) =>
              apply (ForallOrdPairs_const check_rank 5); intros f Hf
          | |- ForallOrdPairs _ (check_date _ _ _) =>
              apply (ForallOrdPairs_const check_rank 6); intros f Hf
          | |- ForallOrdPairs _ (check_time _ _ _) =>
              apply (ForallOrdPairs_const check_rank 7); intros f Hf
          end;
      repeat match goal with
             | H : In _ (check_required_exist _ _) |- _ =>
                 apply in_check_required_exist in H as (? & _ & _ & ->)
             | H : In _ (check_required_not_null _ _) |- _ =>
                 apply in_check_required_not_null in H as (? & _ & _ & H);
                 unfold required_not_null_step in H;
                 match type of H with
                 | In _ (if ?b then _ else _) =>
                     destruct b; [destruct H as [<-|[]] | contradiction]
                 end
             | H : In _ (check_unique_keys _ _) |- _ =>
                 apply in_check_unique_keys in H as (? & _ & H);
                 unfold unique_key_step in H;
                 match type of H with
                 | In _ (if ?b then _ else _) =>
                     destruct b; [destruct H as [<-|[]]|];
                     [|match type of H with
                       | In _ (if ?b then _ else _) =>
                           destruct b; [destruct H as [<-|[]] | contradiction]
                       end]
                 end
             | H : In _ (check_types _ _ _ _) |- _ =>
                 apply in_check_types in H as (? & ? & _ & H);
                 apply in_type_step in H as (_ & _ & ->)
             | H : In _ (check_email _) |- _ =>
                 unfold check_email in H;
                 repeat match type of H with
                        | In _ (if ?b then _ else _) =>
                            destruct b; [|contradiction]
                        end;
                 destruct H as [<-|[]]
             | H : In _ (check_date _ _ _) |- _ =>
                 unfold check_date in H;
                 repeat match type of H with
                        | In _ (if ?b then _ else _) =>
                            destruct b; [|contradiction]
                        end;
                 destruct H as [<-|[]]
             | H : In _ (check_time _ _ _) |- _ =>
                 unfold check_time in H;
                 repeat match type of H with
                        | In _ (if ?b then _ else _) =>
                            destruct b; [|contradiction]
                        end;
                 destruct H as [<-|[]]
             end;
      simpl; lia.
  - unfold check_required_exist.
    rewrite (map_column_flat_map (fun c => c)
               (fun c => negb (has_column df c))); [now rewrite map_id|].
    intros c. unfold required_exist_step.
    destruct (has_column df c); simpl; eauto.
  - unfold check_required_not_null. rewrite SeriesFacts.flat_map_filter.
    rewrite (map_column_flat_map (fun c => c)
               (fun c => has_column df c
                         && (0 <? length (List.filter null_or_blank
                                            (getitem df c)))));
      [now rewrite map_id|].
    intros c. destruct (has_column df c); simpl; [|reflexivity].
    rewrite required_not_null_step_eq.
    destruct (List.filter null_or_blank (getitem df c)); simpl; eauto.
  - unfold check_unique_keys.
    rewrite (map_column_flat_map (fun c => c)
               (fun k => negb (has_column df k)
                         || (0 <? length (duplicates (getitem df k)))));
      [now rewrite map_id|].
    intros k. destruct (has_column df k) eqn:Hc; simpl.
    + rewrite (unique_key_step_present df k Hc).
      destruct (duplicates (getitem df k)); simpl; eauto.
    + unfold unique_key_step. rewrite Hc. simpl. eauto.
  - unfold check_types.
    apply (map_column_flat_map fst). intros [c ty]. simpl. unfold type_step.
    destruct (has_column df c); simpl; [|reflexivity].
    destruct (Check.success _); simpl; eauto.
Qed.

(* ===================================================================== *)
(** ** Writing the report *)
(* ===================================================================== *)



(* ===================================================================== *)
(** ** The strict validators and surrounding white space *)
(* ===================================================================== *)

Lemma strip_chars_idempotent (s : list ascii) :
  PyStr.strip_chars (PyStr.strip_chars s) = PyStr.strip_chars s.
Proof.
  apply StripFacts.strip_chars_id.
  - intros c r H. now apply (StripFacts.strip_chars_first s r).
  - intros w c H. now apply (StripFacts.strip_chars_last s w).
Qed.

Lemma strip_idempotent (s : string) :
  PyStr.strip (PyStr.strip s) = PyStr.strip s.
Proof.
  apply StripFacts.chars_inj.
  now rewrite !StripFacts.chars_strip, strip_chars_idempotent.
Qed.

(** What [strip] removes is white space, at both ends. *)
Lemma lstrip_split (s : list ascii) :
  exists pre, s = pre ++ PyStr.lstrip s
              /\ Forall (fun c => PyStr.isspace c = true) pre.
Proof.
  induction s as [|c s (pre & IH & Hpre)]; simpl.
  - now exists [].
  - destruct (PyStr.isspace c) eqn:Hc.
    + exists (c :: pre). split; [simpl; now rewrite <- IH | now constructor].
    + now exists [].
Qed.

Lemma rstrip_split (s : list ascii) :
  exists post, s = PyStr.rstrip s ++ post
               /\ Forall (fun c => PyStr.isspace c = true) post.
Proof.
  induction s as [|c s (post & IH & Hpost)]; simpl.
  - now exists [].
  - destruct (PyStr.rstrip s) as [|b r] eqn:Hr.
    + destruct (PyStr.isspace c) eqn:Hc.
      * exists (c :: post). split; [simpl in *; now rewrite <- IH|].
        now constructor.
      * exists post. split; [simpl in *; now rewrite <- IH | exact Hpost].
    + exists post. split; [simpl in *; now rewrite <- IH | exact Hpost].
Qed.

(** Surrounding white space does not count: each of the three strict
    validators gives a string the verdict of its trimming, with any format;
    the trimming takes white space off both ends and nothing else, and
    keeps a text with no white space at its ends as it is. *)
Theorem strict_validators_trim
        (strptime_other : string -> string -> bool) (s fmt : string) :
  validate_email_strict (Str s) = validate_email_strict (Str (PyStr.strip s))
  /\ validate_date_strict strptime_other (Str s) fmt
     = validate_date_strict strptime_other (Str (PyStr.strip s)) fmt
  /\ validate_time_strict strptime_other (Str s) fmt
     = validate_time_strict strptime_other (Str (PyStr.strip s)) fmt
  /\ (exists pre post,
         chars s = pre ++ chars (PyStr.strip s) ++ post
         /\ Forall (fun c => PyStr.isspace c = true) pre
         /\ Forall (fun c => PyStr.isspace c = true) post)
  /\ (forall c r, chars (PyStr.strip s) = c :: r -> PyStr.isspace c = false)
  /\ (forall r c, chars (PyStr.strip s) = r ++ [c] -> PyStr.isspace c = false).
Proof.
  split; [|split; [|split; [|split; [|split]]]].
  - unfold validate_email_strict. simpl str. now rewrite strip_idempotent.
  - unfold validate_date_strict. simpl str. now rewrite strip_idempotent.
  - unfold validate_time_strict. simpl str. now rewrite strip_idempotent.
  - rewrite StripFacts.chars_strip. unfold PyStr.strip_chars.
    destruct (lstrip_split (chars s)) as (pre & Hs & Hpre).
    destruct (rstrip_split (PyStr.lstrip (chars s))) as (post & Hl & Hpost).
    exists pre, post. split; [|auto].
    rewrite Hs at 1. now rewrite Hl at 1.
  - intros c r H. rewrite StripFacts.chars_strip in H.
    now apply StripFacts.strip_chars_first in H.
  - intros r c H. rewrite StripFacts.chars_strip in H.
    now apply StripFacts.strip_chars_last in H.
Qed.

(* ===================================================================== *)
(** ** What [load_config] makes of the declared columns *)
(* ===================================================================== *)

Lemma dict_get_set (d : list (string * string)) (k v k' : string) :
  dict_get (dict_set d k v) k'
  = if String.eqb k' k then Some v else dict_get d k'.
Proof.
  induction d as [|[k0 v0] d IH]; simpl; [reflexivity|].
  destruct (String.eqb_spec k k0) as [->|Hne]; simpl.
  - now destruct (String.eqb k' k0).
  - rewrite IH. destruct (String.eqb_spec k' k0) as [->|Hne'];
      [|reflexivity].
    destruct (String.eqb_spec k0 k); [congruence | reflexivity].
Qed.

Lemma normalize_columns_fold (cols : list column_entry) :
  normalize_columns cols
  = fold_left
      (fun d c => match declared c with
                  | Some (name, t) => dict_set d name t
                  | None => d
                  end) cols [].
Proof.
  unfold normalize_columns. generalize (@nil (string * string)) as d.
  induction cols as [|c cols IH]; intros d; simpl; [reflexivity|].
  rewrite IH. now destruct c.
Qed.

Lemma fold_keys (cols : list column_entry) :
  forall d,
    map fst (fold_left
               (fun d c => match declared c with
                           | Some (name, t) => dict_set d name t
                           | None => d
                           end) cols d)
    = map fst d ++ first_seen_from (map fst d) (declared_names cols).
Proof.
  induction cols as [|c cols IH]; intros d; simpl.
  - now rewrite app_nil_r.
  - rewrite IH. unfold declared_names at 2. simpl.
    fold (declared_names cols).
    destruct (declared c) as [[name t]|]; simpl; [|reflexivity].
    rewrite dict_set_keys.
    destruct (existsb (String.eqb name) (map fst d)); [reflexivity|].
    now rewrite <- app_assoc.
Qed.

Lemma fold_get (cols : list column_entry) (name : string) :
  forall d,
    dict_get (fold_left
                (fun d c => match declared c with
                            | Some (n, t) => dict_set d n t
                            | None => d
                            end) cols d) name
    = match last_declared cols name with
      | Some t => Some t
      | None => dict_get d name
      end.
Proof.
  induction cols as [|c cols IH]; intros d; simpl; [reflexivity|].
  rewrite IH. destruct (last_declared cols name); [reflexivity|].
  destruct (declared c) as [[n t]|]; [|reflexivity].
  rewrite dict_get_set. now destruct (String.eqb name n).
Qed.

Lemma first_seen_from_length (l : list string) :
  forall seen, length (first_seen_from seen l) <= length l.
Proof.
  induction l as [|n l IH]; intros seen; simpl; [lia|].
  destruct (existsb (String.eqb n) seen); simpl.
  - specialize (IH seen). lia.
  - specialize (IH (seen ++ [n])). lia.
Qed.

Lemma declared_names_length (cols : list column_entry) :
  length (declared_names cols) <= length cols.
Proof.
  unfold declared_names. apply SeriesFacts.flat_map_length_le.
  intros c. destruct (declared c) as [[n t]|]; simpl; lia.
Qed.

(** [load_config] turns the list [columns] into a dictionary: its keys are
    the declared names, each once, in the order of first appearance; the
    type of a name is the one of the last entry that declares it, in lower
    case, ["string"] for a bare name or an entry without type; entries
    that are neither a string nor a mapping with a name are dropped.  So
    the number of column types is at most the number of entries.  The
    other three sections are passed on as they are, a configuration file
    that does not exist is a [FileNotFoundError], and a failure of the
    YAML parser is passed on. *)
Theorem load_config_normalizes (y : yaml_config) :
  exists cfg,
    load_config (Some (inl y)) = Ok cfg
    /\ map fst (col_types cfg) = first_seen (declared_names (yaml_columns y))
    /\ List.NoDup (map fst (col_types cfg))
    /\ (forall name,
           dict_get (col_types cfg) name
           = last_declared (yaml_columns y) name)
    /\ length (col_types cfg) <= length (yaml_columns y)
    /\ required cfg = yaml_required y
    /\ unique_keys cfg = yaml_unique_keys y
    /\ validations cfg = yaml_validations y
    /\ load_config None = Raise FileNotFoundError
    /\ load_config (Some (inr NotFound)) = Raise FileNotFoundError
    /\ load_config (Some (inr Failure)) = Raise OtherException.
Proof.
  eexists. split; [reflexivity|]. simpl.
  assert (Hkeys : map fst (normalize_columns (yaml_columns y))
                  = first_seen (declared_names (yaml_columns y))).
  { rewrite normalize_columns_fold, fold_keys. reflexivity. }
  split; [exact Hkeys|].
  split; [apply normalize_columns_NoDup|].
  split.
  { intros name. rewrite normalize_columns_fold, fold_get.
    now destruct (last_declared (yaml_columns y) name). }
  split.
  { rewrite <- (length_map fst), Hkeys. unfold first_seen.
    pose proof (first_seen_from_length (declared_names (yaml_columns y)) []).
    pose proof (declared_names_length (yaml_columns y)). lia. }
  repeat split.
Qed.

(* ===================================================================== *)
(** ** Integer and float declarations *)
(* ===================================================================== *)

(** The five numeric declarations ([int], [integer], [float], [numeric],
    [number]) run one and the same check: a column declared [int] is
    checked exactly like a column declared [float], so whatever
    [pd.to_numeric] takes for a number passes in an [int] column; and the
    three timestamp declarations run one and the same check too. *)
Theorem numeric_declarations_alike
        (to_numeric_isna : list cell -> list bool)
        (to_datetime_isna : list cell -> result (list bool))
        (ser : list cell) (t1 t2 : string) :
  (In t1 ["int"; "integer"; "float"; "numeric"; "number"] ->
   In t2 ["int"; "integer"; "float"; "numeric"; "number"] ->
   _coerce_and_check_series to_numeric_isna to_datetime_isna ser t1
   = _coerce_and_check_series to_numeric_isna to_datetime_isna ser t2)
  /\ (In t1 ["timestamp"; "datetime"; "date"] ->
      In t2 ["timestamp"; "datetime"; "date"] ->
      _coerce_and_check_series to_numeric_isna to_datetime_isna ser t1
      = _coerce_and_check_series to_numeric_isna to_datetime_isna ser t2).
Proof.
  split; intros H1 H2.
  - assert (Hs : forall t, In t ["int"; "integer"; "float"; "numeric"; "number"]
                   -> in_tuple t ["string"; "str"; "object"] = false).
    { intros t Ht. simpl in Ht.
      repeat (destruct Ht as [<-|Ht]; [reflexivity|]). contradiction. }
    rewrite !coerce_numeric; auto; now apply in_tuple_In.
  - assert (Hs : forall t, In t ["timestamp"; "datetime"; "date"]
                   -> in_tuple t ["string"; "str"; "object"] = false
                      /\ in_tuple t ["int"; "integer"; "float"; "numeric";
                                     "number"] = false).
    { intros t Ht. simpl in Ht.
      repeat (destruct Ht as [<-|Ht]; [now split|]). contradiction. }
    destruct (Hs t1 H1), (Hs t2 H2).
    rewrite !coerce_timestamp; auto; now apply in_tuple_In.
Qed.

(* ===================================================================== *)
(** ** The callers of the validator *)
(* ===================================================================== *)

Lemma run_validation_missing :
  getattr "etl.validate" validate_module "run_validation"
  = Raises "module 'etl.validate' has no attribute 'run_validation'".
Proof. reflexivity. Qed.



(** The [/validate] endpoint of the admin service never answers 200: it
    answers 400 with the error ["no staged file"] exactly when the staged
    file does not exist, and 500 otherwise, because the validator module
    has no [run_validation]; when the module imports, the message is the
    one of the failed lookup. *)
Theorem validate_endpoint_never_ok
        (call_attribute : string -> string -> raised bool)
        (w : AdminService.world) (staged : string) :
  let response := AdminService.validate_endpoint call_attribute w staged in
  (response = (AdminService.Error "no staged file", 400%Z) <->
   AdminService.staged_exists w = false)
  /\ (snd response = 500%Z <-> AdminService.staged_exists w = true)
  /\ snd response <> 200%Z
  /\ (forall ok, fst response <> AdminService.ValidationOk ok)
  /\ (AdminService.staged_exists w = true ->
      AdminService.import_validate w = None ->
      response
      = (AdminService.Error
           "module 'etl.validate' has no attribute 'run_validation'",
         500%Z)).
Proof.
  unfold AdminService.validate_endpoint.
  destruct (AdminService.staged_exists w); simpl negb; cbv iota.
  - rewrite run_validation_missing.
    destruct (AdminService.import_validate w); simpl;
      repeat split; try discriminate; auto.
  - simpl. repeat split; try discriminate; auto.
Qed.

(* ===================================================================== *)
(** ** The shape of an accepted address *)
(* ===================================================================== *)

Lemma count_occ_Forall_0 (P : ascii -> Prop) (l : list ascii) (x : ascii) :
  Forall P l -> ~ P x -> count_occ ascii_dec l x = 0.
Proof.
  intros Hl Hx. apply count_occ_not_In.
  now apply (EmailFacts.Forall_not_In P).
Qed.

Lemma last_two {A : Type} (t : list A) :
  2 <= length t -> exists w a b, t = w ++ [a; b].
Proof.
  induction t as [|x t IH]; simpl; [lia|].
  destruct t as [|y [|z t]].
  - simpl. lia.
  - intros _. now exists [], x, y.
  - intros _. destruct IH as (w & a & b & E); [simpl; lia|].
    exists (x :: w), a, b. simpl. now rewrite E.
Qed.

Lemma Forall_app_last_two (P : ascii -> Prop) (w : list ascii) (a b : ascii) :
  Forall P (w ++ [a; b]) -> P a /\ P b.
Proof.
  intros H. apply Forall_app in H as [_ H].
  inversion H as [|? ? Ha H']; subst. inversion H'; subst. auto.
Qed.

(** Every string the strict email check accepts holds, once trimmed,
    exactly one ["@"], at least six characters, only letters, digits and
    the characters [._%+-@], a first character that is not ["@"], and two
    letters at its end. *)
Theorem accepted_email_shape (s : string) :
  validate_email_strict (Str s) = true ->
  let v := chars (PyStr.strip s) in
  count_occ ascii_dec v "@"%char = 1
  /\ 6 <= length v
  /\ Forall (fun c => PyStr.isalpha c || PyStr.isdigit c
                      || in_chars "._%+-@" c = true) v
  /\ (exists c r, v = c :: r /\ c <> "@"%char)
  /\ (exists w a b, v = w ++ [a; b]
                    /\ PyStr.isalpha a = true /\ PyStr.isalpha b = true).
Proof.
  intros Hv v. apply EmailFacts.validate_email_strict_Str in Hv.
  fold v in Hv.
  destruct Hv as (l & d & t & E & Hl0 & Hl & Hd0 & Hd & Ht2 & Ht).
  assert (Cl : count_occ ascii_dec l "@"%char = 0).
  { apply (count_occ_Forall_0 _ _ _ Hl). intros H.
    now apply EmailFacts.local_class_not_at in H as [H _]. }
  assert (Cd : count_occ ascii_dec d "@"%char = 0).
  { apply (count_occ_Forall_0 _ _ _ Hd). intros H.
    now apply EmailFacts.domain_class_not_at in H as [H _]. }
  assert (Ct : count_occ ascii_dec t "@"%char = 0).
  { apply (count_occ_Forall_0 _ _ _ Ht). intros H.
    now apply EmailFacts.alpha_not_at_dot in H as [H _]. }
  rewrite E. split; [|split; [|split; [|split]]].
  - rewrite count_occ_app. simpl. rewrite count_occ_app. simpl.
    rewrite Cl, Cd, Ct. reflexivity.
  - rewrite length_app. simpl. rewrite length_app. simpl.
    destruct l; [contradiction|]. destruct d; [contradiction|]. simpl. lia.
  - apply Forall_app. split.
    + eapply List.Forall_impl; [|exact Hl]. intros c Hc. unfold email_local_class in Hc.
      apply orb_true_iff in Hc as [Hc|Hc]; [now rewrite Hc|].
      rewrite orb_true_iff. right.
      unfold in_chars in *. simpl in *.
      repeat (apply orb_true_iff in Hc as [Hc|Hc];
              [rewrite Hc; now rewrite ?orb_true_r|]).
      discriminate.
    + constructor; [reflexivity|]. apply Forall_app. split.
      * eapply List.Forall_impl; [|exact Hd]. intros c Hc.
        unfold email_domain_class in Hc.
        apply orb_true_iff in Hc as [Hc|Hc]; [now rewrite Hc|].
        rewrite orb_true_iff. right.
        unfold in_chars in *. simpl in *.
        repeat (apply orb_true_iff in Hc as [Hc|Hc];
                [rewrite Hc; now rewrite ?orb_true_r|]).
        discriminate.
      * constructor; [reflexivity|].
        eapply List.Forall_impl; [|exact Ht]. intros c Hc. now rewrite Hc.
  - destruct l as [|c l]; [contradiction|]. exists c, (l ++ "@"%char :: d ++ "."%char :: t).
    split; [reflexivity|]. inversion Hl as [|? ? Hc _]; subst.
    now apply EmailFacts.local_class_not_at in Hc as [Hc _].
  - destruct (last_two t Ht2) as (w & a & b & ->).
    exists (l ++ "@"%char :: d ++ "."%char :: w), a, b.
    split.
    + rewrite <- !app_assoc. simpl. rewrite <- !app_assoc. reflexivity.
    + exact (Forall_app_last_two (fun c => PyStr.isalpha c = true) w a b Ht).
Qed.

Lemma accepted_email_shape_witness :
  validate_email_strict (Str " a@b.co ") = true
  /\ length (chars (PyStr.strip " a@b.co ")) = 6
  /\ count_occ ascii_dec (chars (PyStr.strip " a@b.co ")) "@"%char = 1.
Proof.
  split; [reflexivity|]. split; [reflexivity|].
  destruct (accepted_email_shape " a@b.co " eq_refl) as (H & _). exact H.
Defined.

(* ===================================================================== *)
(** ** The transform runner *)
(* ===================================================================== *)

Module TransformFacts.
Import Transform.

Lemma insert_sorted_Permutation x l : Permutation (insert_sorted x l) (x :: l).
Proof.
  induction l as [|y l IH]; simpl; [reflexivity|].
  destruct (String.leb x y); [reflexivity|].
  rewrite IH. apply perm_swap.
Qed.

Lemma sorted_Permutation l : Permutation (sorted l) l.
Proof.
  induction l as [|x l IH]; simpl; [reflexivity|].
  rewrite insert_sorted_Permutation. now constructor.
Qed.

Lemma insert_sorted_ascending x l : ascending l -> ascending (insert_sorted x l).
Proof.
  induction l as [|y l IH]; intros Hl; [exact I|].
  cbn [insert_sorted]. destruct (String.leb x y) eqn:E.
  - split; [exact E|exact Hl].
  - assert (Hyx : String.leb y x = true).
    { destruct (String.leb_total x y) as [H|H]; [congruence|exact H]. }
    destruct l as [|z l]; [cbn; auto|].
    destruct Hl as [Hyz Hl]. specialize (IH Hl).
    cbn [insert_sorted] in *. destruct (String.leb x z); split; auto.
Qed.

Lemma sorted_ascending l : ascending (sorted l).
Proof.
  induction l as [|x l IH]; [exact I|].
  now apply insert_sorted_ascending.
Qed.

(** One turn of the loop. *)
Lemma run_scripts_cons w ran f files log :
  run_scripts w ran (f :: files) log =
  match read_text w f with
  | Raises m => (log, Raises m)
  | Returns t =>
      match print w (Running f) with
      | Some m => (log, Raises (default m (print w (Error_running f))))
      | None =>
          match executescript w ran t with
          | Some m =>
              (log ++ [ExecuteScript f],
               Raises (default m (print w (Error_running f))))
          | None =>
              run_scripts w (ran ++ [t]) files (log ++ [ExecuteScript f])
          end
      end
  end.
Proof.
  cbn [run_scripts].
  unfold bind, try_reraise, say, lift, perform, Ingest.call.
  destruct (read_text w f) as [t|m]; [|reflexivity].
  destruct (print w (Running f)) as [m|].
  - now destruct (print w (Error_running f)).
  - destruct (executescript w ran t) as [m|]; [|reflexivity].
    now destruct (print w (Error_running f)).
Qed.

(** The loop executes a prefix of its files, and all of them when it
    returns. *)
Lemma run_scripts_log w files : forall ran log,
  exists done,
    done `prefix_of` files
    /\ fst (run_scripts w ran files log) = log ++ map ExecuteScript done
    /\ (snd (run_scripts w ran files log) = Returns tt -> done = files).
Proof.
  induction files as [|f files IH]; intros ran log.
  - exists []. cbn. rewrite app_nil_r. repeat split; auto.
  - rewrite run_scripts_cons.
    destruct (read_text w f) as [t|m].
    2:{ exists []. cbn. rewrite app_nil_r.
        repeat split; [apply prefix_nil | discriminate]. }
    destruct (print w (Running f)) as [m|].
    { exists []. cbn. rewrite app_nil_r.
      repeat split; [apply prefix_nil | discriminate]. }
    destruct (executescript w ran t) as [m|].
    { exists [f]. cbn.
      repeat split; [now exists files | discriminate]. }
    destruct (IH (ran ++ [t]) (log ++ [ExecuteScript f]))
      as (done & Hp & Hl & Hr).
    exists (f :: done). split; [now apply prefix_cons|].
    split; [rewrite Hl, <- app_assoc; reflexivity|].
    intros H. f_equal. auto.
Qed.

Lemma main_opened (w : world) (csv_path : string) :
  opened w = true ->
  main w csv_path [] =
  try_finally
    (bind (csv_to_sqlite_table w "transactions")
       (fun _ => bind (run_sql_scripts w) (fun _ => say w Completed)))
    (bind (perform Commit (commit w)) (fun _ => perform Close (close w))) [].
Proof.
  unfold opened, main. intros H.
  apply andb_true_iff in H as [H Hc]. apply andb_true_iff in H as [He Hm].
  apply bool_decide_eq_true in Hc, Hm. rewrite He, Hm, Hc. reflexivity.
Qed.

Lemma main_not_opened (w : world) (csv_path : string) :
  opened w = false ->
  fst (main w csv_path []) = []
  /\ exists m, snd (main w csv_path []) = Raises m.
Proof.
  unfold opened, main. intros H.
  destruct (csv_exists w); simpl; [|eauto].
  unfold bind, lift.
  destruct (mkdir w) as [m|]; simpl; [eauto|].
  destruct (connect w) as [m|]; simpl; [eauto|].
  discriminate H.
Qed.

(** The body of the [try] block, call by call. *)
Lemma body_eq (w : world) :
  bind (csv_to_sqlite_table w "transactions")
    (fun _ => bind (run_sql_scripts w) (fun _ => say w Completed)) []
  = match read_csv w with
    | Some m => ([], Raises m)
    | None =>
        match to_sql w with
        | Some m => ([ToSql "transactions"], Raises m)
        | None =>
            match print w Wrote with
            | Some m => ([ToSql "transactions"], Raises m)
            | None =>
                match run_scripts w [] (sorted (sql_files w))
                        [ToSql "transactions"] with
                | (log, Returns _) => (log, Ingest.call (print w Completed))
                | (log, Raises m) => (log, Raises m)
                end
            end
        end
    end.
Proof.
  cbv beta iota delta [bind csv_to_sqlite_table run_sql_scripts say lift
                          perform Ingest.call].
  destruct (read_csv w); [reflexivity|]. cbv beta iota.
  destruct (to_sql w); [reflexivity|]. cbv beta iota.
  destruct (print w Wrote); [reflexivity|]. cbv beta iota. simpl app.
  destruct (run_scripts w [] (sorted (sql_files w)) [ToSql "transactions"])
    as [log [[]|m]]; reflexivity.
Qed.

(** What the body of the [try] block logs, and when it returns. *)
Lemma body_log (w : world) :
  let body := bind (csv_to_sqlite_table w "transactions")
                (fun _ => bind (run_sql_scripts w)
                               (fun _ => say w Completed)) in
  match read_csv w with
  | Some m => body [] = ([], Raises m)
  | None =>
      exists ran,
        ran `prefix_of` sorted (sql_files w)
        /\ fst (body []) = ToSql "transactions" :: map ExecuteScript ran
        /\ (to_sql w <> None -> ran = [])
        /\ (print w Wrote <> None -> ran = [])
        /\ (snd (body []) = Returns tt ->
            to_sql w = None /\ ran = sorted (sql_files w))
  end.
Proof.
  intros body. subst body. rewrite body_eq.
  destruct (read_csv w) as [m|]; [reflexivity|].
  destruct (to_sql w) as [m|].
  { exists []. simpl. repeat split; auto using prefix_nil; congruence. }
  destruct (print w Wrote) as [m|].
  { exists []. simpl. repeat split; auto using prefix_nil; congruence. }
  destruct (run_scripts_log w (sorted (sql_files w)) []
              [ToSql "transactions"]) as (ran & Hp & Hl & Hr).
  exists ran.
  destruct (run_scripts w [] (sorted (sql_files w)) [ToSql "transactions"])
    as [log [[]|m]]; simpl in *.
  - repeat split; auto; congruence.
  - repeat split; auto; congruence.
Qed.

End TransformFacts.

(** Once the connection is open, every run logs the same shape: the table
    of transactions is replaced first, unless the CSV file cannot be read;
    then scripts are executed, a prefix of the [.sql] files in sorted
    order, none when the table could not be written or the line about it
    could not be printed; then the commit is attempted, whatever happened
    before, also after a failure; and the connection is closed exactly
    when the commit succeeded.  An exception
    of the commit, or of the close, is the one [main] raises, whatever the
    body raised.  When the connection is not opened, nothing is logged and
    [main] raises. *)
Theorem transform_log (w : Transform.world) (csv_path : string) :
  let log := fst (Transform.main w csv_path []) in
  let outcome := snd (Transform.main w csv_path []) in
  if opened w then
    exists body,
      log = body ++ Transform.Commit
                    :: match Transform.commit w with
                       | None => [Transform.Close]
                       | Some _ => []
                       end
      /\ match Transform.read_csv w with
         | Some _ => body = []
         | None =>
             exists ran,
               ran `prefix_of` Transform.sorted (Transform.sql_files w)
               /\ body = Transform.ToSql "transactions"
                         :: map Transform.ExecuteScript ran
               /\ (Transform.to_sql w <> None -> ran = [])
               /\ (Transform.print w Transform.Wrote <> None -> ran = [])
         end
      /\ (forall m, Transform.commit w = Some m -> outcome = Raises m)
      /\ (forall m, Transform.commit w = None ->
                    Transform.close w = Some m -> outcome = Raises m)
  else log = [] /\ exists m, outcome = Raises m.
Proof.
  intros log outcome. subst log outcome.
  destruct (opened w) eqn:Ho;
    [|now apply TransformFacts.main_not_opened].
  rewrite (TransformFacts.main_opened w csv_path Ho).
  pose proof (TransformFacts.body_log w) as Hb. cbv zeta in Hb.
  unfold Transform.try_finally.
  destruct (Transform.bind (Transform.csv_to_sqlite_table w "transactions")
              (fun _ => Transform.bind (Transform.run_sql_scripts w)
                          (fun _ => Transform.say w Transform.Completed))
              []) as [blog bout].
  exists blog.
  unfold Transform.bind, Transform.perform.
  destruct (Transform.commit w) as [mc|]; simpl.
  - split; [reflexivity|]. split.
    + destruct (Transform.read_csv w); [congruence|].
      destruct Hb as (ran & Hp & Hl & Ht & Hw & _). exists ran. auto.
    + split; [intros m [= <-]; reflexivity | discriminate].
  - split.
    + destruct (Transform.close w); simpl; now rewrite <- app_assoc.
    + split.
      * destruct (Transform.read_csv w); [congruence|].
        destruct Hb as (ran & Hp & Hl & Ht & Hw & _). exists ran. auto.
      * split; [discriminate|].
        intros m _ ->. reflexivity.
Qed.

(** When [main] returns, it has replaced the table, executed every [.sql]
    file once, in ascending order of the names, committed and closed, in
    this order. *)
Theorem transform_returns (w : Transform.world) (csv_path : string) :
  snd (Transform.main w csv_path []) = Returns tt ->
  exists ran,
    fst (Transform.main w csv_path [])
    = Transform.ToSql "transactions"
      :: map Transform.ExecuteScript ran
         ++ [Transform.Commit; Transform.Close]
    /\ Permutation ran (Transform.sql_files w)
    /\ ascending ran.
Proof.
  intros Hret.
  destruct (opened w) eqn:Ho.
  2:{ destruct (TransformFacts.main_not_opened w csv_path Ho) as (_ & m & H).
      congruence. }
  rewrite (TransformFacts.main_opened w csv_path Ho) in *.
  pose proof (TransformFacts.body_log w) as Hb. cbv zeta in Hb.
  unfold Transform.try_finally in *.
  destruct (Transform.bind (Transform.csv_to_sqlite_table w "transactions")
              (fun _ => Transform.bind (Transform.run_sql_scripts w)
                          (fun _ => Transform.say w Transform.Completed))
              []) as [blog bout].
  unfold Transform.bind, Transform.perform in *.
  destruct (Transform.commit w) as [mc|]; simpl in *; [discriminate|].
  destruct (Transform.close w) as [mc|]; simpl in *; [discriminate|].
  subst bout.
  destruct (Transform.read_csv w); [discriminate|].
  destruct Hb as (ran & _ & Hl & _ & _ & Hr).
  destruct (Hr eq_refl) as [_ ->].
  exists (Transform.sorted (Transform.sql_files w)).
  split; [|split].
  - rewrite Hl. simpl. now rewrite <- app_assoc.
  - apply TransformFacts.sorted_Permutation.
  - apply TransformFacts.sorted_ascending.
Qed.

Lemma transform_returns_witness :
  fst (Transform.main Sample.transform_world "staged.csv" [])
  = [Transform.ToSql "transactions";
     Transform.ExecuteScript "B.sql";
     Transform.ExecuteScript "a.sql";
     Transform.ExecuteScript "b.sql";
     Transform.Commit; Transform.Close]
  /\ exists ran,
       fst (Transform.main Sample.transform_world "staged.csv" [])
       = Transform.ToSql "transactions"
         :: map Transform.ExecuteScript ran
            ++ [Transform.Commit; Transform.Close]
       /\ Permutation ran (Transform.sql_files Sample.transform_world).
Proof.
  split; [reflexivity|].
  destruct (transform_returns Sample.transform_world "staged.csv" eq_refl)
    as (ran & Hlog & Hperm & _).
  exists ran. split; assumption.
Defined.
